(** * AutoDPD: dependency and Python-version detection

    A shallow embedding of [src/autodepend/autodpd.py] (class [autodpd]) and
    the properties of its analysis engine.

    Python values are modelled as the code has them:
    - the version numbers are Python [float]s, that is IEEE binary64 values,
      here Rocq's primitive floats, so that the literal [3.10] is read the way
      Python reads it;
    - a [set] is a duplicate-free list ([set_add]), in insertion order; every
      set the program returns is either sorted or only consumed by [max];
    - exceptions and [print] are an error/writer monad [M];
    - what the program obtains from libraries ([ast.parse] with [ast.walk],
      [json.load], [Path.rglob], [importlib.util.find_spec],
      [sys.stdlib_module_names], [importlib.metadata.distributions],
      [str.lower]) is the record [world], an explicit input of every
      function. *)

From Stdlib Require Import PrimFloat Uint63 ZArith List ListSet String Ascii Bool Arith Lia.
From Stdlib Require Import Sorted Permutation.
Import ListNotations.
Set Warnings "-inexact-float,-register-all".

Local Open Scope string_scope.
Local Open Scope list_scope.

(** ** Python strings *)

Module Str.

(** [s.split(c)] for a one-character separator. *)
Fixpoint split (c : ascii) (s : string) : list string :=
  match s with
  | EmptyString => [""]
  | String a s' =>
      if Ascii.eqb a c then "" :: split c s'
      else match split c s' with
           | [] => [String a ""]
           | h :: t => String a h :: t
           end
  end.

(** [s.split(c)[0]]. *)
Definition first_component (c : ascii) (s : string) : string :=
  hd "" (split c s).

Definition lower_ascii (a : ascii) : ascii :=
  let n := nat_of_ascii a in
  if ((65 <=? n)%nat && (n <=? 90)%nat)%bool then ascii_of_nat (n + 32) else a.

(** Lower-casing of the letters A to Z: what [s.lower()] gives on ASCII
    text.  It serves the example worlds, whose names are ASCII; the analyses
    take [str.lower] itself from the [world]. *)
Fixpoint ascii_lower (s : string) : string :=
  match s with
  | EmptyString => EmptyString
  | String a s' => String (lower_ascii a) (ascii_lower s')
  end.

(** [sub in s]. *)
Fixpoint contains (sub s : string) : bool :=
  (String.prefix sub s ||
   match s with
   | EmptyString => false
   | String _ s' => contains sub s'
   end)%bool.

(** [bool(s)]: a string is truthy when it is not empty. *)
Definition truthy (s : string) : bool :=
  match s with EmptyString => false | _ => true end.

(** [sep.join(l)]. *)
Definition join (sep : string) (l : list string) : string := String.concat sep l.

Fixpoint insert_sorted (x : string) (l : list string) : list string :=
  match l with
  | [] => [x]
  | y :: l' => if String.leb x y then x :: l else y :: insert_sorted x l'
  end.

(** [sorted(l)] on strings: ascending, by code point. *)
Definition sorted (l : list string) : list string :=
  fold_right insert_sorted [] l.

Definition has_char (c : ascii) (s : string) : bool :=
  existsb (Ascii.eqb c) (list_ascii_of_string s).

End Str.

(** ** Paths ([pathlib.PurePosixPath]) *)

Module Path.

Definition parts (p : string) : list string :=
  filter (fun c => (negb (String.eqb c "") && negb (String.eqb c "."))%bool)
         (Str.split "/" p).

(** [Path(p).name]: the final path component, [''] when there is none. *)
Definition name (p : string) : string := last (parts p) "".

(** [Path(p).suffix]: the last dot-extension of the final component; a
    leading or a trailing dot gives no suffix. *)
Definition suffix (p : string) : string :=
  let n := name p in
  let ext := last (Str.split "." n) "" in
  let i := String.length n - String.length ext - 1 in
  if ((2 <=? List.length (Str.split "." n))%nat && (0 <? i)%nat
      && (0 <? String.length ext)%nat)%bool
  then "." ++ ext else "".

End Path.

(** ** Exceptions and printing *)

Inductive exn : Set :=
| SyntaxError | JSONDecodeError | KeyError | TypeError
| UnicodeDecodeError | ValueError | OSError | ModuleNotFoundError
| AttributeError.

Inductive result (A : Type) : Type :=
| Ok (a : A)
| Raise (e : exn).
Arguments Ok {A} a.
Arguments Raise {A} e.

(** A computation yields a value or raises, and prints lines on the way. *)
Definition M (A : Type) : Type := (result A * list string)%type.

Definition ret {A} (a : A) : M A := (Ok a, []).
Definition raise {A} (e : exn) : M A := (Raise e, []).
Definition print (line : string) : M unit := (Ok tt, [line]).
Definition lift {A} (r : result A) : M A := (r, []).

Definition bind {A B} (m : M A) (f : A -> M B) : M B :=
  match m with
  | (Ok a, out) => let (r, out') := f a in (r, out ++ out')
  | (Raise e, out) => (Raise e, out)
  end.

Notation "x <- m ;; k" := (bind m (fun x => k))
  (at level 61, m at next level, right associativity).
Notation "m ;;; k" := (bind m (fun _ => k))
  (at level 61, right associativity).

(** [try: body / except <handled>: handler]. *)
Definition try_except {A} (body : M A) (handled : exn -> bool) (handler : M A) : M A :=
  match body with
  | (Raise e, out) =>
      if handled e then let (r, out') := handler in (r, out ++ out') else body
  | _ => body
  end.

(** [for x in l: s = body(x, s)]. *)
Fixpoint for_each {A S} (body : A -> S -> M S) (l : list A) (s : S) : M S :=
  match l with
  | [] => ret s
  | x :: l' => s' <- body x s ;; for_each body l' s'
  end.

Definition value {A} (m : M A) : result A := fst m.
Definition output {A} (m : M A) : list string := snd m.

Definition is_SyntaxError (e : exn) : bool :=
  match e with SyntaxError => true | _ => false end.
Definition is_JSONDecodeError_or_KeyError (e : exn) : bool :=
  match e with JSONDecodeError | KeyError => true | _ => false end.
Definition is_JSONDecodeError_KeyError_or_SyntaxError (e : exn) : bool :=
  match e with JSONDecodeError | KeyError | SyntaxError => true | _ => false end.

(** ** Python floats *)

Module Float.

Local Open Scope float_scope.

(** [set.add] on a set of floats; membership is [==]. *)
Fixpoint add (x : float) (s : list float) : list float :=
  match s with
  | [] => [x]
  | y :: s' => if (y =? x) then s else y :: add x s'
  end.

(** [s.update(t)]. *)
Definition update (s t : list float) : list float :=
  fold_left (fun acc x => add x acc) t s.

(** [max(s)] on a non-empty iterable: the first item, replaced by each later
    item that compares greater. *)
Definition max_from (m : float) (l : list float) : float :=
  fold_left (fun m x => if (m <? x) then x else m) l m.

(** [x >= y]. *)
Definition ge (x y : float) : bool := (y <=? x).

Definition digit (n : nat) : string :=
  String (ascii_of_nat (48 + n)) "".

Definition of_nat (n : nat) : float :=
  PrimFloat.of_uint63 (Uint63.of_Z (Z.of_nat n)).

(** The float that a decimal literal denotes: [decimal 310 2] is [3.10].
    Both operands are exact, and the division rounds to nearest as the
    reading of the literal does. *)
Definition decimal (digits scale : nat) : float :=
  of_nat digits / of_nat (10 ^ scale).

(** [str(x)]: Python prints the shortest decimal that reads back as [x].
    The model searches the decimals [a.b] with one integer and one fractional
    digit, which covers every value the program formats. *)
Definition str (x : float) : string :=
  match find (fun k => (of_nat k / of_nat 10 =? x)) (seq 0 100) with
  | Some k => digit (k / 10) ++ "." ++ digit (k mod 10)
  | None => "nan"
  end.

End Float.

(** ** Python dicts with string keys, in insertion order *)

Module Dict.

(** [d[k] = v]. *)
Fixpoint set (k v : string) (d : list (string * string)) : list (string * string) :=
  match d with
  | [] => [(k, v)]
  | (k', v') :: d' => if String.eqb k' k then (k, v) :: d' else (k', v') :: set k v d'
  end.

(** [d[k]] when [k in d]. *)
Fixpoint get (k : string) (d : list (string * string)) : option string :=
  match d with
  | [] => None
  | (k', v) :: d' => if String.eqb k' k then Some v else get k d'
  end.

End Dict.

(** ** Syntax trees

    The analyses only iterate [ast.walk(tree)] and inspect, for each node, its
    class and a few attributes.  A parsed unit is therefore the sequence of
    nodes that [ast.walk] yields, each with the attributes the code reads. *)

(** The shapes of an expression that the detector tells apart. *)
Inductive expr : Set :=
| Name (id : string)
| Dict
| OtherExpr.

Inductive operator : Set :=
| BitOr
| OtherOp.

Inductive node : Set :=
| Import (names : list string)          (* [alias.name] of each target *)
| ImportFrom (module : option string)   (* [None] for [from . import x] *)
| AnnAssign
| JoinedStr
| ClassDef (decorator_list : list expr)
| NamedExpr
| BinOp (left : expr) (op : operator) (right : expr)
| Match
| OtherNode.

(** ** JSON documents, as [json.load] returns them *)

Inductive json : Set :=
| JNull
| JBool (b : bool)
| JNumber (n : Z)
| JString (s : string)
| JList (items : list json)
| JDict (items : list (string * json)).

Module Json.

Fixpoint lookup (k : string) (items : list (string * json)) : option json :=
  match items with
  | [] => None
  | (k', v) :: rest => if String.eqb k' k then Some v else lookup k rest
  end.

(** [v[key]] for a string key. *)
Definition subscript (v : json) (key : string) : result json :=
  match v with
  | JDict items =>
      match lookup key items with
      | Some x => Ok x
      | None => Raise KeyError
      end
  | _ => Raise TypeError
  end.

Fixpoint chars (s : string) : list json :=
  match s with
  | EmptyString => []
  | String a s' => JString (String a "") :: chars s'
  end.

(** [iter(v)]: the items of a list, the keys of a dict, the characters of a
    string; anything else is not iterable. *)
Definition iterate (v : json) : result (list json) :=
  match v with
  | JList items => Ok items
  | JDict items => Ok (map (fun kv => JString (fst kv)) items)
  | JString s => Ok (chars s)
  | _ => Raise TypeError
  end.

(** [v == 'code']. *)
Definition is_code (v : json) : bool :=
  match v with
  | JString s => String.eqb s "code"
  | _ => false
  end.

(** [''.join(items)]: every item must be a string. *)
Fixpoint join_items (items : list json) : result string :=
  match items with
  | [] => Ok ""
  | JString s :: rest =>
      match join_items rest with
      | Ok t => Ok (s ++ t)%string
      | Raise e => Raise e
      end
  | _ :: _ => Raise TypeError
  end.

End Json.

(** ** The environment of a run *)

(** What [importlib.util.find_spec] returns: a spec with its [origin]. *)
Record module_spec : Set := { origin : option string }.

(** An entry that [Path(directory).rglob('*')] yields: its path, and what
    [open(path, 'r', encoding='utf-8')] followed by [read()] gives, the text
    or the exception raised (the entry is a directory, the bytes are not
    UTF-8). *)
Record fs_entry : Set := {
  file_path : string;
  read_text : result string
}.

Record world : Type := {
  (* [list(Path(directory).rglob('*'))] *)
  rglob : string -> result (list fs_entry);
  (* [list(ast.walk(ast.parse(text)))] *)
  ast_parse : string -> result (list node);
  (* [hasattr(ast, 'Match')] *)
  has_Match : bool;
  (* [json.loads(text)] *)
  json_loads : string -> result json;
  (* [sys.stdlib_module_names] *)
  stdlib_module_names : list string;
  (* [importlib.util.find_spec(name)] *)
  find_spec : string -> result (option module_spec);
  (* [(dist.metadata['Name'], dist.version)] for each of [distributions()]:
     the name is [None] when the metadata has none, and the version is the
     text that the f-string of the report entry renders *)
  distributions : list (option string * string);
  (* [s.lower()], the lower-casing of the interpreter: of every cased
     character of the text, not only of the letters A to Z *)
  str_lower : string -> string
}.

(** ** The reports *)

(** The value of [detect_project_dependencies]: three sorted lists. *)
Record dependency_report : Set := {
  third_party : list string;
  standard_lib : list string;
  unknown : list string
}.

(** An item of the manifest's [dependencies]: a plain string, or the nested
    [{'pip': [...]}]. *)
Inductive manifest_item : Set :=
| Pin (s : string)
| PipDict (pip : list string).

Record conda_environment : Set := {
  name : string;
  channels : list string;
  dependencies : list manifest_item
}.

(** The dict that [predict_python_environment] returns.  [base_requirements]
    is [None] when the key is absent, and [Some v] when the key holds [v];
    the value is what [generate_base_requirements] returned ([None] or a
    dict of pins). *)
Record environment : Set := {
  recommended_python_version : float;
  python_version_reasoning : list string;
  env_dependencies : dependency_report;
  conda_environment_yaml : conda_environment;
  base_requirements : option (option (list (string * string)))
}.

(** ** The class [autodpd] *)

Section Autodpd.

Variable w : world.

(** [open(file_path, 'r', encoding='utf-8')] and [file.read()]. *)
Definition open_read (f : fs_entry) : M string := lift (read_text f).

Definition add_name (s : string) (imports : list string) : list string :=
  set_add string_dec (Str.first_component "." s) imports.

(** The body of [for node in ast.walk(tree)] of the two import analyses. *)
Definition import_node (imports : list string) (n : node) : list string :=
  match n with
  | Import names => fold_left (fun acc nm => add_name nm acc) names imports
  | ImportFrom (Some m) => if Str.truthy m then add_name m imports else imports
  | _ => imports
  end.

Definition walk_imports (tree : list node) : list string :=
  fold_left import_node tree [].

Definition analyze_imports (f : fs_entry) : M (list string) :=
  text <- open_read f ;;
  match ast_parse w text with
  | Ok tree => ret (walk_imports tree)
  | Raise SyntaxError =>
      print ("Warning: Syntax error in " ++ file_path f)%string ;;;
      ret []
  | Raise e => raise e
  end.

Definition is_standard_library (module_name : string) : M bool :=
  if existsb (String.eqb module_name) (stdlib_module_names w) then ret true
  else
    spec <- lift (find_spec w module_name) ;;
    match spec with
    | None => ret false
    | Some sp =>
        let location := match origin sp with
                        | Some o => if Str.truthy o then o else ""
                        | None => ""
                        end in
        ret (negb (Str.contains "site-packages" location)
             && negb (Str.contains "dist-packages" location))
    end.

(** [[cell['source'] for cell in notebook['cells'] if cell['cell_type'] == 'code']]. *)
Fixpoint select_code (cells : list json) : result (list json) :=
  match cells with
  | [] => Ok []
  | cell :: rest =>
      match Json.subscript cell "cell_type" with
      | Raise e => Raise e
      | Ok ty =>
          if Json.is_code ty then
            match Json.subscript cell "source" with
            | Raise e => Raise e
            | Ok src =>
                match select_code rest with
                | Ok l => Ok (src :: l)
                | Raise e => Raise e
                end
            end
          else select_code rest
      end
  end.

Definition code_cells (notebook : json) : result (list json) :=
  match Json.subscript notebook "cells" with
  | Raise e => Raise e
  | Ok cells =>
      match Json.iterate cells with
      | Raise e => Raise e
      | Ok l => select_code l
      end
  end.

(** [source if isinstance(source, str) else ''.join(source)]. *)
Definition source_text (source : json) : result string :=
  match source with
  | JString s => Ok s
  | other =>
      match Json.iterate other with
      | Ok items => Json.join_items items
      | Raise e => Raise e
      end
  end.

Fixpoint source_texts (sources : list json) : result (list string) :=
  match sources with
  | [] => Ok []
  | src :: rest =>
      match source_text src with
      | Raise e => Raise e
      | Ok s =>
          match source_texts rest with
          | Ok l => Ok (s :: l)
          | Raise e => Raise e
          end
      end
  end.

(** The first statements of both notebook analyses: load the document,
    select the code cells, and join their sources with newlines. *)
Definition combined_code (f : fs_entry) : M string :=
  text <- open_read f ;;
  notebook <- lift (json_loads w text) ;;
  cells <- lift (code_cells notebook) ;;
  texts <- lift (source_texts cells) ;;
  ret (Str.join (String "010" "") texts).

Definition analyze_notebook_imports (f : fs_entry) : M (list string) :=
  try_except
    (code <- combined_code f ;;
     try_except
       (tree <- lift (ast_parse w code) ;;
        ret (walk_imports tree))
       is_SyntaxError
       (print ("Warning: Syntax error in notebook " ++ file_path f)%string ;;;
        ret []))
    is_JSONDecodeError_or_KeyError
    (print ("Warning: Could not parse notebook " ++ file_path f)%string ;;;
     ret []).

Definition is_Dict (e : expr) : bool :=
  match e with Dict => true | _ => false end.

Definition is_dataclass (decorator : expr) : bool :=
  match decorator with
  | Name id => String.eqb id "dataclass"
  | _ => false
  end.

(** The body of [for node in ast.walk(tree)] of the two version analyses. *)
Definition version_node (required_versions : list float) (n : node) : list float :=
  match n with
  | AnnAssign => Float.add 3.5 required_versions
  | JoinedStr => Float.add 3.6 required_versions
  | ClassDef decorator_list =>
      fold_left (fun acc d => if is_dataclass d then Float.add 3.7 acc else acc)
                decorator_list required_versions
  | NamedExpr => Float.add 3.8 required_versions
  | BinOp lhs BitOr rhs =>
      if is_Dict lhs || is_Dict rhs
      then Float.add 3.9 required_versions else required_versions
  | Match =>
      if has_Match w then Float.add 3.10 required_versions else required_versions
  | _ => required_versions
  end.

Definition walk_versions (tree : list node) : list float :=
  fold_left version_node tree [].

Definition analyze_python_version_notebook (f : fs_entry) : M (list float) :=
  try_except
    (code <- combined_code f ;;
     tree <- lift (ast_parse w code) ;;
     ret (walk_versions tree))
    is_JSONDecodeError_KeyError_or_SyntaxError
    (print ("Warning: Could not analyze Python version in notebook " ++ file_path f)%string ;;;
     ret []).

Definition analyze_python_version (f : fs_entry) : M (list float) :=
  text <- open_read f ;;
  match ast_parse w text with
  | Ok tree => ret (walk_versions tree)
  | Raise SyntaxError => ret []
  | Raise e => raise e
  end.

Definition empty_dependencies : dependency_report :=
  {| third_party := []; standard_lib := []; unknown := [] |}.

(** [{dist.metadata['Name'].lower(): dist.version for dist in distributions()}],
    built in the order of [distributions()]: a later distribution replaces
    an earlier one of the same key, and a distribution without a name makes
    [None.lower()] raise. *)
Fixpoint installed_from (dists : list (option string * string))
    (d : list (string * string)) : result (list (string * string)) :=
  match dists with
  | [] => Ok d
  | (None, _) :: _ => Raise AttributeError
  | (Some dist_name, version) :: rest =>
      installed_from rest (Dict.set (str_lower w dist_name) version d)
  end.

Definition installed_packages : result (list (string * string)) :=
  installed_from (distributions w) [].

(** The body of [for import_name in imports]. *)
Definition classify_import (installed : list (string * string))
    (import_name : string) (dependencies : dependency_report) : M dependency_report :=
  let import_name_lower := str_lower w import_name in
  std <- is_standard_library import_name ;;
  if std then
    ret {| third_party := third_party dependencies;
           standard_lib := set_add string_dec import_name (standard_lib dependencies);
           unknown := unknown dependencies |}
  else
    match Dict.get import_name_lower installed with
    | Some version =>
        ret {| third_party := set_add string_dec (import_name ++ "==" ++ version)%string
                                      (third_party dependencies);
               standard_lib := standard_lib dependencies;
               unknown := unknown dependencies |}
    | None =>
        ret {| third_party := third_party dependencies;
               standard_lib := standard_lib dependencies;
               unknown := set_add string_dec import_name (unknown dependencies) |}
    end.

(** The body of [for file_path in Path(directory).rglob('*')] of
    [detect_project_dependencies]. *)
Definition scan_imports (installed : list (string * string))
    (f : fs_entry) (dependencies : dependency_report) : M dependency_report :=
  if String.eqb (Path.suffix (file_path f)) ".py" then
    imports <- analyze_imports f ;;
    for_each (classify_import installed) imports dependencies
  else if String.eqb (Path.suffix (file_path f)) ".ipynb" then
    imports <- analyze_notebook_imports f ;;
    for_each (classify_import installed) imports dependencies
  else ret dependencies.

Definition detect_project_dependencies (directory : string) : M dependency_report :=
  installed <- lift installed_packages ;;
  files <- lift (rglob w directory) ;;
  dependencies <- for_each (scan_imports installed) files empty_dependencies ;;
  ret {| third_party := Str.sorted (third_party dependencies);
         standard_lib := Str.sorted (standard_lib dependencies);
         unknown := Str.sorted (unknown dependencies) |}.

(** The body of [for file_path in Path(directory).rglob('*')] of
    [get_python_version]. *)
Definition scan_versions (f : fs_entry) (required_versions : list float) : M (list float) :=
  if String.eqb (Path.suffix (file_path f)) ".py" then
    file_versions <- analyze_python_version f ;;
    ret (Float.update required_versions file_versions)
  else if String.eqb (Path.suffix (file_path f)) ".ipynb" then
    file_versions <- analyze_python_version_notebook f ;;
    ret (Float.update required_versions file_versions)
  else ret required_versions.

(** [max(required_versions) if required_versions else 3.5]. *)
Definition minimum_version (required_versions : list float) : float :=
  match required_versions with
  | [] => 3.5
  | x :: rest => Float.max_from x rest
  end.

Definition get_python_version (directory : string) : M float :=
  files <- lift (rglob w directory) ;;
  required_versions <- for_each scan_versions files [] ;;
  ret (minimum_version required_versions).

(** The body ends after the two analyses, so the call returns [None]. *)
Definition generate_base_requirements (directory : string) (output_file : string)
  : M (option (list (string * string))) :=
  python_version <- get_python_version directory ;;
  deps <- detect_project_dependencies directory ;;
  ret None.

(** The six [if python_version >= t: reasoning.append(...)] statements. *)
Definition python_version_reasoning_for (python_version : float) : list string :=
  let r := [] in
  let r := if Float.ge python_version 3.10
           then r ++ ["Match statements detected (Python 3.10+)"] else r in
  let r := if Float.ge python_version 3.9
           then r ++ ["Dictionary union operators detected (Python 3.9+)"] else r in
  let r := if Float.ge python_version 3.8
           then r ++ ["Walrus operator detected (Python 3.8+)"] else r in
  let r := if Float.ge python_version 3.7
           then r ++ ["Dataclasses detected (Python 3.7+)"] else r in
  let r := if Float.ge python_version 3.6
           then r ++ ["F-strings detected (Python 3.6+)"] else r in
  let r := if Float.ge python_version 3.5
           then r ++ ["Type hints detected (Python 3.5+)"] else r in
  r.

Definition predict_python_environment (directory : string) (generate_base_reqs : bool)
  : M environment :=
  python_version <- get_python_version directory ;;
  deps <- detect_project_dependencies directory ;;
  let yaml :=
    {| name := Path.name directory;
       channels := ["defaults"; "conda-forge"];
       dependencies := [Pin ("python>=" ++ Float.str python_version)%string;
                        Pin "pip";
                        PipDict (third_party deps)] |} in
  let reasoning := python_version_reasoning_for python_version in
  if generate_base_reqs then
    reqs <- generate_base_requirements directory "base_requirements.txt" ;;
    ret {| recommended_python_version := python_version;
           python_version_reasoning := reasoning;
           env_dependencies := deps;
           conda_environment_yaml := yaml;
           base_requirements := Some reqs |}
  else
    ret {| recommended_python_version := python_version;
           python_version_reasoning := reasoning;
           env_dependencies := deps;
           conda_environment_yaml := yaml;
           base_requirements := None |}.

End Autodpd.

(** ** Notions of the properties *)

(** The import set of one scanned unit, as [detect_project_dependencies]
    obtains it. *)
Definition unit_imports (w : world) (f : fs_entry) : M (list string) :=
  if String.eqb (Path.suffix (file_path f)) ".py" then analyze_imports w f
  else if String.eqb (Path.suffix (file_path f)) ".ipynb" then analyze_notebook_imports w f
  else ret [].

Definition imports_of (w : world) (f : fs_entry) : list string :=
  match value (unit_imports w f) with
  | Ok imports => imports
  | Raise _ => []
  end.

(** Every top-level import name found in any unit of the project. *)
Definition project_imports (w : world) (directory : string) : list string :=
  match rglob w directory with
  | Ok files => flat_map (imports_of w) files
  | Raise _ => []
  end.

(** The value of [required_versions] when the loop of [get_python_version]
    ends: the version features detected across all units. *)
Definition project_versions (w : world) (directory : string) : M (list float) :=
  files <- lift (rglob w directory) ;;
  for_each (scan_versions w) files [].

(** The module name of a report entry: the entry itself, or what stands
    before [==] in [name==version]. *)
Definition entry_name (entry : string) : string := Str.first_component "=" entry.

Definition disjoint (l1 l2 : list string) : Prop :=
  forall s, In s l1 -> In s l2 -> False.

(** The same world with another directory content. *)
Definition with_files (w : world) (files : list fs_entry) : world :=
  {| rglob := fun _ => Ok files;
     ast_parse := ast_parse w;
     has_Match := has_Match w;
     json_loads := json_loads w;
     stdlib_module_names := stdlib_module_names w;
     find_spec := find_spec w;
     distributions := distributions w;
     str_lower := str_lower w |}.

(** A notebook document that is not valid JSON, or a JSON object without
    the key [cells]. *)
Definition malformed_notebook (w : world) (f : fs_entry) : Prop :=
  exists text, read_text f = Ok text /\
    (json_loads w text = Raise JSONDecodeError \/
     exists items, json_loads w text = Ok (JDict items) /\
                   Json.lookup "cells" items = None).

(** The thresholds with their reasoning lines, highest first, without the
    one of the match statement. *)
Definition thresholds_below_match : list (float * string) :=
  [(3.9%float, "Dictionary union operators detected (Python 3.9+)");
   (3.8%float, "Walrus operator detected (Python 3.8+)");
   (3.7%float, "Dataclasses detected (Python 3.7+)");
   (3.6%float, "F-strings detected (Python 3.6+)");
   (3.5%float, "Type hints detected (Python 3.5+)")].

Definition match_line : string := "Match statements detected (Python 3.10+)".

(** [spec.origin if spec.origin else ''] of [is_standard_library]. *)
Definition location_of (sp : module_spec) : string :=
  match origin sp with
  | Some o => if Str.truthy o then o else ""
  | None => ""
  end.

(** The location lies under [site-packages] or [dist-packages]. *)
Definition third_party_location (sp : module_spec) : bool :=
  Str.contains "site-packages" (location_of sp)
  || Str.contains "dist-packages" (location_of sp).

(** The dict [installed_packages] of a run whose distributions all have a
    name (the other runs raise before they use it). *)
Definition registry (w : world) : list (string * string) :=
  match installed_packages w with
  | Ok installed => installed
  | Raise _ => []
  end.

(** The registry lookup of [detect_project_dependencies]: the lower-cased
    import name in the lower-cased distribution names. *)
Definition installed_version (w : world) (import_name : string) : option string :=
  Dict.get (str_lower w import_name) (registry w).

(** What the three sets hold once the names [names] went through the loop
    body [classify_import]. *)
Record classified (w : world) (names : list string) (deps : dependency_report) : Prop := {
  classified_total :
    forall n, In n names -> exists b, value (is_standard_library w n) = Ok b;
  classified_standard_lib :
    forall s, In s (standard_lib deps) <->
              In s names /\ value (is_standard_library w s) = Ok true;
  classified_unknown :
    forall s, In s (unknown deps) <->
              In s names /\ value (is_standard_library w s) = Ok false /\
              installed_version w s = None;
  classified_third_party :
    forall s, In s (third_party deps) <->
              exists n version,
                In n names /\ value (is_standard_library w n) = Ok false /\
                installed_version w n = Some version /\
                s = (n ++ "==" ++ version)%string
}.

(** No name of the list contains the character [=]; import names are
    identifiers. *)
Definition no_equals_sign (names : list string) : bool :=
  forallb (fun n => negb (Str.has_char "=" n)) names.

(** The versions that the detectors add, as the code writes them. *)
Definition version_table : list float :=
  [3.5%float; 3.6%float; 3.7%float; 3.8%float; 3.9%float; 3.10%float].

(** The position of a version in the ordering of the specification,
    3.5 < 3.6 < 3.7 < 3.8 < 3.9 < 3.10; the value that the code writes
    [3.10] stands for the version 3.10. *)
Fixpoint position (v : float) (table : list float) : nat :=
  match table with
  | [] => 0
  | x :: rest => if PrimFloat.eqb x v then 0 else S (position v rest)
  end.

Definition spec_rank (v : float) : nat := position v version_table.

(** Every version of the list is one that the detectors add. *)
Definition known_versions (l : list float) : Prop :=
  forall x, In x l -> In x version_table.

(** ** Concrete runs *)

Module Demo.

Definition newline : string := String "010" "".

Definition imports_src : string := "import os" ++ newline ++ "import json".
Definition fstring_src : string := "print(f'{x}')".
Definition requests_src : string := "import requests" ++ newline ++ "import yaml.nodes".
Definition match_src : string :=
  "match command:" ++ newline ++ "    case _:" ++ newline ++ "        pass".
Definition union_match_src : string :=
  "cfg = {} | extra" ++ newline ++ match_src.
Definition hint_match_src : string :=
  "command: str" ++ newline ++ match_src.

(** [ast.walk(ast.parse(text))] on the texts above; any other text here is
    not Python. *)
Definition parse_table : list (string * list node) :=
  [(imports_src, [OtherNode; Import ["os"]; Import ["json"]; OtherNode; OtherNode]);
   (fstring_src, [OtherNode; OtherNode; OtherNode; OtherNode; JoinedStr;
                  OtherNode; OtherNode; OtherNode; OtherNode]);
   (requests_src, [OtherNode; Import ["requests"]; Import ["yaml.nodes"];
                   OtherNode; OtherNode]);
   (match_src, [OtherNode; Match; OtherNode; OtherNode; OtherNode; OtherNode;
                OtherNode]);
   (union_match_src, [OtherNode; OtherNode; Match; OtherNode;
                      BinOp Dict BitOr (Name "extra"); OtherNode; OtherNode;
                      OtherNode; OtherNode; OtherNode; OtherNode; OtherNode;
                      OtherNode; OtherNode; OtherNode]);
   (hint_match_src, [OtherNode; AnnAssign; Match; OtherNode; OtherNode;
                     OtherNode; OtherNode; OtherNode; OtherNode; OtherNode;
                     OtherNode; OtherNode]);
   ("", [OtherNode])].

Fixpoint assoc {V : Type} (k : string) (table : list (string * V)) : option V :=
  match table with
  | [] => None
  | (k', v) :: rest => if String.eqb k' k then Some v else assoc k rest
  end.

Definition parse (text : string) : result (list node) :=
  match assoc text parse_table with
  | Some tree => Ok tree
  | None => Raise SyntaxError
  end.

Definition quote : string := String "034" "".

(** A notebook with one code cell (two source lines) and one markdown cell. *)
Definition notebook_src : string :=
  "{" ++ quote ++ "cells" ++ quote ++ ": [{" ++
  quote ++ "cell_type" ++ quote ++ ": " ++ quote ++ "code" ++ quote ++ ", " ++
  quote ++ "source" ++ quote ++ ": [" ++ quote ++ "import os\n" ++ quote ++ ", " ++
  quote ++ "import json" ++ quote ++ "]}, {" ++
  quote ++ "cell_type" ++ quote ++ ": " ++ quote ++ "markdown" ++ quote ++ ", " ++
  quote ++ "source" ++ quote ++ ": " ++ quote ++ "# notes" ++ quote ++ "}]}".

(** A JSON object without [cells]. *)
Definition no_cells_src : string :=
  "{" ++ quote ++ "metadata" ++ quote ++ ": {}}".

Definition json_table : list (string * json) :=
  [(notebook_src,
    JDict [("cells",
            JList [JDict [("cell_type", JString "code");
                          ("source", JList [JString ("import os" ++ newline);
                                            JString "import json"])];
                   JDict [("cell_type", JString "markdown");
                          ("source", JString "# notes")]])]);
   (no_cells_src, JDict [("metadata", JDict [])]);
   ("[]", JList [])].

Definition loads (text : string) : result json :=
  match assoc text json_table with
  | Some v => Ok v
  | None => Raise JSONDecodeError
  end.

(** [requests] and [yaml] are installed under [site-packages]; [helpers] is
    a module of the project; [ghost] has metadata but no importable module. *)
Definition spec_table : list (string * string) :=
  [("requests", "/usr/lib/python3.11/site-packages/requests/__init__.py");
   ("yaml", "/usr/lib/python3.11/site-packages/yaml/__init__.py");
   ("helpers", "/home/dev/proj/helpers.py")].

Definition specs (module_name : string) : result (option module_spec) :=
  match assoc module_name spec_table with
  | Some o => Ok (Some {| origin := Some o |})
  | None => Ok None
  end.

Definition world_of (files : list fs_entry) : world :=
  {| rglob := fun _ => Ok files;
     ast_parse := parse;
     has_Match := true;
     json_loads := loads;
     stdlib_module_names := ["ast"; "json"; "os"; "sys"];
     find_spec := specs;
     distributions := [(Some "requests", "2.31.0"); (Some "PyYAML", "6.0.1");
                       (Some "ghost", "1.0")];
     str_lower := Str.ascii_lower |}.

Definition script (path text : string) : fs_entry :=
  {| file_path := path; read_text := Ok text |}.

Definition ghost_src : string := "import ghost".

Definition parse_ghost (text : string) : result (list node) :=
  if String.eqb text ghost_src then Ok [OtherNode; Import ["ghost"]; OtherNode]
  else parse text.

Definition ghost_world : world :=
  {| rglob := fun _ => Ok [script "proj/tool.py" ghost_src;
                           script "proj/deps.py" requests_src];
     ast_parse := parse_ghost;
     has_Match := true;
     json_loads := loads;
     stdlib_module_names := ["ast"; "json"; "os"; "sys"];
     find_spec := specs;
     distributions := [(Some "requests", "2.31.0"); (Some "PyYAML", "6.0.1");
                       (Some "ghost", "1.0")];
     str_lower := Str.ascii_lower |}.

Definition mixed_world : world :=
  world_of [script "proj/app.py" imports_src;
            script "proj/README.md" "notes";
            script "proj/deps.py" requests_src;
            script "proj/nb/explore.ipynb" notebook_src;
            script "proj/nb/broken.ipynb" no_cells_src].

Definition fstring_world : world := world_of [script "proj/show.py" fstring_src].
Definition match_world : world := world_of [script "proj/cli.py" match_src].
Definition union_match_world : world :=
  world_of [script "proj/cfg.py" union_match_src].
Definition hint_match_world : world :=
  world_of [script "proj/cli.py" hint_match_src].

(** A script whose bytes are not UTF-8 ([b'\xff']): [file.read()] raises. *)
Definition undecodable_world : world :=
  world_of [{| file_path := "proj/legacy.py"; read_text := Raise UnicodeDecodeError |};
            script "proj/app.py" imports_src].

(** A notebook file that holds the JSON array [[]]. *)
Definition array_notebook_world : world :=
  world_of [script "proj/nb/list.ipynb" "[]"].

Definition fstring_reasoning : list string :=
  ["Match statements detected (Python 3.10+)";
   "F-strings detected (Python 3.6+)";
   "Type hints detected (Python 3.5+)"].

Definition no_dependencies : dependency_report :=
  {| third_party := []; standard_lib := []; unknown := [] |}.

Definition manifest (version : string) (pip : list string) : conda_environment :=
  {| name := "proj";
     channels := ["defaults"; "conda-forge"];
     dependencies := [Pin ("python>=" ++ version); Pin "pip"; PipDict pip] |}.

Definition fstring_env : environment :=
  {| recommended_python_version := 3.6;
     python_version_reasoning := fstring_reasoning;
     env_dependencies := no_dependencies;
     conda_environment_yaml := manifest "3.6" [];
     base_requirements := None |}.

Definition match_env : environment :=
  {| recommended_python_version := 3.10;
     python_version_reasoning := ["Match statements detected (Python 3.10+)"];
     env_dependencies := no_dependencies;
     conda_environment_yaml := manifest "3.1" [];
     base_requirements := Some None |}.

Definition mixed_report : dependency_report :=
  {| third_party := ["requests==2.31.0"];
     standard_lib := ["json"; "os"];
     unknown := ["yaml"] |}.

Definition ghost_report : dependency_report :=
  {| third_party := ["ghost==1.0"; "requests==2.31.0"];
     standard_lib := [];
     unknown := ["yaml"] |}.

Definition mixed_env : environment :=
  {| recommended_python_version := 3.5;
     python_version_reasoning :=
       ["Match statements detected (Python 3.10+)";
        "Type hints detected (Python 3.5+)"];
     env_dependencies := mixed_report;
     conda_environment_yaml := manifest "3.5" ["requests==2.31.0"];
     base_requirements := Some None |}.

End Demo.

(** ** Further notions *)

(** The import statement [n] names the top-level module [name]. *)
Definition imports_named (n : node) (name : string) : Prop :=
  match n with
  | Import names => exists nm, In nm names /\ Str.first_component "." nm = name
  | ImportFrom (Some m) => m <> "" /\ Str.first_component "." m = name
  | _ => False
  end.

(** The node [n] is a construct for which the detectors add the version
    [v]. *)
Definition detects (w : world) (n : node) (v : float) : Prop :=
  match n with
  | AnnAssign => v = 3.5%float
  | JoinedStr => v = 3.6%float
  | ClassDef decorators => In (Name "dataclass") decorators /\ v = 3.7%float
  | NamedExpr => v = 3.8%float
  | BinOp lhs BitOr rhs => (lhs = Dict \/ rhs = Dict) /\ v = 3.9%float
  | Match => has_Match w = true /\ v = 3.10%float
  | _ => False
  end.

(** A list of strings in ascending order. *)
Definition ascending (l : list string) : Prop :=
  StronglySorted (fun a b => String.leb a b = true) l.

(** The scan of the unit [f] by [detect_project_dependencies] ends normally:
    its import analysis returns, and so does the classification of each of
    its import names. *)
Definition unit_classifies (w : world) (f : fs_entry) : Prop :=
  exists imports,
    value (unit_imports w f) = Ok imports /\
    forall n, In n imports -> exists b, value (is_standard_library w n) = Ok b.

(** The version set of one scanned unit, as [get_python_version] obtains
    it. *)
Definition unit_versions (w : world) (f : fs_entry) : M (list float) :=
  if String.eqb (Path.suffix (file_path f)) ".py" then analyze_python_version w f
  else if String.eqb (Path.suffix (file_path f)) ".ipynb"
       then analyze_python_version_notebook w f
  else ret [].

(** No set of the accumulator holds an entry twice. *)
Definition sets_NoDup (deps : dependency_report) : Prop :=
  NoDup (third_party deps) /\ NoDup (standard_lib deps) /\ NoDup (unknown deps).





Definition versions_of (w : world) (f : fs_entry) : list float :=
  match value (unit_versions w f) with
  | Ok versions => versions
  | Raise _ => []
  end.

(** The pins that the manifest can hold. *)
Definition possible_pins : list string :=
  ["python>=3.5"; "python>=3.6"; "python>=3.7"; "python>=3.8"; "python>=3.9";
   "python>=3.1"].



(** The reasoning lines that go with each recommended version. *)
Definition reasoning_table : list (float * list string) :=
  [(3.5%float,
    ["Match statements detected (Python 3.10+)";
     "Type hints detected (Python 3.5+)"]);
   (3.6%float,
    ["Match statements detected (Python 3.10+)";
     "F-strings detected (Python 3.6+)";
     "Type hints detected (Python 3.5+)"]);
   (3.7%float,
    ["Match statements detected (Python 3.10+)";
     "Dataclasses detected (Python 3.7+)";
     "F-strings detected (Python 3.6+)";
     "Type hints detected (Python 3.5+)"]);
   (3.8%float,
    ["Match statements detected (Python 3.10+)";
     "Walrus operator detected (Python 3.8+)";
     "Dataclasses detected (Python 3.7+)";
     "F-strings detected (Python 3.6+)";
     "Type hints detected (Python 3.5+)"]);
   (3.9%float,
    ["Match statements detected (Python 3.10+)";
     "Dictionary union operators detected (Python 3.9+)";
     "Walrus operator detected (Python 3.8+)";
     "Dataclasses detected (Python 3.7+)";
     "F-strings detected (Python 3.6+)";
     "Type hints detected (Python 3.5+)"]);
   (3.10%float,
    ["Match statements detected (Python 3.10+)"])].

(** The source of a notebook cell: one string, or a list of lines. *)
Inductive cell_source : Set :=
| Text (s : string)
| Lines (l : list string).

Inductive cell : Set :=
| CodeCell (source : cell_source)
| OtherCell.

Definition encode_source (src : cell_source) : json :=
  match src with
  | Text s => JString s
  | Lines l => JList (map JString l)
  end.

Definition source_string (src : cell_source) : string :=
  match src with
  | Text s => s
  | Lines l => String.concat "" l
  end.

(** The JSON value [c] is a cell dict that reads as [x]: a code cell with
    that source, or a cell of another type, with or without a source. *)
Definition represents (c : json) (x : cell) : Prop :=
  match x with
  | CodeCell src =>
      exists items,
        c = JDict items /\
        Json.lookup "cell_type" items = Some (JString "code") /\
        Json.lookup "source" items = Some (encode_source src)
  | OtherCell =>
      exists items ty,
        c = JDict items /\
        Json.lookup "cell_type" items = Some ty /\
        Json.is_code ty = false
  end.

Fixpoint code_sources (cells : list cell) : list string :=
  match cells with
  | [] => []
  | CodeCell src :: rest => source_string src :: code_sources rest
  | OtherCell :: rest => code_sources rest
  end.



(** A cell dict without [cell_type], or of type [code] without [source]. *)
Definition incomplete_cell (c : json) : Prop :=
  exists items,
    c = JDict items /\
    (Json.lookup "cell_type" items = None \/
     (Json.lookup "cell_type" items = Some (JString "code") /\
      Json.lookup "source" items = None)).

(** ** Further concrete runs *)

Module Cases.

(** A notebook whose second code cell has no [source]. *)
Definition partial_notebook_src : string :=
  "{" ++ Demo.quote ++ "cells" ++ Demo.quote ++ ": [{" ++
  Demo.quote ++ "cell_type" ++ Demo.quote ++ ": " ++
  Demo.quote ++ "code" ++ Demo.quote ++ ", " ++
  Demo.quote ++ "source" ++ Demo.quote ++ ": " ++
  Demo.quote ++ "import requests" ++ Demo.quote ++ "}, {" ++
  Demo.quote ++ "cell_type" ++ Demo.quote ++ ": " ++
  Demo.quote ++ "code" ++ Demo.quote ++ "}]}".

Definition first_cell : json :=
  JDict [("cell_type", JString "code"); ("source", JString "import requests")].

Definition second_cell : json := JDict [("cell_type", JString "code")].

Definition partial_notebook : list (string * json) :=
  [("cells", JList ([first_cell] ++ second_cell :: []))].

Definition loads (text : string) : result json :=
  if String.eqb text partial_notebook_src then Ok (JDict partial_notebook)
  else Demo.loads text.

Definition partial_file : fs_entry :=
  Demo.script "proj/nb/partial.ipynb" partial_notebook_src.

Definition partial_world : world :=
  {| rglob := fun _ => Ok [partial_file];
     ast_parse := Demo.parse;
     has_Match := true;
     json_loads := loads;
     stdlib_module_names := ["ast"; "json"; "os"; "sys"];
     find_spec := Demo.specs;
     distributions := [(Some "requests", "2.31.0")];
     str_lower := Str.ascii_lower |}.

(** A script that imports a module of the project itself, while a
    distribution of the same name is installed. *)
Definition helpers_src : string := "import helpers".

Definition parse_helpers (text : string) : result (list node) :=
  if String.eqb text helpers_src then Ok [OtherNode; Import ["helpers"]; OtherNode]
  else Demo.parse text.

Definition helpers_world : world :=
  {| rglob := fun _ => Ok [Demo.script "proj/run.py" helpers_src];
     ast_parse := parse_helpers;
     has_Match := true;
     json_loads := Demo.loads;
     stdlib_module_names := ["ast"; "json"; "os"; "sys"];
     find_spec := Demo.specs;
     distributions := [(Some "helpers", "0.1"); (Some "requests", "2.31.0")];
     str_lower := Str.ascii_lower |}.

Definition helpers_report : dependency_report :=
  {| third_party := []; standard_lib := ["helpers"]; unknown := [] |}.

(** A notebook file that holds the JSON document [null], next to a script
    that parses. *)
Definition null_src : string := "null".

Definition loads_null (text : string) : result json :=
  if String.eqb text null_src then Ok JNull else Demo.loads text.

Definition null_file : fs_entry := Demo.script "proj/nb/empty.ipynb" null_src.

Definition app_file : fs_entry := Demo.script "proj/app.py" Demo.imports_src.

Definition null_world : world :=
  {| rglob := fun _ => Ok [app_file; null_file];
     ast_parse := Demo.parse;
     has_Match := true;
     json_loads := loads_null;
     stdlib_module_names := ["ast"; "json"; "os"; "sys"];
     find_spec := Demo.specs;
     distributions := [(Some "requests", "2.31.0")];
     str_lower := Str.ascii_lower |}.


End Cases.



(** ** The report, the manifest file and the command line *)

Definition nl : string := String "010" "".

(** [for item in items: print(f"{prefix}{item}")]. *)
Definition print_items (prefix : string) (items : list string) : M unit :=
  for_each (fun item _ => print (prefix ++ item)) items tt.

(** The body of [for dep in env_specs['conda_environment_yaml']['dependencies']]. *)
Definition print_dependency (dep : manifest_item) (_ : unit) : M unit :=
  match dep with
  | PipDict pip =>
      print "  - pip:" ;;;
      print_items "    - " pip
  | Pin s => print ("  - " ++ s)
  end.

Definition display_environment_report (env_specs : environment) : M unit :=
  print (nl ++ "Recommended Python version: "
            ++ Float.str (recommended_python_version env_specs)) ;;;
  (match python_version_reasoning env_specs with
   | [] => ret tt
   | _ :: _ =>
       print (nl ++ "Reasoning:") ;;;
       print_items "  - " (python_version_reasoning env_specs)
   end) ;;;
  print (nl ++ "Third-party dependencies:") ;;;
  print_items "  - " (third_party (env_dependencies env_specs)) ;;;
  print (nl ++ "Standard library imports:") ;;;
  print_items "  - " (standard_lib (env_dependencies env_specs)) ;;;
  (match unknown (env_dependencies env_specs) with
   | [] => ret tt
   | _ :: _ =>
       print (nl ++ "Unknown/Uninstalled imports:") ;;;
       print_items "  - " (unknown (env_dependencies env_specs))
   end) ;;;
  print (nl ++ "Sample conda environment.yml:") ;;;
  print ("name: " ++ name (conda_environment_yaml env_specs)) ;;;
  print "channels:" ;;;
  print_items "  - " (channels (conda_environment_yaml env_specs)) ;;;
  print "dependencies:" ;;;
  for_each print_dependency (dependencies (conda_environment_yaml env_specs)) tt ;;;
  print (nl ++ "Base requirements have been saved to base_requirements.txt") ;;;
  print "These represent the minimum compatible versions of each package." ;;;
  print "Note: It's recommended to test your code with these versions before deployment.".

(** What a run does to the outside: a line printed, or a document handed to
    [yaml.safe_dump] with a file opened for writing at [path]. *)
Inductive event : Set :=
| Printed (line : string)
| Dumped (path : string) (document : conda_environment).

Definition IO (A : Type) : Type := (result A * list event)%type.

Definition io_ret {A} (a : A) : IO A := (Ok a, []).

Definition io_bind {A B} (m : IO A) (f : A -> IO B) : IO B :=
  match m with
  | (Ok a, evs) => let (r, evs') := f a in (r, evs ++ evs')
  | (Raise e, evs) => (Raise e, evs)
  end.

(** A computation that only prints, among those that also write. *)
Definition run {A} (m : M A) : IO A := (value m, map Printed (output m)).

Definition events {A} (m : IO A) : list event := snd m.

(** [open(path, 'w')]: it succeeds or raises. *)
Record file_system : Type := { open_write : string -> result unit }.

Definition save_conda_environment (fs : file_system) (env_specs : environment)
    (output_file : string) : IO unit :=
  let conda_env :=
    {| name := name (conda_environment_yaml env_specs);
       channels := channels (conda_environment_yaml env_specs);
       dependencies := dependencies (conda_environment_yaml env_specs) |} in
  match open_write fs output_file with
  | Raise e => (Raise e, [])
  | Ok _ =>
      (Ok tt,
       [Dumped output_file conda_env;
        Printed (nl ++ "Conda environment configuration saved to " ++ output_file)])
  end.

Module Cli.

(** The namespace that [parser.parse_args()] returns. *)
Record arguments : Set := {
  directory : string;
  no_base_reqs : bool;
  no_conda : bool;
  quiet : bool
}.

End Cli.

Definition main (w : world) (fs : file_system) (args : Cli.arguments) : IO unit :=
  io_bind (run (predict_python_environment w (Cli.directory args)
                  (negb (Cli.no_base_reqs args))))
    (fun env_specs =>
       io_bind (if negb (Cli.quiet args)
                then run (display_environment_report env_specs)
                else io_ret tt)
         (fun _ =>
            if negb (Cli.no_conda args)
            then save_conda_environment fs env_specs "environment.yml"
            else io_ret tt)).

(** The line starts with [Warning: ]. *)
Definition is_warning (line : string) : bool := String.prefix "Warning: " line.

Definition warnings_only (lines : list string) : Prop :=
  Forall (fun line => is_warning line = true) lines.

(** A header line followed by its items. *)
Definition report_section (header : string) (items : list string) : list string :=
  header :: map (String.append "  - ") items.

(** The lines of the report for an environment predicted for [directory]. *)
Definition predicted_report (directory : string) (env : environment) : list string :=
  [(nl ++ "Recommended Python version: "
       ++ Float.str (recommended_python_version env))%string]
  ++ report_section (nl ++ "Reasoning:")%string (python_version_reasoning env)
  ++ report_section (nl ++ "Third-party dependencies:")%string
       (third_party (env_dependencies env))
  ++ report_section (nl ++ "Standard library imports:")%string
       (standard_lib (env_dependencies env))
  ++ (match unknown (env_dependencies env) with
      | [] => []
      | _ :: _ => report_section (nl ++ "Unknown/Uninstalled imports:")%string
                    (unknown (env_dependencies env))
      end)
  ++ [(nl ++ "Sample conda environment.yml:")%string;
      ("name: " ++ Path.name directory)%string;
      "channels:";
      "  - defaults";
      "  - conda-forge";
      "dependencies:";
      ("  - python>=" ++ Float.str (recommended_python_version env))%string;
      "  - pip";
      "  - pip:"]
  ++ map (String.append "    - ") (third_party (env_dependencies env))
  ++ [(nl ++ "Base requirements have been saved to base_requirements.txt")%string;
      "These represent the minimum compatible versions of each package.";
      "Note: It's recommended to test your code with these versions before deployment."].

(** A disk on which every file can be opened for writing. *)
Definition writable : file_system := {| open_write := fun _ => Ok tt |}.

(** ** The oldest stable release on PyPI

    [get_minimum_compatible_version] takes no [self]: it is the plain
    function reached through the class.  Everything inside its [try] that
    raises is caught by [except Exception as e], and only [str(e)] is used;
    an exception is therefore its text.  The pause [time.sleep(0.1)] has no
    effect on values and output. *)

Module Pypi.

(** The result of a step inside the [try]: the text of the exception that
    it raised, or its value. *)
Definition attempt (A : Type) : Type := (string + A)%type.

Definition and_then {A B} (a : attempt A) (f : A -> attempt B) : attempt B :=
  match a with
  | inl text => inl text
  | inr x => f x
  end.

(** What [requests.get] returns: the status code and what
    [response.json()] gives. *)
Record response : Type := {
  status_code : Z;
  json_body : attempt json
}.

(** The libraries and the runtime, for a type [V] of parsed versions. *)
Record registry (V : Type) : Type := {
  (* [requests.get(url)] *)
  requests_get : string -> attempt response;
  (* [packaging.version.parse(text)] *)
  version_parse : string -> attempt V;
  (* [a < b] on parsed versions *)
  version_lt : V -> V -> bool;
  (* [str(e)] of the [TypeError] of [v['releases']] for a [v] that is no dict *)
  not_subscriptable : json -> string;
  (* [str(e)] of the [AttributeError] of [v.keys()] for a [v] that is no dict *)
  no_keys : json -> string
}.
Arguments requests_get {V} r url.
Arguments version_parse {V} r text.
Arguments version_lt {V} r a b.
Arguments not_subscriptable {V} r v.
Arguments no_keys {V} r v.

Section Lookup.

Context {V : Type} (r : registry V).

(** [response.json()['releases']]. *)
Definition releases_of (document : json) : attempt json :=
  match document with
  | JDict items =>
      match Json.lookup "releases" items with
      | Some x => inr x
      | None => inl "'releases'"
      end
  | other => inl (not_subscriptable r other)
  end.

(** [releases.keys()], in the order of the dict. *)
Definition keys_of (releases : json) : attempt (list string) :=
  match releases with
  | JDict items => inr (map fst items)
  | other => inl (no_keys r other)
  end.

(** [not ('a' in ver or 'b' in ver or 'rc' in ver)]. *)
Definition is_stable (ver : string) : bool :=
  negb (Str.contains "a" ver || Str.contains "b" ver || Str.contains "rc" ver).

(** The keys that [sorted] computes first, one [version.parse] per item. *)
Fixpoint parse_all (versions : list string) : attempt (list (V * string)) :=
  match versions with
  | [] => inr []
  | ver :: rest =>
      and_then (version_parse r ver) (fun k =>
      and_then (parse_all rest) (fun l => inr ((k, ver) :: l)))
  end.

Fixpoint insert_by_key (x : V * string) (l : list (V * string)) : list (V * string) :=
  match l with
  | [] => [x]
  | y :: l' =>
      if version_lt r (fst y) (fst x) then y :: insert_by_key x l' else x :: l
  end.

(** [sorted(..., key=...)]: ascending by key, items of equal key in their
    original order. *)
Definition sort_by_key (l : list (V * string)) : list (V * string) :=
  fold_right insert_by_key [] l.

(** The body of the [try]. *)
Definition lookup (package_name : string) : attempt (option string) :=
  and_then (requests_get r ("https://pypi.org/pypi/" ++ package_name ++ "/json"))
    (fun response =>
       if Z.eqb (status_code response) 200 then
         and_then (json_body response) (fun document =>
         and_then (releases_of document) (fun releases =>
         and_then (keys_of releases) (fun keys =>
           let stable_versions := filter is_stable keys in
           match stable_versions with
           | [] => inr None
           | _ :: _ =>
               and_then (parse_all stable_versions) (fun keyed =>
                 match sort_by_key keyed with
                 | first :: _ => inr (Some (snd first))
                 | [] => inr None
                 end)
           end)))
       else inr None).

Definition get_minimum_compatible_version (package_name : string) : M (option string) :=
  match lookup package_name with
  | inr found => ret found
  | inl text =>
      print ("Warning: Could not fetch version info for " ++ package_name
             ++ ": " ++ text) ;;;
      ret None
  end.

End Lookup.

(** The order on parsed versions is a strict weak order. *)
Definition strict_weak_order {V : Type} (lt : V -> V -> bool) : Prop :=
  (forall a b, lt a b = true -> lt b a = false) /\
  (forall a b c, lt a b = false -> lt b c = false -> lt a c = false).

End Pypi.

(** No item of the list has a key below the key of the first one. *)
Definition least_first {V : Type} (r : Pypi.registry V) (l : list (V * string)) : Prop :=
  match l with
  | [] => True
  | h :: _ => forall y, In y l -> Pypi.version_lt r (fst y) (fst h) = false
  end.

(** The warning of a failed lookup. *)
Definition lookup_warning (package_name text : string) : string :=
  "Warning: Could not fetch version info for " ++ package_name ++ ": " ++ text.

Module PypiCases.

(** A document with two stable releases, one release candidate and one
    beta. *)
Definition demo_releases : list (string * json) :=
  [("2.0.0", JList []); ("1.0rc1", JList []); ("1.2.0", JList []);
   ("1.0.0b2", JList []); ("0.9.0", JList [])].

Definition demo_document : json :=
  JDict [("info", JDict []); ("releases", JDict demo_releases)].

(** A document one of whose stable keys is no valid version. *)
Definition legacy_releases : list (string * json) :=
  [("1.0.0", JList []); ("2004d", JList [])].

Definition legacy_document : json :=
  JDict [("info", JDict []); ("releases", JDict legacy_releases)].

Definition get (url : string) : Pypi.attempt Pypi.response :=
  if String.eqb url "https://pypi.org/pypi/demo/json"
  then inr {| Pypi.status_code := 200; Pypi.json_body := inr demo_document |}
  else if String.eqb url "https://pypi.org/pypi/legacy/json"
  then inr {| Pypi.status_code := 200; Pypi.json_body := inr legacy_document |}
  else inr {| Pypi.status_code := 404;
              Pypi.json_body := inl "Expecting value: line 1 column 1 (char 0)" |}.

(** Parsed versions as numbers: 2.0.0 is 200. *)
Definition parse (text : string) : Pypi.attempt nat :=
  if String.eqb text "2.0.0" then inr 200
  else if String.eqb text "1.2.0" then inr 120
  else if String.eqb text "1.0.0" then inr 100
  else if String.eqb text "0.9.0" then inr 90
  else inl ("Invalid version: '" ++ text ++ "'")%string.

Definition demo_registry : Pypi.registry nat :=
  {| Pypi.requests_get := get;
     Pypi.version_parse := parse;
     Pypi.version_lt := Nat.ltb;
     Pypi.not_subscriptable := fun _ => "list indices must be integers or slices, not str";
     Pypi.no_keys := fun _ => "'list' object has no attribute 'keys'" |}.

End PypiCases.



(** * Properties *)

(** ** Computations *)

Lemma bind_Ok {A B} (m : M A) (f : A -> M B) (b : B) (out : list string) :
  bind m f = (Ok b, out) ->
  exists a o1 o2, m = (Ok a, o1) /\ f a = (Ok b, o2) /\ out = o1 ++ o2.
Proof.
  unfold bind. destruct m as [[a | e] o1]; [| discriminate].
  destruct (f a) as [r o2] eqn:Hf. intros H. inversion H; subst.
  exists a, o1, o2. auto.
Qed.

Lemma value_bind {A B} (m : M A) (f : A -> M B) :
  value (bind m f) =
  match value m with
  | Ok a => value (f a)
  | Raise e => Raise e
  end.
Proof.
  unfold bind, value. destruct m as [[a | e] o1]; simpl; [| reflexivity].
  destruct (f a); reflexivity.
Qed.

Lemma value_Ok {A} (m : M A) (a : A) (out : list string) :
  m = (Ok a, out) -> value m = Ok a.
Proof. intros ->. reflexivity. Qed.

Lemma value_ret {A} (a : A) : value (ret a) = Ok a.
Proof. reflexivity. Qed.

Lemma value_lift {A} (r : result A) : value (lift r) = r.
Proof. reflexivity. Qed.

Lemma for_each_app {A S} (body : A -> S -> M S) (l1 l2 : list A) (s : S) :
  value (for_each body (l1 ++ l2) s) =
  match value (for_each body l1 s) with
  | Ok s' => value (for_each body l2 s')
  | Raise e => Raise e
  end.
Proof.
  revert s. induction l1 as [| x l1 IH]; intros s; simpl.
  - reflexivity.
  - rewrite !value_bind. destruct (value (body x s)); [apply IH | reflexivity].
Qed.

(** A loop that ends normally maintains every invariant its body maintains. *)
Lemma for_each_invariant {A S} (body : A -> S -> M S) (I : list A -> S -> Prop) :
  (forall seen x s s', I seen s -> value (body x s) = Ok s' -> I (seen ++ [x]) s') ->
  forall l seen s s',
    I seen s -> value (for_each body l s) = Ok s' -> I (seen ++ l) s'.
Proof.
  intros Hstep. induction l as [| x l IH]; intros seen s s' HI Hrun; simpl in Hrun.
  - inversion Hrun; subst. rewrite app_nil_r. exact HI.
  - rewrite value_bind in Hrun. destruct (value (body x s)) as [s1 | e] eqn:Hb;
      [| discriminate].
    replace (seen ++ x :: l) with ((seen ++ [x]) ++ l)
      by (rewrite <- app_assoc; reflexivity).
    eapply IH; [eapply Hstep; eassumption | exact Hrun].
Qed.

(** ** The shape of the dependency scan *)

Lemma detect_project_dependencies_value (w : world) (directory : string) :
  value (detect_project_dependencies w directory) =
  match installed_packages w with
  | Raise e => Raise e
  | Ok _ =>
      match rglob w directory with
      | Raise e => Raise e
      | Ok files =>
          match value (for_each (scan_imports w (registry w)) files
                                empty_dependencies) with
          | Ok deps => Ok {| third_party := Str.sorted (third_party deps);
                             standard_lib := Str.sorted (standard_lib deps);
                             unknown := Str.sorted (unknown deps) |}
          | Raise e => Raise e
          end
      end
  end.
Proof.
  unfold detect_project_dependencies, registry. rewrite value_bind, value_lift.
  destruct (installed_packages w) as [installed | e]; [| reflexivity].
  rewrite value_bind, value_lift.
  destruct (rglob w directory) as [files | e]; [| reflexivity].
  rewrite value_bind.
  destruct (value (for_each (scan_imports w installed) files empty_dependencies));
    reflexivity.
Qed.

Lemma detect_with_files (w : world) (files : list fs_entry) (directory : string) :
  value (detect_project_dependencies (with_files w files) directory) =
  match installed_packages w with
  | Raise e => Raise e
  | Ok _ =>
      match value (for_each (scan_imports w (registry w)) files
                            empty_dependencies) with
      | Ok deps => Ok {| third_party := Str.sorted (third_party deps);
                         standard_lib := Str.sorted (standard_lib deps);
                         unknown := Str.sorted (unknown deps) |}
      | Raise e => Raise e
      end
  end.
Proof. rewrite detect_project_dependencies_value. reflexivity. Qed.

(** ** The environment specification *)

Lemma generate_base_requirements_value (w : world) (directory output_file : string) :
  value (generate_base_requirements w directory output_file) =
  match value (get_python_version w directory) with
  | Ok _ =>
      match value (detect_project_dependencies w directory) with
      | Ok _ => Ok None
      | Raise e => Raise e
      end
  | Raise e => Raise e
  end.
Proof.
  unfold generate_base_requirements. rewrite value_bind.
  destruct (value (get_python_version w directory)); [| reflexivity].
  rewrite value_bind.
  destruct (value (detect_project_dependencies w directory)); reflexivity.
Qed.

Lemma predict_python_environment_Ok (w : world) (directory : string)
    (generate_base_reqs : bool) (env : environment) :
  value (predict_python_environment w directory generate_base_reqs) = Ok env ->
  exists python_version deps,
    value (get_python_version w directory) = Ok python_version /\
    value (detect_project_dependencies w directory) = Ok deps /\
    env = {| recommended_python_version := python_version;
             python_version_reasoning := python_version_reasoning_for python_version;
             env_dependencies := deps;
             conda_environment_yaml :=
               {| name := Path.name directory;
                  channels := ["defaults"; "conda-forge"];
                  dependencies :=
                    [Pin ("python>=" ++ Float.str python_version)%string;
                     Pin "pip";
                     PipDict (third_party deps)] |};
             base_requirements :=
               if generate_base_reqs then Some None else None |}.
Proof.
  unfold predict_python_environment. rewrite value_bind.
  destruct (value (get_python_version w directory)) as [v | e] eqn:Hv;
    [| discriminate].
  rewrite value_bind.
  destruct (value (detect_project_dependencies w directory)) as [d | e] eqn:Hd;
    [| discriminate].
  intros H. exists v, d. split; [reflexivity | split; [reflexivity |]].
  destruct generate_base_reqs.
  - rewrite value_bind, generate_base_requirements_value, Hv, Hd in H.
    simpl in H. inversion H; reflexivity.
  - simpl in H. inversion H; reflexivity.
Qed.

Lemma output_bind {A B} (m : M A) (f : A -> M B) :
  output (bind m f) =
  output m ++ match value m with
              | Ok a => output (f a)
              | Raise _ => []
              end.
Proof.
  unfold bind, output, value. destruct m as [[a | e] o1]; simpl.
  - destruct (f a); reflexivity.
  - rewrite app_nil_r. reflexivity.
Qed.

Lemma get_python_version_value (w : world) (directory : string) :
  value (get_python_version w directory) =
  match value (project_versions w directory) with
  | Ok required_versions => Ok (minimum_version required_versions)
  | Raise e => Raise e
  end.
Proof.
  unfold get_python_version, project_versions. rewrite !value_bind, value_lift.
  destruct (rglob w directory) as [files | e]; [| reflexivity].
  rewrite value_bind.
  destruct (value (for_each (scan_versions w) files [])); reflexivity.
Qed.

(** C8: the manifest of [predict_python_environment] is named after the final
    component of the directory, lists the channels [defaults] and
    [conda-forge], and depends on exactly [python>=<recommended version>],
    [pip] and the nested pip list, which is the third-party partition. *)
Theorem manifest_skeleton (w : world) (directory : string) (generate_base_reqs : bool)
    (env : environment) :
  value (predict_python_environment w directory generate_base_reqs) = Ok env ->
  name (conda_environment_yaml env) = Path.name directory /\
  channels (conda_environment_yaml env) = ["defaults"; "conda-forge"] /\
  dependencies (conda_environment_yaml env) =
    [Pin ("python>=" ++ Float.str (recommended_python_version env))%string;
     Pin "pip";
     PipDict (third_party (env_dependencies env))] /\
  value (get_python_version w directory) = Ok (recommended_python_version env) /\
  value (detect_project_dependencies w directory) = Ok (env_dependencies env).
Proof.
  intros H. apply predict_python_environment_Ok in H.
  destruct H as (v & deps & Hv & Hd & ->). simpl. auto.
Qed.

Lemma manifest_skeleton_witness :
  value (predict_python_environment Demo.mixed_world "/home/dev/proj/" true)
    = Ok Demo.mixed_env /\
  name (conda_environment_yaml Demo.mixed_env) = "proj" /\
  dependencies (conda_environment_yaml Demo.mixed_env) =
    [Pin "python>=3.5"; Pin "pip"; PipDict ["requests==2.31.0"]].
Proof.
  assert (H : value (predict_python_environment Demo.mixed_world "/home/dev/proj/" true)
              = Ok Demo.mixed_env) by (vm_compute; reflexivity).
  split; [exact H |].
  destruct (manifest_skeleton _ _ _ _ H) as (Hn & _ & Hd & _).
  split; [rewrite Hn; reflexivity | rewrite Hd; vm_compute; reflexivity].
Defined.

(** C10: [generate_base_requirements] returns [None] and prints nothing of
    its own, so with [generate_base_reqs=True] the entry [base_requirements]
    of the environment is [None]. *)
Theorem base_requirements_is_None (w : world) (directory : string) (env : environment) :
  value (predict_python_environment w directory true) = Ok env ->
  base_requirements env = Some None /\
  (forall output_file,
     value (generate_base_requirements w directory output_file) = Ok None /\
     output (generate_base_requirements w directory output_file) =
       output (get_python_version w directory) ++
       output (detect_project_dependencies w directory)).
Proof.
  intros H. apply predict_python_environment_Ok in H.
  destruct H as (v & deps & Hv & Hd & ->). split; [reflexivity |].
  intros output_file. split.
  - rewrite generate_base_requirements_value, Hv, Hd. reflexivity.
  - unfold generate_base_requirements. rewrite output_bind, Hv, output_bind, Hd.
    simpl. rewrite app_nil_r. reflexivity.
Qed.

Lemma base_requirements_is_None_witness :
  value (predict_python_environment Demo.match_world "proj" true) = Ok Demo.match_env /\
  base_requirements Demo.match_env = Some None.
Proof.
  assert (H : value (predict_python_environment Demo.match_world "proj" true)
              = Ok Demo.match_env) by (vm_compute; reflexivity).
  split; [exact H | exact (proj1 (base_requirements_is_None _ _ _ H))].
Defined.

(** ** The reasoning trail *)

Lemma reasoning_for_shape (v : float) :
  python_version_reasoning_for v =
  (if Float.ge v 3.10 then [match_line] else []) ++
  map snd (filter (fun t => Float.ge v (fst t)) thresholds_below_match).
Proof.
  unfold python_version_reasoning_for, thresholds_below_match, match_line.
  cbn [filter map fst snd].
  destruct (Float.ge v 3.10), (Float.ge v 3.9), (Float.ge v 3.8),
    (Float.ge v 3.7), (Float.ge v 3.6), (Float.ge v 3.5); reflexivity.
Qed.

(** C3, as stated, fails: for a project whose recommended version
    is 3.6 the reasoning is not the type-hint line followed by the f-string
    line. *)
Lemma reasoning_ascending_counterexample :
  value (predict_python_environment Demo.fstring_world "proj" false)
    = Ok Demo.fstring_env /\
  recommended_python_version Demo.fstring_env = 3.6%float /\
  python_version_reasoning Demo.fstring_env <>
    ["Type hints detected (Python 3.5+)"; "F-strings detected (Python 3.6+)"].
Proof.
  split; [vm_compute; reflexivity |]. split; [reflexivity |].
  simpl. unfold Demo.fstring_reasoning. discriminate.
Qed.

(** C3, amended: the reasoning of [predict_python_environment] holds exactly
    one line for each of the thresholds 3.9, 3.8, 3.7, 3.6 and 3.5 that is at
    or below the recommended version, highest threshold first, after at most
    the line of the match statement; for the version 3.6 these are the
    f-string line followed by the type-hint line. *)
Theorem reasoning_descending (w : world) (directory : string)
    (generate_base_reqs : bool) (env : environment) :
  value (predict_python_environment w directory generate_base_reqs) = Ok env ->
  (exists before,
     (before = [] \/ before = [match_line]) /\
     python_version_reasoning env =
       before ++
       map snd (filter (fun t => Float.ge (recommended_python_version env) (fst t))
                       thresholds_below_match)) /\
  map snd (filter (fun t => Float.ge 3.6 (fst t)) thresholds_below_match) =
    ["F-strings detected (Python 3.6+)"; "Type hints detected (Python 3.5+)"].
Proof.
  intros H. apply predict_python_environment_Ok in H.
  destruct H as (v & deps & _ & _ & ->). split; [| reflexivity].
  cbn [python_version_reasoning recommended_python_version].
  exists (if Float.ge v 3.10 then [match_line] else []). split.
  - destruct (Float.ge v 3.10); auto.
  - apply reasoning_for_shape.
Qed.

Lemma reasoning_descending_witness :
  value (predict_python_environment Demo.fstring_world "proj" false)
    = Ok Demo.fstring_env /\
  exists before,
    (before = [] \/ before = [match_line]) /\
    python_version_reasoning Demo.fstring_env =
      before ++ ["F-strings detected (Python 3.6+)"; "Type hints detected (Python 3.5+)"].
Proof.
  assert (H : value (predict_python_environment Demo.fstring_world "proj" false)
              = Ok Demo.fstring_env) by (vm_compute; reflexivity).
  split; [exact H |].
  destruct (reasoning_descending _ _ _ _ H) as ((before & Hb & Hr) & _).
  exists before. split; [exact Hb | exact Hr].
Defined.

(** ** The match-statement threshold *)

(** C9: the threshold written [3.10] is the float 3.1, below 3.9; a project
    whose only detected version is that of the match statement gets the
    recommended version 3.1 and the manifest pin [python>=3.1]. *)
Theorem match_threshold_is_3_1 (w : world) (directory : string)
    (generate_base_reqs : bool) (env : environment) :
  value (project_versions w directory) = Ok [3.10%float] ->
  value (predict_python_environment w directory generate_base_reqs) = Ok env ->
  Float.decimal 310 2 = Float.decimal 31 1 /\
  3.10%float = Float.decimal 31 1 /\
  PrimFloat.ltb 3.10 3.9 = true /\
  value (get_python_version w directory) = Ok (Float.decimal 31 1) /\
  recommended_python_version env = Float.decimal 31 1 /\
  dependencies (conda_environment_yaml env) =
    [Pin "python>=3.1"; Pin "pip"; PipDict (third_party (env_dependencies env))].
Proof.
  intros Hv H.
  assert (Hg : value (get_python_version w directory) = Ok (Float.decimal 31 1)).
  { rewrite get_python_version_value, Hv. reflexivity. }
  apply predict_python_environment_Ok in H.
  destruct H as (v & deps & Hv' & _ & ->).
  rewrite Hg in Hv'. inversion Hv'; subst v.
  repeat split; try reflexivity. exact Hg.
Qed.

Lemma match_threshold_is_3_1_witness :
  value (project_versions Demo.match_world "proj") = Ok [3.10%float] /\
  value (predict_python_environment Demo.match_world "proj" true) = Ok Demo.match_env /\
  value (get_python_version Demo.match_world "proj") = Ok (Float.decimal 31 1) /\
  dependencies (conda_environment_yaml Demo.match_env) =
    [Pin "python>=3.1"; Pin "pip"; PipDict []].
Proof.
  assert (Hv : value (project_versions Demo.match_world "proj") = Ok [3.10%float])
    by (vm_compute; reflexivity).
  assert (H : value (predict_python_environment Demo.match_world "proj" true)
              = Ok Demo.match_env) by (vm_compute; reflexivity).
  split; [exact Hv |]. split; [exact H |].
  destruct (match_threshold_is_3_1 _ _ _ _ Hv H) as (_ & _ & _ & Hg & _ & Hd).
  split; [exact Hg | exact Hd].
Defined.

(** ** Malformed notebooks *)

Lemma for_each_skip {A S} (body : A -> S -> M S) (x : A) :
  (forall s, value (body x s) = Ok s) ->
  forall l1 l2 s,
    value (for_each body (l1 ++ x :: l2) s) = value (for_each body (l1 ++ l2) s).
Proof.
  intros Hx l1 l2 s. rewrite !for_each_app.
  destruct (value (for_each body l1 s)) as [s' | e]; [| reflexivity].
  simpl. rewrite value_bind, Hx. reflexivity.
Qed.

Lemma malformed_notebook_combined_code (w : world) (f : fs_entry) :
  malformed_notebook w f ->
  combined_code w f = (Raise JSONDecodeError, []) \/
  combined_code w f = (Raise KeyError, []).
Proof.
  intros (text & Hr & [Hj | (items & Hj & Hl)]);
    unfold combined_code, open_read; rewrite Hr; simpl; rewrite Hj; simpl.
  - left. reflexivity.
  - right. unfold code_cells. simpl. rewrite Hl. reflexivity.
Qed.

Lemma malformed_notebook_imports (w : world) (f : fs_entry) :
  malformed_notebook w f ->
  analyze_notebook_imports w f =
    (Ok [], ["Warning: Could not parse notebook " ++ file_path f]%string).
Proof.
  intros H. unfold analyze_notebook_imports.
  destruct (malformed_notebook_combined_code w f H) as [-> | ->]; reflexivity.
Qed.

Lemma malformed_notebook_versions (w : world) (f : fs_entry) :
  malformed_notebook w f ->
  analyze_python_version_notebook w f =
    (Ok [], ["Warning: Could not analyze Python version in notebook "
             ++ file_path f]%string).
Proof.
  intros H. unfold analyze_python_version_notebook.
  destruct (malformed_notebook_combined_code w f H) as [-> | ->]; reflexivity.
Qed.

Lemma suffix_ipynb_not_py (p : string) :
  Path.suffix p = ".ipynb" -> String.eqb (Path.suffix p) ".py" = false.
Proof. intros ->. reflexivity. Qed.

(** X27: what the code does catch: a notebook file that decodes to text
    which is not valid JSON, or which is a JSON object without the key
    [cells], is skipped with a diagnostic: both notebook analyses print
    their warning and return the empty set, and the project analyses give
    what they give for the project without that notebook. *)
Theorem malformed_notebook_skipped (w : world) (f : fs_entry)
    (before after : list fs_entry) (directory : string) :
  Path.suffix (file_path f) = ".ipynb" ->
  malformed_notebook w f ->
  analyze_notebook_imports w f =
    (Ok [], ["Warning: Could not parse notebook " ++ file_path f]%string) /\
  analyze_python_version_notebook w f =
    (Ok [], ["Warning: Could not analyze Python version in notebook "
             ++ file_path f]%string) /\
  value (detect_project_dependencies (with_files w (before ++ f :: after)) directory) =
    value (detect_project_dependencies (with_files w (before ++ after)) directory) /\
  value (get_python_version (with_files w (before ++ f :: after)) directory) =
    value (get_python_version (with_files w (before ++ after)) directory).
Proof.
  intros Hs Hm.
  pose proof (malformed_notebook_imports w f Hm) as Hi.
  pose proof (malformed_notebook_versions w f Hm) as Hv.
  pose proof (suffix_ipynb_not_py _ Hs) as Hpy.
  split; [exact Hi |]. split; [exact Hv |]. split.
  - rewrite !detect_with_files.
    destruct (installed_packages w) as [installed | e]; [| reflexivity].
    rewrite (for_each_skip (scan_imports w (registry w)) f); [reflexivity |].
    intros s. unfold scan_imports. rewrite Hpy, Hs. simpl String.eqb.
    rewrite Hi. reflexivity.
  - unfold get_python_version. rewrite !value_bind. simpl.
    rewrite !value_bind.
    rewrite (for_each_skip (scan_versions w) f); [reflexivity |].
    intros s. unfold scan_versions. rewrite Hpy, Hs. simpl String.eqb.
    rewrite Hv. reflexivity.
Qed.

Lemma malformed_notebook_skipped_witness :
  Path.suffix "proj/nb/broken.ipynb" = ".ipynb" /\
  malformed_notebook Demo.mixed_world
    (Demo.script "proj/nb/broken.ipynb" Demo.no_cells_src) /\
  analyze_notebook_imports Demo.mixed_world
    (Demo.script "proj/nb/broken.ipynb" Demo.no_cells_src) =
    (Ok [], ["Warning: Could not parse notebook proj/nb/broken.ipynb"]) /\
  value (detect_project_dependencies
           (with_files Demo.mixed_world
              ([Demo.script "proj/deps.py" Demo.requests_src] ++
               Demo.script "proj/nb/broken.ipynb" Demo.no_cells_src ::
               [Demo.script "proj/app.py" Demo.imports_src])) "proj") =
  value (detect_project_dependencies
           (with_files Demo.mixed_world
              ([Demo.script "proj/deps.py" Demo.requests_src] ++
               [Demo.script "proj/app.py" Demo.imports_src])) "proj").
Proof.
  assert (Hs : Path.suffix (file_path (Demo.script "proj/nb/broken.ipynb" Demo.no_cells_src))
               = ".ipynb") by reflexivity.
  assert (Hm : malformed_notebook Demo.mixed_world
                 (Demo.script "proj/nb/broken.ipynb" Demo.no_cells_src)).
  { exists Demo.no_cells_src. split; [reflexivity |]. right.
    exists [("metadata", JDict [])]. split; reflexivity. }
  split; [exact Hs |]. split; [exact Hm |].
  destruct (malformed_notebook_skipped Demo.mixed_world _
              [Demo.script "proj/deps.py" Demo.requests_src]
              [Demo.script "proj/app.py" Demo.imports_src] "proj" Hs Hm)
    as (Hi & _ & Hd & _).
  split; [exact Hi | exact Hd].
Defined.

(** ** Classification of the imports *)

Lemma is_standard_library_value (w : world) (n : string) :
  value (is_standard_library w n) =
  if existsb (String.eqb n) (stdlib_module_names w) then Ok true
  else match find_spec w n with
       | Ok None => Ok false
       | Ok (Some sp) => Ok (negb (third_party_location sp))
       | Raise e => Raise e
       end.
Proof.
  unfold is_standard_library.
  destruct (existsb (String.eqb n) (stdlib_module_names w)); [reflexivity |].
  rewrite value_bind, value_lift.
  destruct (find_spec w n) as [[sp |] | e]; try reflexivity.
  unfold third_party_location, location_of. simpl.
  rewrite negb_orb. reflexivity.
Qed.

Lemma existsb_eqb_In (n : string) (l : list string) :
  existsb (String.eqb n) l = true <-> In n l.
Proof.
  rewrite existsb_exists. split.
  - intros (x & Hx & He). apply String.eqb_eq in He. subst. exact Hx.
  - intros H. exists n. split; [exact H | apply String.eqb_refl].
Qed.

Lemma classified_empty (w : world) : classified w [] empty_dependencies.
Proof.
  constructor; simpl.
  - intros n [].
  - intros s. split; [intros [] | intros ([] & _)].
  - intros s. split; [intros [] | intros ([] & _)].
  - intros s. split; [intros [] | intros (n & v & [] & _)].
Qed.

Lemma classify_import_step (w : world) (names : list string) (n : string)
    (deps deps' : dependency_report) :
  classified w names deps ->
  value (classify_import w (registry w) n deps) = Ok deps' ->
  classified w (names ++ [n]) deps'.
Proof.
  intros [Ht Hs Hu Hp] Hrun. unfold classify_import in Hrun.
  rewrite value_bind in Hrun.
  destruct (value (is_standard_library w n)) as [b | e] eqn:Hb; [| discriminate].
  assert (Htotal : forall m, In m (names ++ [n]) ->
                             exists b, value (is_standard_library w m) = Ok b).
  { intros m Hm. apply in_app_or in Hm. destruct Hm as [Hm | [<- | []]].
    - apply Ht, Hm.
    - exists b. exact Hb. }
  destruct b.
  - simpl in Hrun. inversion Hrun; subst deps'; clear Hrun.
    constructor; simpl; try exact Htotal.
    + intros s. rewrite set_add_iff, Hs, in_app_iff. simpl. split.
      * intros [-> | (H1 & H2)]; auto.
      * intros ([H1 | [<- | []]] & H2); auto.
    + intros s. rewrite Hu, in_app_iff. simpl. split.
      * intros (H1 & H2 & H3). auto.
      * intros ([H1 | [<- | []]] & H2 & H3); auto. congruence.
    + intros s. rewrite Hp. split.
      * intros (m & v & H1 & H2 & H3 & H4). exists m, v.
        rewrite in_app_iff. auto.
      * intros (m & v & H1 & H2 & H3 & H4). exists m, v.
        apply in_app_or in H1. destruct H1 as [H1 | [<- | []]]; auto. congruence.
  - fold (installed_version w n) in Hrun.
    destruct (installed_version w n) as [v |] eqn:Hv;
      simpl in Hrun; inversion Hrun; subst deps'; clear Hrun;
      constructor; simpl; try exact Htotal.
    + intros s. rewrite Hs, in_app_iff. simpl. split.
      * intros (H1 & H2). auto.
      * intros ([H1 | [<- | []]] & H2); auto. congruence.
    + intros s. rewrite Hu, in_app_iff. simpl. split.
      * intros (H1 & H2 & H3). auto.
      * intros ([H1 | [<- | []]] & H2 & H3); auto. congruence.
    + intros s. rewrite set_add_iff, Hp. split.
      * intros [-> | (m & v' & H1 & H2 & H3 & H4)].
        -- exists n, v. rewrite in_app_iff. simpl. auto.
        -- exists m, v'. rewrite in_app_iff. auto.
      * intros (m & v' & H1 & H2 & H3 & H4).
        apply in_app_or in H1. destruct H1 as [H1 | [<- | []]].
        -- right. exists m, v'. auto.
        -- left. congruence.
    + intros s. rewrite Hs, in_app_iff. simpl. split.
      * intros (H1 & H2). auto.
      * intros ([H1 | [<- | []]] & H2); auto. congruence.
    + intros s. rewrite set_add_iff, Hu, in_app_iff. simpl. split.
      * intros [-> | (H1 & H2 & H3)]; auto.
      * intros ([H1 | [<- | []]] & H2 & H3); auto.
    + intros s. rewrite Hp. split.
      * intros (m & v & H1 & H2 & H3 & H4). exists m, v.
        rewrite in_app_iff. auto.
      * intros (m & v & H1 & H2 & H3 & H4). exists m, v.
        apply in_app_or in H1. destruct H1 as [H1 | [<- | []]]; auto. congruence.
Qed.

Lemma classify_imports_loop (w : world) (names imports : list string)
    (deps deps' : dependency_report) :
  classified w names deps ->
  value (for_each (classify_import w (registry w)) imports deps) = Ok deps' ->
  classified w (names ++ imports) deps'.
Proof.
  intros Hc Hrun.
  pose proof (for_each_invariant (classify_import w (registry w))
                (fun seen d => classified w (names ++ seen) d)) as Hinv.
  simpl in Hinv. specialize (Hinv (fun seen x s s' HI Hb =>
    eq_ind _ (fun l => classified w l s')
           (classify_import_step w (names ++ seen) x s s' HI Hb) _
           (eq_sym (app_assoc names seen [x])))).
  specialize (Hinv imports [] deps deps'). simpl in Hinv.
  rewrite app_nil_r in Hinv. exact (Hinv Hc Hrun).
Qed.

Lemma scan_imports_value (w : world) (f : fs_entry) (deps : dependency_report) :
  value (scan_imports w (registry w) f deps) =
  match value (unit_imports w f) with
  | Ok imports => value (for_each (classify_import w (registry w)) imports deps)
  | Raise e => Raise e
  end.
Proof.
  unfold scan_imports, unit_imports.
  destruct (String.eqb (Path.suffix (file_path f)) ".py");
    [rewrite value_bind; reflexivity |].
  destruct (String.eqb (Path.suffix (file_path f)) ".ipynb");
    [rewrite value_bind; reflexivity | reflexivity].
Qed.

Lemma scan_imports_step (w : world) (seen : list fs_entry) (f : fs_entry)
    (deps deps' : dependency_report) :
  classified w (flat_map (imports_of w) seen) deps ->
  value (scan_imports w (registry w) f deps) = Ok deps' ->
  classified w (flat_map (imports_of w) (seen ++ [f])) deps'.
Proof.
  intros Hc Hrun. rewrite scan_imports_value in Hrun.
  rewrite flat_map_app. simpl. rewrite app_nil_r. unfold imports_of at 2.
  destruct (value (unit_imports w f)) as [imports | e]; [| discriminate].
  eapply classify_imports_loop; eassumption.
Qed.

Lemma In_insert_sorted (x s : string) (l : list string) :
  In s (Str.insert_sorted x l) <-> s = x \/ In s l.
Proof.
  induction l as [| y l IH]; simpl.
  - intuition auto.
  - destruct (String.leb x y); simpl; [intuition auto |].
    rewrite IH. intuition auto.
Qed.

Lemma In_sorted (s : string) (l : list string) :
  In s (Str.sorted l) <-> In s l.
Proof.
  unfold Str.sorted. induction l as [| x l IH]; simpl.
  - reflexivity.
  - rewrite In_insert_sorted, IH. intuition auto.
Qed.

(** The report of a run that ends normally holds the classification of
    every import name of the project. *)
Lemma detect_project_dependencies_classified (w : world) (directory : string)
    (report : dependency_report) :
  value (detect_project_dependencies w directory) = Ok report ->
  classified w (project_imports w directory) report.
Proof.
  rewrite detect_project_dependencies_value. unfold project_imports.
  destruct (installed_packages w) as [installed | e]; [| discriminate].
  destruct (rglob w directory) as [files | e]; [| discriminate].
  destruct (value (for_each (scan_imports w (registry w)) files
                            empty_dependencies)) as [deps |] eqn:Hloop; [| discriminate].
  intros H. inversion H; subst report; clear H.
  pose proof (for_each_invariant (scan_imports w (registry w))
                (fun seen d => classified w (flat_map (imports_of w) seen) d)
                (scan_imports_step w) files [] empty_dependencies deps
                (classified_empty w) Hloop) as [Ht Hs Hu Hp].
  simpl in Ht, Hs, Hu, Hp.
  constructor; simpl; [exact Ht | | |]; intros s; rewrite In_sorted; auto.
Qed.

(** ** Report entries and module names *)

Lemma has_char_append (c : ascii) (a b : string) :
  Str.has_char c (a ++ String c b) = true.
Proof.
  unfold Str.has_char. induction a as [| x a IH]; simpl.
  - rewrite Ascii.eqb_refl. reflexivity.
  - rewrite IH. apply orb_true_r.
Qed.

Lemma first_component_append (c : ascii) (a b : string) :
  Str.has_char c a = false ->
  Str.first_component c (a ++ String c b) = a.
Proof.
  unfold Str.first_component, Str.has_char.
  induction a as [| x a IH]; simpl; intros H.
  - rewrite Ascii.eqb_refl. reflexivity.
  - apply orb_false_iff in H. destruct H as [Hx Ha].
    rewrite Ascii.eqb_sym, Hx. specialize (IH Ha).
    destruct (Str.split c (a ++ String c b)) as [| h t]; simpl in *;
      rewrite IH; reflexivity.
Qed.

Lemma entry_name_pin (n version : string) :
  Str.has_char "=" n = false ->
  entry_name (n ++ "==" ++ version) = n.
Proof. intros H. unfold entry_name. simpl. apply first_component_append, H. Qed.

Lemma no_equals_sign_In (names : list string) (n : string) :
  no_equals_sign names = true -> In n names -> Str.has_char "=" n = false.
Proof.
  unfold no_equals_sign. rewrite forallb_forall. intros H Hn.
  apply negb_true_iff, H, Hn.
Qed.

(** C4: the three sequences of [detect_project_dependencies] are pairwise
    disjoint, as strings and as module names, and the module names of their
    entries are exactly the top-level import names found in the units. *)
Theorem partitions_disjoint_and_cover (w : world) (directory : string)
    (report : dependency_report) :
  value (detect_project_dependencies w directory) = Ok report ->
  no_equals_sign (project_imports w directory) = true ->
  disjoint (standard_lib report) (unknown report) /\
  disjoint (third_party report) (standard_lib report) /\
  disjoint (third_party report) (unknown report) /\
  disjoint (map entry_name (third_party report)) (standard_lib report) /\
  disjoint (map entry_name (third_party report)) (unknown report) /\
  (forall n, In n (project_imports w directory) <->
             In n (standard_lib report) \/
             In n (map entry_name (third_party report)) \/
             In n (unknown report)).
Proof.
  intros Hrun Hid.
  destruct (detect_project_dependencies_classified w directory report Hrun)
    as [Ht Hs Hu Hp].
  assert (Hname : forall s, In s (map entry_name (third_party report)) <->
                            In s (project_imports w directory) /\
                            value (is_standard_library w s) = Ok false /\
                            exists version, installed_version w s = Some version).
  { intros s. rewrite in_map_iff. split.
    - intros (e & <- & He). apply Hp in He.
      destruct He as (n & v & Hn & Hb & Hv & ->).
      rewrite (entry_name_pin n v (no_equals_sign_In _ _ Hid Hn)). eauto.
    - intros (Hn & Hb & v & Hv). exists (s ++ "==" ++ v)%string. split.
      + apply entry_name_pin, (no_equals_sign_In _ _ Hid Hn).
      + apply Hp. exists s, v. auto. }
  assert (Hpin : forall s, In s (third_party report) ->
                           In s (project_imports w directory) -> False).
  { intros s He Hn. apply Hp in He. destruct He as (n & v & _ & _ & _ & ->).
    pose proof (no_equals_sign_In _ _ Hid Hn) as H.
    simpl in H. rewrite has_char_append in H. discriminate. }
  repeat split.
  - intros s H1 H2. apply Hs in H1. apply Hu in H2.
    destruct H1 as (_ & H1). destruct H2 as (_ & H2 & _). congruence.
  - intros s H1 H2. apply Hs in H2. apply (Hpin s H1), H2.
  - intros s H1 H2. apply Hu in H2. apply (Hpin s H1), H2.
  - intros s H1 H2. apply Hname in H1. apply Hs in H2.
    destruct H1 as (_ & H1 & _). destruct H2 as (_ & H2). congruence.
  - intros s H1 H2. apply Hname in H1. apply Hu in H2.
    destruct H1 as (_ & _ & v & H1). destruct H2 as (_ & _ & H2). congruence.
  - intros Hn. destruct (Ht n Hn) as ([|] & Hb).
    + left. apply Hs. auto.
    + destruct (installed_version w n) as [v |] eqn:Hv.
      * right. left. apply Hname. eauto.
      * right. right. apply Hu. auto.
  - intros [H | [H | H]].
    + apply Hs in H. apply H.
    + apply Hname in H. apply H.
    + apply Hu in H. apply H.
Qed.

Lemma partitions_disjoint_and_cover_witness :
  value (detect_project_dependencies Demo.mixed_world "proj") = Ok Demo.mixed_report /\
  no_equals_sign (project_imports Demo.mixed_world "proj") = true /\
  disjoint (third_party Demo.mixed_report) (unknown Demo.mixed_report) /\
  (forall n, In n (project_imports Demo.mixed_world "proj") <->
             In n ["json"; "os"] \/ In n ["requests"] \/ In n ["yaml"]).
Proof.
  assert (Hrun : value (detect_project_dependencies Demo.mixed_world "proj")
                 = Ok Demo.mixed_report) by (vm_compute; reflexivity).
  assert (Hid : no_equals_sign (project_imports Demo.mixed_world "proj") = true)
    by (vm_compute; reflexivity).
  split; [exact Hrun |]. split; [exact Hid |].
  destruct (partitions_disjoint_and_cover _ _ _ Hrun Hid)
    as (_ & _ & Hd & _ & _ & Hcover).
  split; [exact Hd | exact Hcover].
Defined.

(** ** The decision sequence *)

(** C2, as stated, fails twice: [ghost] does not resolve and has
    a registry entry, and is reported as [ghost==1.0], not as unknown; [yaml]
    resolves under [site-packages] and has no registry entry, and is
    reported as unknown, not as third-party. *)
Lemma decision_sequence_counterexample :
  value (detect_project_dependencies Demo.ghost_world "proj") = Ok Demo.ghost_report /\
  (In "ghost" (project_imports Demo.ghost_world "proj") /\
   ~ In "ghost" (stdlib_module_names Demo.ghost_world) /\
   find_spec Demo.ghost_world "ghost" = Ok None /\
   ~ In "ghost" (unknown Demo.ghost_report) /\
   In "ghost==1.0" (third_party Demo.ghost_report)) /\
  (In "yaml" (project_imports Demo.ghost_world "proj") /\
   ~ In "yaml" (stdlib_module_names Demo.ghost_world) /\
   (exists sp, find_spec Demo.ghost_world "yaml" = Ok (Some sp) /\
               third_party_location sp = true) /\
   installed_version Demo.ghost_world "yaml" = None /\
   ~ In "yaml" (third_party Demo.ghost_report) /\
   In "yaml" (unknown Demo.ghost_report)).
Proof.
  split; [vm_compute; reflexivity |]. split.
  - split; [vm_compute; auto |]. split.
    + simpl. intros [H | [H | [H | [H | []]]]]; discriminate.
    + split; [reflexivity |]. split; simpl.
      * intros [H | []]; discriminate.
      * auto.
  - split; [vm_compute; auto 10 |]. split.
    + simpl. intros [H | [H | [H | [H | []]]]]; discriminate.
    + split; [eexists; split; [reflexivity | vm_compute; reflexivity] |].
      split; [vm_compute; reflexivity |]. split; simpl.
      * intros [H | [H | []]]; discriminate.
      * auto.
Qed.

(** C2, amended: a name in the standard-module set is standard-library;
    otherwise a name that resolves to a location without [site-packages] and
    [dist-packages] is standard-library; otherwise, the name not resolving or
    resolving under one of the two, what [str.lower] makes of it is looked up
    in the dict [installed_packages], whose keys are what [str.lower] makes
    of the distribution names, and it is reported as
    [name==installed_version] in the third-party partition when found, and
    as unknown when not. *)
Theorem decision_sequence (w : world) (directory : string)
    (report : dependency_report) (n : string) :
  value (detect_project_dependencies w directory) = Ok report ->
  In n (project_imports w directory) ->
  exists installed,
    installed_packages w = Ok installed /\
    (In n (stdlib_module_names w) -> In n (standard_lib report)) /\
    (~ In n (stdlib_module_names w) ->
     (forall sp, find_spec w n = Ok (Some sp) -> third_party_location sp = false ->
                 In n (standard_lib report)) /\
     (find_spec w n = Ok None \/
      (exists sp, find_spec w n = Ok (Some sp) /\ third_party_location sp = true) ->
      match Dict.get (str_lower w n) installed with
      | Some version => In (n ++ "==" ++ version)%string (third_party report)
      | None => In n (unknown report)
      end)).
Proof.
  intros Hrun Hn.
  assert (Hok : exists installed, installed_packages w = Ok installed).
  { rewrite detect_project_dependencies_value in Hrun.
    destruct (installed_packages w); [eauto | discriminate]. }
  destruct Hok as (installed & Hok). exists installed. split; [exact Hok |].
  destruct (detect_project_dependencies_classified w directory report Hrun)
    as [Ht Hs Hu Hp].
  pose proof (is_standard_library_value w n) as Hv.
  split.
  - intros Hstd. apply existsb_eqb_In in Hstd. rewrite Hstd in Hv.
    apply Hs. auto.
  - intros Hstd.
    destruct (existsb (String.eqb n) (stdlib_module_names w)) eqn:He;
      [apply existsb_eqb_In in He; contradiction |].
    split.
    + intros sp Hf Hl. rewrite Hf, Hl in Hv. apply Hs. auto.
    + intros Hf.
      assert (Hb : value (is_standard_library w n) = Ok false).
      { destruct Hf as [Hf | (sp & Hf & Hl)]; rewrite Hf in Hv;
          [| rewrite Hl in Hv]; exact Hv. }
      assert (Hi : installed_version w n = Dict.get (str_lower w n) installed).
      { unfold installed_version, registry. rewrite Hok. reflexivity. }
      destruct (Dict.get (str_lower w n) installed) as [v |].
      * apply Hp. exists n, v. auto.
      * apply Hu. auto.
Qed.

Lemma decision_sequence_witness :
  value (detect_project_dependencies Demo.ghost_world "proj") = Ok Demo.ghost_report /\
  In "ghost" (project_imports Demo.ghost_world "proj") /\
  ~ In "ghost" (stdlib_module_names Demo.ghost_world) /\
  find_spec Demo.ghost_world "ghost" = Ok None /\
  In "ghost==1.0" (third_party Demo.ghost_report).
Proof.
  assert (Hrun : value (detect_project_dependencies Demo.ghost_world "proj")
                 = Ok Demo.ghost_report) by (vm_compute; reflexivity).
  assert (Hn : In "ghost" (project_imports Demo.ghost_world "proj"))
    by (vm_compute; auto).
  assert (Hstd : ~ In "ghost" (stdlib_module_names Demo.ghost_world)).
  { simpl. intros [H | [H | [H | [H | []]]]]; discriminate. }
  assert (Hf : find_spec Demo.ghost_world "ghost" = Ok None) by reflexivity.
  split; [exact Hrun |]. split; [exact Hn |]. split; [exact Hstd |].
  split; [exact Hf |].
  destruct (decision_sequence _ _ _ _ Hrun Hn) as (installed & Hok & _ & H).
  pose proof (proj2 (H Hstd) (or_introl Hf)) as Hg.
  vm_compute in Hok. inversion Hok; subst installed. exact Hg.
Defined.

(** ** The recommended version *)

(** C1: a project with a dict-union expression and a match statement gets the
    recommended version 3.9, which the ordering of the specification puts
    below 3.10: the threshold written [3.10] is the float 3.1 and loses
    against 3.9 in [max]. *)
Theorem union_and_match_recommend_3_9 :
  value (project_versions Demo.union_match_world "proj") = Ok [3.10%float; 3.9%float] /\
  value (get_python_version Demo.union_match_world "proj") = Ok 3.9%float /\
  spec_rank 3.9 < spec_rank 3.10 /\
  PrimFloat.ltb 3.10 3.9 = true.
Proof.
  split; [vm_compute; reflexivity |]. split; [vm_compute; reflexivity |].
  split; [vm_compute; lia | reflexivity].
Qed.

(** C5: adding a type hint to a project with a match statement lowers the
    recommended version from the one written [3.10] to 3.5, although the
    detected versions of the first project are among those of the second. *)
Theorem more_features_lower_version :
  value (project_versions Demo.match_world "proj") = Ok [3.10%float] /\
  value (project_versions Demo.hint_match_world "proj") = Ok [3.5%float; 3.10%float] /\
  value (get_python_version Demo.match_world "proj") = Ok 3.10%float /\
  value (get_python_version Demo.hint_match_world "proj") = Ok 3.5%float /\
  spec_rank 3.5 < spec_rank 3.10.
Proof.
  repeat split; try (vm_compute; reflexivity). vm_compute. lia.
Qed.

(** ** Exceptions that escape *)

(** C6: a script whose bytes are not UTF-8 makes both analyses raise
    [UnicodeDecodeError], and a notebook that holds a JSON array makes them
    raise [TypeError]: neither is among the exceptions that the code
    catches. *)
Theorem decode_error_escapes :
  detect_project_dependencies Demo.undecodable_world "proj"
    = (Raise UnicodeDecodeError, []) /\
  get_python_version Demo.undecodable_world "proj" = (Raise UnicodeDecodeError, []) /\
  detect_project_dependencies Demo.array_notebook_world "proj" = (Raise TypeError, []) /\
  get_python_version Demo.array_notebook_world "proj" = (Raise TypeError, []).
Proof. repeat split; vm_compute; reflexivity. Qed.

(** C7: a notebook whose JSON document is [null] has no [cells] key and is
    not skipped: [notebook['cells']] raises [TypeError], which neither
    notebook analysis catches, so no diagnostic is printed and both project
    analyses end with that exception, although the script beside the
    notebook parses and both analyses return for the project without the
    notebook. *)
Theorem null_notebook_escapes :
  Path.suffix (file_path Cases.null_file) = ".ipynb" /\
  json_loads Cases.null_world Cases.null_src = Ok JNull /\
  analyze_notebook_imports Cases.null_world Cases.null_file = (Raise TypeError, []) /\
  analyze_python_version_notebook Cases.null_world Cases.null_file
    = (Raise TypeError, []) /\
  detect_project_dependencies Cases.null_world "proj" = (Raise TypeError, []) /\
  get_python_version Cases.null_world "proj" = (Raise TypeError, []) /\
  detect_project_dependencies (with_files Cases.null_world [Cases.app_file]) "proj" =
    (Ok {| third_party := []; standard_lib := ["json"; "os"]; unknown := [] |}, []) /\
  get_python_version (with_files Cases.null_world [Cases.app_file]) "proj"
    = (Ok 3.5%float, []).
Proof. repeat split; vm_compute; reflexivity. Qed.

(** ** The maximum of the detected versions, as floats *)

Ltac in_table H :=
  simpl in H; destruct H as [<- | [<- | [<- | [<- | [<- | [<- | []]]]]]].

Lemma table_max_step (a b : float) :
  In a version_table -> In b version_table ->
  let m := if PrimFloat.ltb a b then b else a in
  (m = a \/ m = b) /\ PrimFloat.leb a m = true /\ PrimFloat.leb b m = true.
Proof.
  intros Ha Hb. in_table Ha; in_table Hb; vm_compute; auto.
Qed.

Lemma table_leb_trans (a b c : float) :
  In a version_table -> In b version_table -> In c version_table ->
  PrimFloat.leb a b = true -> PrimFloat.leb b c = true -> PrimFloat.leb a c = true.
Proof.
  intros Ha Hb Hc. in_table Ha; in_table Hb; in_table Hc; vm_compute;
    intros; congruence.
Qed.

Lemma table_leb_refl (a : float) :
  In a version_table -> PrimFloat.leb a a = true.
Proof. intros Ha. in_table Ha; reflexivity. Qed.

Lemma max_from_spec (l : list float) (m : float) :
  known_versions (m :: l) ->
  In (Float.max_from m l) (m :: l) /\
  forall x, In x (m :: l) -> PrimFloat.leb x (Float.max_from m l) = true.
Proof.
  revert m. induction l as [| y l IH]; intros m Hk.
  - simpl. split; [auto |]. intros x [<- | []].
    apply table_leb_refl, Hk. simpl. auto.
  - assert (Hm : In m version_table) by (apply Hk; simpl; auto).
    assert (Hy : In y version_table) by (apply Hk; simpl; auto).
    destruct (table_max_step m y Hm Hy) as (Hsel & Hle1 & Hle2).
    set (m' := if PrimFloat.ltb m y then y else m) in *.
    assert (Hk' : known_versions (m' :: l)).
    { intros x [<- | Hx]; [destruct Hsel as [-> | ->]; assumption |].
      apply Hk. simpl. auto. }
    destruct (IH m' Hk') as (Hin & Hmax).
    change (Float.max_from m (y :: l)) with (Float.max_from m' l).
    split.
    + destruct Hin as [Hin | Hin]; [| simpl; auto].
      rewrite <- Hin. destruct Hsel as [-> | ->]; simpl; auto.
    + assert (Hr : In (Float.max_from m' l) version_table) by (apply Hk', Hin).
      assert (Hm'r : PrimFloat.leb m' (Float.max_from m' l) = true)
        by (apply Hmax; simpl; auto).
      assert (Hm' : In m' version_table) by (apply Hk'; simpl; auto).
      intros x [<- | [<- | Hx]].
      * exact (table_leb_trans _ _ _ Hm Hm' Hr Hle1 Hm'r).
      * exact (table_leb_trans _ _ _ Hy Hm' Hr Hle2 Hm'r).
      * apply Hmax. simpl. auto.
Qed.

Lemma In_add (x y : float) (s : list float) :
  In y (Float.add x s) -> y = x \/ In y s.
Proof.
  induction s as [| z s IH]; simpl.
  - intros [<- | []]. auto.
  - destruct (PrimFloat.eqb z x); simpl; [auto |].
    intros [<- | H]; [auto |]. destruct (IH H); auto.
Qed.

Lemma known_add (x : float) (s : list float) :
  In x version_table -> known_versions s -> known_versions (Float.add x s).
Proof.
  intros Hx Hs y Hy. destruct (In_add _ _ _ Hy) as [-> | H]; auto.
Qed.

Lemma known_update (s t : list float) :
  known_versions s -> known_versions t -> known_versions (Float.update s t).
Proof.
  unfold Float.update. revert s. induction t as [| x t IH]; intros s Hs Ht; simpl.
  - exact Hs.
  - apply IH.
    + apply known_add; [apply Ht; simpl; auto | exact Hs].
    + intros y Hy. apply Ht. simpl. auto.
Qed.

Lemma known_nil : known_versions [].
Proof. intros x []. Qed.

Lemma known_version_node (w : world) (rv : list float) (n : node) :
  known_versions rv -> known_versions (version_node w rv n).
Proof.
  intros Hk. destruct n as [| | | | decorators | | lhs [|] rhs | |]; simpl;
    try exact Hk; try (apply known_add; [simpl; auto 10 | exact Hk]).
  - revert rv Hk. induction decorators as [| d ds IH]; intros rv Hk; simpl.
    + exact Hk.
    + apply IH. destruct (is_dataclass d); [| exact Hk].
      apply known_add; [simpl; auto 10 | exact Hk].
  - destruct (is_Dict lhs || is_Dict rhs); [| exact Hk].
    apply known_add; [simpl; auto 10 | exact Hk].
  - destruct (has_Match w); [| exact Hk].
    apply known_add; [simpl; auto 10 | exact Hk].
Qed.

Lemma known_walk_versions (w : world) (tree : list node) :
  known_versions (walk_versions w tree).
Proof.
  unfold walk_versions. generalize known_nil. generalize (@nil float).
  induction tree as [| n tree IH]; intros rv Hk; simpl.
  - exact Hk.
  - apply IH, known_version_node, Hk.
Qed.

Lemma try_except_Ok {A} (body : M A) (handled : exn -> bool) (handler : M A) (a : A) :
  value (try_except body handled handler) = Ok a ->
  value body = Ok a \/ value handler = Ok a.
Proof.
  unfold try_except, value. destruct body as [[x | e] out]; simpl; [auto |].
  destruct (handled e); [| discriminate].
  destruct handler as [r out']. simpl. auto.
Qed.

Lemma known_analyze_python_version (w : world) (f : fs_entry) (fv : list float) :
  value (analyze_python_version w f) = Ok fv -> known_versions fv.
Proof.
  unfold analyze_python_version, open_read. rewrite value_bind, value_lift.
  destruct (read_text f) as [text | e]; [| discriminate].
  destruct (ast_parse w text) as [tree | []]; simpl; intros H;
    inversion H; subst; auto using known_walk_versions, known_nil.
Qed.

Lemma known_analyze_python_version_notebook (w : world) (f : fs_entry) (fv : list float) :
  value (analyze_python_version_notebook w f) = Ok fv -> known_versions fv.
Proof.
  unfold analyze_python_version_notebook. intros H.
  apply try_except_Ok in H. destruct H as [H | H].
  - rewrite value_bind in H.
    destruct (value (combined_code w f)) as [code | e]; [| discriminate].
    rewrite value_bind, value_lift in H.
    destruct (ast_parse w code) as [tree | e]; [| discriminate].
    simpl in H. inversion H. apply known_walk_versions.
  - simpl in H. inversion H. apply known_nil.
Qed.

Lemma known_scan_versions (w : world) (seen : list fs_entry) (f : fs_entry)
    (rv rv' : list float) :
  known_versions rv -> value (scan_versions w f rv) = Ok rv' -> known_versions rv'.
Proof.
  intros Hk. unfold scan_versions.
  destruct (String.eqb (Path.suffix (file_path f)) ".py").
  - rewrite value_bind.
    destruct (value (analyze_python_version w f)) as [fv | e] eqn:Hf; [| discriminate].
    simpl. intros H. inversion H.
    apply known_update; [exact Hk | eapply known_analyze_python_version, Hf].
  - destruct (String.eqb (Path.suffix (file_path f)) ".ipynb").
    + rewrite value_bind.
      destruct (value (analyze_python_version_notebook w f)) as [fv | e] eqn:Hf;
        [| discriminate].
      simpl. intros H. inversion H.
      apply known_update;
        [exact Hk | eapply known_analyze_python_version_notebook, Hf].
    + simpl. intros H. inversion H; subst. exact Hk.
Qed.

Lemma known_project_versions (w : world) (directory : string) (rv : list float) :
  value (project_versions w directory) = Ok rv -> known_versions rv.
Proof.
  unfold project_versions. rewrite value_bind, value_lift.
  destruct (rglob w directory) as [files | e]; [| discriminate].
  intros H.
  exact (for_each_invariant (scan_versions w) (fun _ s => known_versions s)
           (fun seen x s s' => known_scan_versions w seen x s s')
           files [] [] rv known_nil H).
Qed.

(** The recommended version is 3.5 when nothing is detected, and otherwise
    a detected version that no other one exceeds in the order of floats. *)
Lemma get_python_version_is_float_maximum (w : world) (directory : string)
    (rv : list float) :
  value (project_versions w directory) = Ok rv ->
  exists v,
    value (get_python_version w directory) = Ok v /\
    (rv = [] -> v = 3.5%float) /\
    (rv <> [] -> In v rv) /\
    (forall x, In x rv -> PrimFloat.leb x v = true).
Proof.
  intros H. pose proof (known_project_versions w directory rv H) as Hk.
  exists (minimum_version rv). rewrite get_python_version_value, H.
  split; [reflexivity |]. destruct rv as [| m l]; simpl.
  - split; [reflexivity |]. split; [congruence | intros x []].
  - destruct (max_from_spec l m Hk) as (Hin & Hmax).
    split; [discriminate |]. split; [intros _; exact Hin | exact Hmax].
Qed.

(** X26: in the order of floats, a project that detects something never
    gets a higher version than a project that detects at least the same. *)
Lemma get_python_version_monotone_as_floats (w1 w2 : world) (d1 d2 : string)
    (rv1 rv2 : list float) (v1 v2 : float) :
  value (project_versions w1 d1) = Ok rv1 ->
  value (project_versions w2 d2) = Ok rv2 ->
  rv1 <> [] -> incl rv1 rv2 ->
  value (get_python_version w1 d1) = Ok v1 ->
  value (get_python_version w2 d2) = Ok v2 ->
  PrimFloat.leb v1 v2 = true.
Proof.
  intros H1 H2 Hne Hincl Hv1 Hv2.
  destruct (get_python_version_is_float_maximum w1 d1 rv1 H1) as (x1 & Hx1 & _ & Hin & _).
  destruct (get_python_version_is_float_maximum w2 d2 rv2 H2) as (x2 & Hx2 & _ & _ & Hmax).
  rewrite Hx1 in Hv1. rewrite Hx2 in Hv2. inversion Hv1; inversion Hv2; subst.
  apply Hmax, Hincl, Hin, Hne.
Qed.

(** ** The registry *)








(** ** The library models on small inputs *)

Example split_dotted : Str.split "." "foo.bar.baz" = ["foo"; "bar"; "baz"].
Proof. reflexivity. Qed.

Example first_component_plain : Str.first_component "." "requests" = "requests".
Proof. reflexivity. Qed.

Example suffix_py : Path.suffix "proj/pkg/mod.py" = ".py".
Proof. reflexivity. Qed.

Example suffix_hidden : Path.suffix "proj/.py" = "".
Proof. reflexivity. Qed.

Example name_of_directory :
  Path.name "." = "" /\ Path.name "/home/dev/proj/" = "proj".
Proof. split; reflexivity. Qed.

Example str_of_versions :
  map Float.str version_table = ["3.5"; "3.6"; "3.7"; "3.8"; "3.9"; "3.1"].
Proof. vm_compute. reflexivity. Qed.

Example sorted_names : Str.sorted ["os"; "json"; "ast"] = ["ast"; "json"; "os"].
Proof. reflexivity. Qed.

Example notebook_code :
  combined_code Demo.mixed_world (Demo.script "proj/nb/explore.ipynb" Demo.notebook_src)
  = (Ok Demo.imports_src, []).
Proof. vm_compute. reflexivity. Qed.

(** Example 1 of the specification: only [import os] and [import json]. *)
Example only_standard_imports :
  value (detect_project_dependencies
           (Demo.world_of [Demo.script "proj/app.py" Demo.imports_src]) "proj")
  = Ok {| third_party := []; standard_lib := ["json"; "os"]; unknown := [] |} /\
  value (get_python_version
           (Demo.world_of [Demo.script "proj/app.py" Demo.imports_src]) "proj")
  = Ok 3.5%float.
Proof. split; vm_compute; reflexivity. Qed.

(** ** Units that fail to parse *)

(** X25: what the code does catch: a script that decodes and is not Python
    contributes the empty sets, with a warning of the import analysis and
    none of the version analysis, and the project analyses give what they
    give without it. *)
Lemma unparsable_script_skipped (w : world) (f : fs_entry) (text : string)
    (before after : list fs_entry) (directory : string) :
  Path.suffix (file_path f) = ".py" ->
  read_text f = Ok text ->
  ast_parse w text = Raise SyntaxError ->
  analyze_imports w f =
    (Ok [], ["Warning: Syntax error in " ++ file_path f]%string) /\
  analyze_python_version w f = (Ok [], []) /\
  value (detect_project_dependencies (with_files w (before ++ f :: after)) directory) =
    value (detect_project_dependencies (with_files w (before ++ after)) directory) /\
  value (get_python_version (with_files w (before ++ f :: after)) directory) =
    value (get_python_version (with_files w (before ++ after)) directory).
Proof.
  intros Hs Hr Hp.
  assert (Hi : analyze_imports w f =
               (Ok [], ["Warning: Syntax error in " ++ file_path f]%string)).
  { unfold analyze_imports, open_read. rewrite Hr. simpl. rewrite Hp. reflexivity. }
  assert (Hv : analyze_python_version w f = (Ok [], [])).
  { unfold analyze_python_version, open_read. rewrite Hr. simpl. rewrite Hp.
    reflexivity. }
  split; [exact Hi |]. split; [exact Hv |]. split.
  - rewrite !detect_with_files.
    destruct (installed_packages w) as [installed | e]; [| reflexivity].
    rewrite (for_each_skip (scan_imports w (registry w)) f); [reflexivity |].
    intros s. unfold scan_imports. rewrite Hs. simpl String.eqb.
    rewrite Hi. reflexivity.
  - unfold get_python_version. rewrite !value_bind. simpl.
    rewrite !value_bind.
    rewrite (for_each_skip (scan_versions w) f); [reflexivity |].
    intros s. unfold scan_versions. rewrite Hs. simpl String.eqb.
    rewrite Hv. reflexivity.
Qed.

(** * Further properties of the analyses *)

(** ** The import extractor *)

Lemma first_component_no_separator (c : ascii) (s : string) :
  Str.has_char c (Str.first_component c s) = false.
Proof.
  unfold Str.first_component, Str.has_char.
  induction s as [| a s IH]; simpl; [reflexivity |].
  destruct (Ascii.eqb a c) eqn:E; simpl; [reflexivity |].
  destruct (Str.split c s) as [| h t]; simpl in *.
  - rewrite Ascii.eqb_sym, E. reflexivity.
  - rewrite Ascii.eqb_sym, E, IH. reflexivity.
Qed.

Lemma add_names_spec (names : list string) (acc : list string) :
  NoDup acc ->
  NoDup (fold_left (fun a nm => add_name nm a) names acc) /\
  forall name,
    In name (fold_left (fun a nm => add_name nm a) names acc) <->
    In name acc \/ exists nm, In nm names /\ Str.first_component "." nm = name.
Proof.
  revert acc. induction names as [| x names IH]; intros acc Hnd; simpl.
  - split; [exact Hnd |]. intros name. split; [auto |].
    intros [H | (nm & [] & _)]. exact H.
  - destruct (IH (add_name x acc)) as (Hnd' & Hin).
    { apply set_add_nodup, Hnd. }
    split; [exact Hnd' |]. intros name. rewrite Hin. unfold add_name.
    rewrite set_add_iff. split.
    + intros [[-> | H] | (nm & H1 & H2)]; eauto 6.
    + intros [H | (nm & [<- | H1] & H2)]; eauto 6.
Qed.

Lemma import_node_spec (acc : list string) (n : node) :
  NoDup acc ->
  NoDup (import_node acc n) /\
  forall name, In name (import_node acc n) <-> In name acc \/ imports_named n name.
Proof.
  intros Hnd. destruct n as [names | [m |] | | | | | | |]; simpl;
    try (split; [exact Hnd | intros name; tauto]).
  - apply add_names_spec, Hnd.
  - destruct m as [| a m]; simpl.
    + split; [exact Hnd |]. intros name. split; [auto |].
      intros [H | (H & _)]; [exact H | congruence].
    + split; [apply set_add_nodup, Hnd |]. intros name. unfold add_name.
      rewrite set_add_iff. split.
      * intros [-> | H]; [right; split; [discriminate | reflexivity] | auto].
      * intros [H | (_ & H)]; auto.
Qed.

Lemma walk_imports_from (tree : list node) (acc : list string) :
  NoDup acc ->
  NoDup (fold_left import_node tree acc) /\
  forall name,
    In name (fold_left import_node tree acc) <->
    In name acc \/ exists n, In n tree /\ imports_named n name.
Proof.
  revert acc. induction tree as [| n tree IH]; intros acc Hnd; simpl.
  - split; [exact Hnd |]. intros name. split; [auto |].
    intros [H | (n & [] & _)]. exact H.
  - destruct (import_node_spec acc n Hnd) as (Hnd1 & Hin1).
    destruct (IH (import_node acc n) Hnd1) as (Hnd2 & Hin2).
    split; [exact Hnd2 |]. intros name. rewrite Hin2, Hin1. split.
    + intros [[H | H] | (m & H1 & H2)]; eauto 6.
    + intros [H | (m & [<- | H1] & H2)]; eauto 6.
Qed.

Lemma imports_named_no_dot (n : node) (name : string) :
  imports_named n name -> Str.has_char "." name = false.
Proof.
  destruct n as [names | [m |] | | | | | | |]; simpl; try contradiction.
  - intros (nm & _ & <-). apply first_component_no_separator.
  - intros (_ & <-). apply first_component_no_separator.
Qed.

(** X1: the import set of a script that parses holds each name once, holds
    exactly the first dotted components of the modules named by its [import]
    and [from ... import] statements, and never a [from . import] without a
    module name. *)
Theorem analyze_imports_names (w : world) (f : fs_entry) (text : string)
    (tree : list node) :
  read_text f = Ok text ->
  ast_parse w text = Ok tree ->
  exists imports,
    analyze_imports w f = (Ok imports, []) /\
    NoDup imports /\
    (forall name, In name imports <-> exists n, In n tree /\ imports_named n name) /\
    (forall name, In name imports -> Str.has_char "." name = false) /\
    (forall name, ~ imports_named (ImportFrom None) name).
Proof.
  intros Hr Hp. exists (walk_imports tree).
  destruct (walk_imports_from tree [] (NoDup_nil _)) as (Hnd & Hin).
  split.
  { unfold analyze_imports, open_read. rewrite Hr. simpl. rewrite Hp. reflexivity. }
  split; [exact Hnd |].
  assert (Hspec : forall name, In name (walk_imports tree) <->
                               exists n, In n tree /\ imports_named n name).
  { intros name. unfold walk_imports. rewrite Hin. simpl. tauto. }
  split; [exact Hspec |]. split.
  - intros name H. apply Hspec in H. destruct H as (n & _ & H).
    eapply imports_named_no_dot, H.
  - intros name H. exact H.
Qed.

Lemma analyze_imports_names_witness :
  read_text (Demo.script "proj/deps.py" Demo.requests_src) = Ok Demo.requests_src /\
  ast_parse Demo.mixed_world Demo.requests_src
    = Ok [OtherNode; Import ["requests"]; Import ["yaml.nodes"]; OtherNode; OtherNode] /\
  exists imports,
    analyze_imports Demo.mixed_world (Demo.script "proj/deps.py" Demo.requests_src)
      = (Ok imports, []) /\
    (In "yaml" imports <->
     exists n, In n [OtherNode; Import ["requests"]; Import ["yaml.nodes"];
                     OtherNode; OtherNode] /\ imports_named n "yaml").
Proof.
  assert (Hr : read_text (Demo.script "proj/deps.py" Demo.requests_src)
               = Ok Demo.requests_src) by reflexivity.
  assert (Hp : ast_parse Demo.mixed_world Demo.requests_src
               = Ok [OtherNode; Import ["requests"]; Import ["yaml.nodes"];
                     OtherNode; OtherNode]) by (vm_compute; reflexivity).
  split; [exact Hr |]. split; [exact Hp |].
  destruct (analyze_imports_names _ _ _ _ Hr Hp) as (imports & Ha & _ & Hin & _).
  exists imports. split; [exact Ha | apply Hin].
Defined.

(** ** The version feature detector *)

Lemma table_eqb_eq (a b : float) :
  In a version_table -> In b version_table ->
  (PrimFloat.eqb a b = true <-> a = b).
Proof.
  intros Ha Hb. split.
  - in_table Ha; in_table Hb; vm_compute; intros H; try reflexivity; discriminate.
  - intros <-. in_table Ha; reflexivity.
Qed.

Lemma add_spec (x : float) (s : list float) :
  In x version_table -> known_versions s -> NoDup s ->
  NoDup (Float.add x s) /\
  forall y, In y (Float.add x s) <-> y = x \/ In y s.
Proof.
  intros Hx. induction s as [| z s IH]; intros Hk Hnd; simpl.
  - split; [constructor; [intros [] | constructor] |].
    intros y. split; [intros [<- | []]; auto | intros [-> | []]; auto].
  - assert (Hz : In z version_table) by (apply Hk; simpl; auto).
    assert (Hk' : known_versions s) by (intros y Hy; apply Hk; simpl; auto).
    inversion Hnd as [| ? ? Hnotin Hnd']; subst.
    destruct (PrimFloat.eqb z x) eqn:E.
    + apply (table_eqb_eq z x Hz Hx) in E. subst z.
      split; [exact Hnd |]. intros y. simpl. intuition (subst; auto).
    + assert (Hne : z <> x).
      { intros ->. rewrite (proj2 (table_eqb_eq x x Hx Hx) eq_refl) in E.
        discriminate. }
      destruct (IH Hk' Hnd') as (Hnd'' & Hin). split.
      * constructor; [| exact Hnd''].
        intros H. apply Hin in H. destruct H as [-> | H]; auto.
      * intros y. simpl. rewrite Hin. tauto.
Qed.

Lemma is_dataclass_true (d : expr) :
  is_dataclass d = true <-> d = Name "dataclass".
Proof.
  destruct d as [id | |]; simpl; try (split; [discriminate | discriminate]).
  rewrite String.eqb_eq. split; [intros -> | intros H; inversion H]; reflexivity.
Qed.

Lemma is_Dict_true (e : expr) : is_Dict e = true <-> e = Dict.
Proof. destruct e; simpl; split; try discriminate; reflexivity. Qed.

Lemma decorators_spec (decorators : list expr) (acc : list float) :
  known_versions acc -> NoDup acc ->
  let r := fold_left (fun a d => if is_dataclass d then Float.add 3.7 a else a)
                     decorators acc in
  known_versions r /\ NoDup r /\
  forall v, In v r <-> In v acc \/ (In (Name "dataclass") decorators /\ v = 3.7%float).
Proof.
  revert acc. induction decorators as [| d ds IH]; intros acc Hk Hnd; simpl.
  - split; [exact Hk |]. split; [exact Hnd |]. intros v. tauto.
  - destruct (is_dataclass d) eqn:E.
    + apply is_dataclass_true in E. subst d.
      assert (H37 : In 3.7%float version_table) by (simpl; auto 10).
      destruct (add_spec 3.7 acc H37 Hk Hnd) as (Hnd1 & Hin1).
      destruct (IH (Float.add 3.7 acc) (known_add _ _ H37 Hk) Hnd1)
        as (Hk2 & Hnd2 & Hin2).
      split; [exact Hk2 |]. split; [exact Hnd2 |].
      intros v. rewrite Hin2, Hin1. tauto.
    + destruct (IH acc Hk Hnd) as (Hk2 & Hnd2 & Hin2).
      split; [exact Hk2 |]. split; [exact Hnd2 |].
      intros v. rewrite Hin2. split; [tauto |].
      intros [H | ([H | H] & Hv)]; auto.
      apply is_dataclass_true in H. congruence.
Qed.

Lemma version_node_spec (w : world) (acc : list float) (n : node) :
  known_versions acc -> NoDup acc ->
  NoDup (version_node w acc n) /\
  forall v, In v (version_node w acc n) <-> In v acc \/ detects w n v.
Proof.
  intros Hk Hnd.
  assert (Hadd : forall x, In x version_table ->
            NoDup (Float.add x acc) /\
            forall v, In v (Float.add x acc) <-> In v acc \/ v = x).
  { intros x Hx. destruct (add_spec x acc Hx Hk Hnd) as (H1 & H2).
    split; [exact H1 |]. intros v. rewrite H2. tauto. }
  destruct n as [| | | | decorators | | lhs [|] rhs | |]; simpl;
    try (split; [exact Hnd | intros v; tauto]);
    try (apply Hadd; simpl; auto 10).
  - destruct (decorators_spec decorators acc Hk Hnd) as (_ & H1 & H2). auto.
  - destruct (is_Dict lhs || is_Dict rhs) eqn:E.
    + apply orb_true_iff in E. rewrite !is_Dict_true in E.
      destruct (Hadd 3.9%float) as (H1 & H2); [simpl; auto 10 |].
      split; [exact H1 |]. intros v. rewrite H2. tauto.
    + apply orb_false_iff in E. destruct E as (E1 & E2).
      split; [exact Hnd |]. intros v. split; [tauto |].
      intros [H | ([H | H] & _)]; auto; apply is_Dict_true in H; congruence.
  - destruct (has_Match w).
    + destruct (Hadd 3.10%float) as (H1 & H2); [simpl; auto 10 |].
      split; [exact H1 |]. intros v. rewrite H2. tauto.
    + split; [exact Hnd |]. intros v. split; [tauto |].
      intros [H | (H & _)]; [exact H | discriminate].
Qed.

Lemma walk_versions_from (w : world) (tree : list node) (acc : list float) :
  known_versions acc -> NoDup acc ->
  NoDup (fold_left (version_node w) tree acc) /\
  forall v,
    In v (fold_left (version_node w) tree acc) <->
    In v acc \/ exists n, In n tree /\ detects w n v.
Proof.
  revert acc. induction tree as [| n tree IH]; intros acc Hk Hnd; simpl.
  - split; [exact Hnd |]. intros v. split; [auto |].
    intros [H | (n & [] & _)]. exact H.
  - destruct (version_node_spec w acc n Hk Hnd) as (Hnd1 & Hin1).
    destruct (IH (version_node w acc n) (known_version_node w acc n Hk) Hnd1)
      as (Hnd2 & Hin2).
    split; [exact Hnd2 |]. intros v. rewrite Hin2, Hin1. split.
    + intros [[H | H] | (m & H1 & H2)]; eauto 6.
    + intros [H | (m & [<- | H1] & H2)]; eauto 6.
Qed.

(** X2: for a script that parses, the version analysis returns, each once,
    exactly the versions of the constructs present: 3.5 for an annotated
    assignment, 3.6 for an f-string, 3.7 for a class with a decorator that is
    the bare name [dataclass], 3.8 for a walrus, 3.9 for a bitwise-or with a
    dict display as an operand, and the one written 3.10 for a match
    statement when [ast] has [Match]. *)
Theorem analyze_python_version_constructs (w : world) (f : fs_entry) (text : string)
    (tree : list node) :
  read_text f = Ok text ->
  ast_parse w text = Ok tree ->
  exists versions,
    analyze_python_version w f = (Ok versions, []) /\
    NoDup versions /\
    forall v, In v versions <-> exists n, In n tree /\ detects w n v.
Proof.
  intros Hr Hp. exists (walk_versions w tree).
  destruct (walk_versions_from w tree [] known_nil (NoDup_nil _)) as (Hnd & Hin).
  split.
  { unfold analyze_python_version, open_read. rewrite Hr. simpl. rewrite Hp.
    reflexivity. }
  split; [exact Hnd |].
  intros v. unfold walk_versions. rewrite Hin. simpl. tauto.
Qed.

Lemma analyze_python_version_constructs_witness :
  read_text (Demo.script "proj/cfg.py" Demo.union_match_src) = Ok Demo.union_match_src /\
  (exists tree, ast_parse Demo.union_match_world Demo.union_match_src = Ok tree /\
     exists versions,
       analyze_python_version Demo.union_match_world
         (Demo.script "proj/cfg.py" Demo.union_match_src) = (Ok versions, []) /\
       (In 3.9%float versions <->
        exists n, In n tree /\ detects Demo.union_match_world n 3.9%float)).
Proof.
  assert (Hr : read_text (Demo.script "proj/cfg.py" Demo.union_match_src)
               = Ok Demo.union_match_src) by reflexivity.
  split; [exact Hr |]. eexists.
  assert (Hp : ast_parse Demo.union_match_world Demo.union_match_src = Ok _)
    by (vm_compute; reflexivity).
  split; [exact Hp |].
  destruct (analyze_python_version_constructs _ _ _ _ Hr Hp) as (vs & Ha & _ & Hin).
  exists vs. split; [exact Ha | apply Hin].
Defined.

(** ** The order of the report *)

Lemma ascii_compare_refl (a : ascii) : Ascii.compare a a = Eq.
Proof. unfold Ascii.compare. apply N.compare_refl. Qed.

Lemma ascii_compare_lt_trans (a b c : ascii) :
  Ascii.compare a b = Lt -> Ascii.compare b c = Lt -> Ascii.compare a c = Lt.
Proof.
  unfold Ascii.compare. rewrite !N.compare_lt_iff. apply N.lt_trans.
Qed.

Lemma string_compare_refl (s : string) : String.compare s s = Eq.
Proof.
  induction s as [| a s IH]; simpl; [reflexivity |].
  rewrite ascii_compare_refl. exact IH.
Qed.

Lemma string_compare_lt_trans (s1 s2 s3 : string) :
  String.compare s1 s2 = Lt -> String.compare s2 s3 = Lt ->
  String.compare s1 s3 = Lt.
Proof.
  revert s2 s3. induction s1 as [| a s1 IH]; intros [| b s2] [| c s3]; simpl;
    try discriminate; try reflexivity.
  destruct (Ascii.compare a b) eqn:Eab; try discriminate;
    destruct (Ascii.compare b c) eqn:Ebc; try discriminate.
  - apply Ascii.compare_eq_iff in Eab, Ebc. subst.
    rewrite ascii_compare_refl. apply IH.
  - apply Ascii.compare_eq_iff in Eab. subst. rewrite Ebc. reflexivity.
  - apply Ascii.compare_eq_iff in Ebc. subst. rewrite Eab. reflexivity.
  - rewrite (ascii_compare_lt_trans _ _ _ Eab Ebc). reflexivity.
Qed.

Lemma string_leb_trans (s1 s2 s3 : string) :
  String.leb s1 s2 = true -> String.leb s2 s3 = true -> String.leb s1 s3 = true.
Proof.
  unfold String.leb.
  destruct (String.compare s1 s2) eqn:E12; try discriminate;
    destruct (String.compare s2 s3) eqn:E23; try discriminate; intros _ _.
  - apply String.compare_eq_iff in E12, E23. subst.
    rewrite string_compare_refl. reflexivity.
  - apply String.compare_eq_iff in E12. subst. rewrite E23. reflexivity.
  - apply String.compare_eq_iff in E23. subst. rewrite E12. reflexivity.
  - rewrite (string_compare_lt_trans _ _ _ E12 E23). reflexivity.
Qed.

Lemma insert_sorted_ascending (x : string) (l : list string) :
  ascending l -> ascending (Str.insert_sorted x l).
Proof.
  unfold ascending. induction l as [| y l IH]; intros Hs; simpl.
  - constructor; constructor.
  - inversion Hs as [| ? ? Hl Hy]; subst.
    destruct (String.leb x y) eqn:E.
    + constructor; [exact Hs |]. constructor; [exact E |].
      rewrite Forall_forall in *. intros z Hz.
      eapply string_leb_trans; [exact E | apply Hy, Hz].
    + assert (Hyx : String.leb y x = true).
      { destruct (String.leb_total x y) as [H | H]; congruence. }
      constructor; [apply IH, Hl |].
      rewrite Forall_forall in *. intros z Hz.
      apply In_insert_sorted in Hz. destruct Hz as [-> | Hz]; auto.
Qed.

Lemma sorted_ascending (l : list string) : ascending (Str.sorted l).
Proof.
  unfold Str.sorted. induction l as [| x l IH]; simpl.
  - constructor.
  - apply insert_sorted_ascending, IH.
Qed.

Lemma insert_sorted_NoDup (x : string) (l : list string) :
  ~ In x l -> NoDup l -> NoDup (Str.insert_sorted x l).
Proof.
  induction l as [| y l IH]; intros Hx Hnd; simpl.
  - constructor; [intros [] | constructor].
  - destruct (String.leb x y); [constructor; assumption |].
    inversion Hnd as [| ? ? Hy Hl]; subst. constructor.
    + rewrite In_insert_sorted. intros [-> | H]; [apply Hx; simpl; auto | auto].
    + apply IH; [intros H; apply Hx; simpl; auto | exact Hl].
Qed.

Lemma sorted_NoDup (l : list string) : NoDup l -> NoDup (Str.sorted l).
Proof.
  unfold Str.sorted. induction l as [| x l IH]; intros Hnd; simpl.
  - constructor.
  - inversion Hnd as [| ? ? Hx Hl]; subst. apply insert_sorted_NoDup.
    + fold (Str.sorted l). rewrite In_sorted. exact Hx.
    + apply IH, Hl.
Qed.

Lemma classify_import_NoDup (w : world) (n : string) (deps deps' : dependency_report) :
  sets_NoDup deps ->
  value (classify_import w (registry w) n deps) = Ok deps' ->
  sets_NoDup deps'.
Proof.
  intros (H1 & H2 & H3). unfold classify_import. rewrite value_bind.
  destruct (value (is_standard_library w n)) as [[|] | e]; [| | discriminate].
  - simpl. intros H. inversion H. repeat split; simpl; auto using set_add_nodup.
  - destruct (Dict.get (str_lower w n) (registry w)); simpl;
      intros H; inversion H; repeat split; simpl; auto using set_add_nodup.
Qed.

Lemma scan_imports_NoDup (w : world) (f : fs_entry) (deps deps' : dependency_report) :
  sets_NoDup deps ->
  value (scan_imports w (registry w) f deps) = Ok deps' ->
  sets_NoDup deps'.
Proof.
  intros Hnd. rewrite scan_imports_value.
  destruct (value (unit_imports w f)) as [imports | e]; [| discriminate].
  intros H.
  exact (for_each_invariant (classify_import w (registry w))
           (fun _ d => sets_NoDup d)
           (fun seen x s s' => classify_import_NoDup w x s s')
           imports [] deps deps' Hnd H).
Qed.

Lemma detect_project_dependencies_sets (w : world) (directory : string)
    (report : dependency_report) :
  value (detect_project_dependencies w directory) = Ok report ->
  exists files deps,
    rglob w directory = Ok files /\
    value (for_each (scan_imports w (registry w)) files empty_dependencies)
      = Ok deps /\
    sets_NoDup deps /\
    report = {| third_party := Str.sorted (third_party deps);
                standard_lib := Str.sorted (standard_lib deps);
                unknown := Str.sorted (unknown deps) |}.
Proof.
  rewrite detect_project_dependencies_value.
  destruct (installed_packages w) as [installed | e]; [| discriminate].
  destruct (rglob w directory) as [files | e]; [| discriminate].
  destruct (value (for_each (scan_imports w (registry w)) files
                            empty_dependencies)) as [deps |] eqn:Hloop; [| discriminate].
  intros H. inversion H; subst report; clear H.
  exists files, deps. split; [reflexivity |]. split; [exact Hloop |].
  split; [| reflexivity].
  apply (for_each_invariant (scan_imports w (registry w))
           (fun _ d => sets_NoDup d)
           (fun seen x s s' => scan_imports_NoDup w x s s')
           files [] empty_dependencies deps); [| exact Hloop].
  repeat split; constructor.
Qed.

(** X3: each of the three sequences that [detect_project_dependencies]
    returns is in ascending order and holds no entry twice. *)
Theorem report_sorted_without_duplicates (w : world) (directory : string)
    (report : dependency_report) :
  value (detect_project_dependencies w directory) = Ok report ->
  (ascending (third_party report) /\ NoDup (third_party report)) /\
  (ascending (standard_lib report) /\ NoDup (standard_lib report)) /\
  (ascending (unknown report) /\ NoDup (unknown report)).
Proof.
  intros H. apply detect_project_dependencies_sets in H.
  destruct H as (files & deps & _ & _ & (H1 & H2 & H3) & ->). simpl.
  repeat split; auto using sorted_ascending, sorted_NoDup.
Qed.

Lemma report_sorted_without_duplicates_witness :
  value (detect_project_dependencies Demo.ghost_world "proj") = Ok Demo.ghost_report /\
  ascending ["ghost==1.0"; "requests==2.31.0"] /\
  NoDup ["ghost==1.0"; "requests==2.31.0"].
Proof.
  assert (H : value (detect_project_dependencies Demo.ghost_world "proj")
              = Ok Demo.ghost_report) by (vm_compute; reflexivity).
  split; [exact H |].
  exact (proj1 (report_sorted_without_duplicates _ _ _ H)).
Defined.

(** ** When the dependency scan ends normally *)

Lemma classify_loop_returns (w : world) (imports : list string) (deps : dependency_report) :
  (exists deps', value (for_each (classify_import w (registry w)) imports deps)
                 = Ok deps') <->
  forall n, In n imports -> exists b, value (is_standard_library w n) = Ok b.
Proof.
  revert deps. induction imports as [| n imports IH]; intros deps; simpl.
  - split; [intros _ n [] | intros _; eexists; reflexivity].
  - rewrite value_bind. unfold classify_import at 1. rewrite value_bind.
    destruct (value (is_standard_library w n)) as [b | e] eqn:Hb.
    + assert (Hstep : exists d1,
                value (if b
                       then ret {| third_party := third_party deps;
                                   standard_lib := set_add string_dec n (standard_lib deps);
                                   unknown := unknown deps |}
                       else match Dict.get (str_lower w n) (registry w) with
                            | Some version =>
                                ret {| third_party :=
                                         set_add string_dec (n ++ "==" ++ version)%string
                                                 (third_party deps);
                                       standard_lib := standard_lib deps;
                                       unknown := unknown deps |}
                            | None =>
                                ret {| third_party := third_party deps;
                                       standard_lib := standard_lib deps;
                                       unknown := set_add string_dec n (unknown deps) |}
                            end) = Ok d1).
      { destruct b; [eexists; reflexivity |].
        destruct (Dict.get (str_lower w n) (registry w));
          eexists; reflexivity. }
      destruct Hstep as (d1 & ->). rewrite IH. split.
      * intros H m [<- | Hm]; eauto.
      * intros H m Hm. apply H. auto.
    + split; [intros (d' & H); discriminate |].
      intros H. destruct (H n (or_introl eq_refl)) as (b & Hb'). congruence.
Qed.

Lemma scan_loop_returns (w : world) (files : list fs_entry) (deps : dependency_report) :
  (exists deps', value (for_each (scan_imports w (registry w)) files deps)
                 = Ok deps') <->
  forall f, In f files -> unit_classifies w f.
Proof.
  revert deps. induction files as [| f files IH]; intros deps; simpl.
  - split; [intros _ f [] | intros _; eexists; reflexivity].
  - rewrite value_bind, scan_imports_value.
    destruct (value (unit_imports w f)) as [imports | e] eqn:Hu.
    + destruct (value (for_each (classify_import w (registry w)) imports deps))
        as [d1 | e] eqn:Hc.
      * rewrite IH. split.
        -- intros H g [<- | Hg]; [| auto].
           exists imports. split; [exact Hu |].
           apply (classify_loop_returns w imports deps). eauto.
        -- intros H g Hg. apply H. auto.
      * split; [intros (d' & H); discriminate |].
        intros H. destruct (H f (or_introl eq_refl)) as (imports' & Hu' & Hn).
        rewrite Hu in Hu'. inversion Hu'; subst imports'.
        apply (classify_loop_returns w imports deps) in Hn.
        destruct Hn as (d' & Hn). congruence.
    + split; [intros (d' & H); discriminate |].
      intros H. destruct (H f (or_introl eq_refl)) as (imports' & Hu' & _).
      congruence.
Qed.



(** ** The report and the order of the directory listing *)

Lemma ascending_unique (l1 l2 : list string) :
  ascending l1 -> NoDup l1 -> ascending l2 -> NoDup l2 ->
  (forall x, In x l1 <-> In x l2) -> l1 = l2.
Proof.
  unfold ascending. revert l2.
  induction l1 as [| x t1 IH]; intros [| y t2] Hs1 Hn1 Hs2 Hn2 Hin.
  - reflexivity.
  - exfalso. apply (proj2 (Hin y)). simpl. auto.
  - exfalso. apply (proj1 (Hin x)). simpl. auto.
  - inversion Hs1 as [| ? ? Hs1' Hx]; subst.
    inversion Hs2 as [| ? ? Hs2' Hy]; subst.
    inversion Hn1 as [| ? ? Hx1 Hn1']; subst.
    inversion Hn2 as [| ? ? Hy2 Hn2']; subst.
    rewrite Forall_forall in Hx, Hy.
    assert (Hxy : x = y).
    { destruct (proj1 (Hin x) (or_introl eq_refl)) as [H | H]; [auto |].
      destruct (proj2 (Hin y) (or_introl eq_refl)) as [H' | H']; [auto |].
      apply String.leb_antisym; [apply Hx, H' | apply Hy, H]. }
    subst y. f_equal. apply IH; try assumption.
    intros z. split; intros Hz.
    + destruct (proj1 (Hin z) (or_intror Hz)) as [<- | H]; [contradiction | exact H].
    + destruct (proj2 (Hin z) (or_intror Hz)) as [<- | H]; [contradiction | exact H].
Qed.

Lemma with_files_detect (w : world) (files : list fs_entry) (directory : string)
    (installed : list (string * string)) :
  installed_packages w = Ok installed ->
  value (detect_project_dependencies (with_files w files) directory) =
  match value (for_each (scan_imports w (registry w)) files
                        empty_dependencies) with
  | Ok deps => Ok {| third_party := Str.sorted (third_party deps);
                     standard_lib := Str.sorted (standard_lib deps);
                     unknown := Str.sorted (unknown deps) |}
  | Raise e => Raise e
  end.
Proof.
  intros Hok. rewrite detect_with_files, Hok. reflexivity.
Qed.

Lemma with_files_classified (w : world) (files : list fs_entry) (directory : string)
    (report : dependency_report) :
  value (detect_project_dependencies (with_files w files) directory) = Ok report ->
  classified w (flat_map (imports_of w) files) report.
Proof.
  intros H.
  destruct (detect_project_dependencies_classified _ _ _ H) as [Ht Hs Hu Hp].
  constructor; [exact Ht | exact Hs | exact Hu | exact Hp].
Qed.

Lemma same_imports (w : world) (files files' : list fs_entry) :
  (forall f, In f files <-> In f files') ->
  forall n, In n (flat_map (imports_of w) files) <->
            In n (flat_map (imports_of w) files').
Proof.
  intros Hf n. rewrite !in_flat_map. split; intros (f & H1 & H2);
    exists f; (split; [apply Hf, H1 | exact H2]).
Qed.

(** X5: the report depends only on which entries the directory listing
    yields, not on their order or repetition: two listings with the same
    entries give the same report. *)
Theorem report_independent_of_listing_order (w : world) (files files' : list fs_entry)
    (directory : string) (report : dependency_report) :
  (forall f, In f files <-> In f files') ->
  value (detect_project_dependencies (with_files w files) directory) = Ok report ->
  value (detect_project_dependencies (with_files w files') directory) = Ok report.
Proof.
  intros Hf H.
  assert (Hok : exists installed, installed_packages w = Ok installed).
  { rewrite detect_with_files in H.
    destruct (installed_packages w); [eauto | discriminate]. }
  destruct Hok as (installed & Hok).
  assert (Hret : exists deps',
             value (for_each (scan_imports w (registry w)) files'
                             empty_dependencies) = Ok deps').
  { apply scan_loop_returns. intros f Hin. apply Hf in Hin.
    assert (Hloop : exists deps,
               value (for_each (scan_imports w (registry w)) files
                               empty_dependencies) = Ok deps).
    { rewrite (with_files_detect _ _ _ _ Hok) in H.
      destruct (value (for_each (scan_imports w (registry w)) files
                                empty_dependencies)); [eauto | discriminate]. }
    apply (proj1 (scan_loop_returns w files empty_dependencies) Hloop f Hin). }
  destruct Hret as (deps' & Hdeps').
  assert (H' : exists report',
             value (detect_project_dependencies (with_files w files') directory)
             = Ok report').
  { rewrite (with_files_detect _ _ _ _ Hok), Hdeps'. eauto. }
  destruct H' as (report' & H'). rewrite H'. f_equal.
  pose proof (with_files_classified _ _ _ _ H) as [_ Hs Hu Hp].
  pose proof (with_files_classified _ _ _ _ H') as [_ Hs' Hu' Hp'].
  pose proof (same_imports w files files' Hf) as Hsame.
  destruct (detect_project_dependencies_sets _ _ _ H)
    as (? & d & _ & _ & (N1 & N2 & N3) & E).
  destruct (detect_project_dependencies_sets _ _ _ H')
    as (? & d' & _ & _ & (N1' & N2' & N3') & E').
  assert (A : (ascending (third_party report) /\ NoDup (third_party report)) /\
              (ascending (standard_lib report) /\ NoDup (standard_lib report)) /\
              (ascending (unknown report) /\ NoDup (unknown report))).
  { subst report. simpl. repeat split; auto using sorted_ascending, sorted_NoDup. }
  assert (A' : (ascending (third_party report') /\ NoDup (third_party report')) /\
               (ascending (standard_lib report') /\ NoDup (standard_lib report')) /\
               (ascending (unknown report') /\ NoDup (unknown report'))).
  { subst report'. simpl. repeat split; auto using sorted_ascending, sorted_NoDup. }
  destruct A as ((A1 & B1) & (A2 & B2) & (A3 & B3)).
  destruct A' as ((A1' & B1') & (A2' & B2') & (A3' & B3')).
  assert (E1 : third_party report' = third_party report).
  { apply ascending_unique; try assumption. intros s. rewrite Hp, Hp'.
    split; intros (n & v & Hn & Hrest); exists n, v;
      (split; [apply Hsame, Hn | exact Hrest]). }
  assert (E2 : standard_lib report' = standard_lib report).
  { apply ascending_unique; try assumption. intros s. rewrite Hs, Hs'.
    split; intros (Hn & Hrest); (split; [apply Hsame, Hn | exact Hrest]). }
  assert (E3 : unknown report' = unknown report).
  { apply ascending_unique; try assumption. intros s. rewrite Hu, Hu'.
    split; intros (Hn & Hrest); (split; [apply Hsame, Hn | exact Hrest]). }
  destruct report, report'. simpl in *. congruence.
Qed.

Lemma report_independent_of_listing_order_witness :
  (forall f, In f [Demo.script "proj/app.py" Demo.imports_src;
                   Demo.script "proj/deps.py" Demo.requests_src] <->
             In f [Demo.script "proj/deps.py" Demo.requests_src;
                   Demo.script "proj/app.py" Demo.imports_src;
                   Demo.script "proj/deps.py" Demo.requests_src]) /\
  value (detect_project_dependencies
           (with_files Demo.mixed_world
              [Demo.script "proj/app.py" Demo.imports_src;
               Demo.script "proj/deps.py" Demo.requests_src]) "proj")
    = Ok Demo.mixed_report /\
  value (detect_project_dependencies
           (with_files Demo.mixed_world
              [Demo.script "proj/deps.py" Demo.requests_src;
               Demo.script "proj/app.py" Demo.imports_src;
               Demo.script "proj/deps.py" Demo.requests_src]) "proj")
    = Ok Demo.mixed_report.
Proof.
  assert (Hf : forall f,
             In f [Demo.script "proj/app.py" Demo.imports_src;
                   Demo.script "proj/deps.py" Demo.requests_src] <->
             In f [Demo.script "proj/deps.py" Demo.requests_src;
                   Demo.script "proj/app.py" Demo.imports_src;
                   Demo.script "proj/deps.py" Demo.requests_src]).
  { intros f. simpl. tauto. }
  assert (H : value (detect_project_dependencies
                       (with_files Demo.mixed_world
                          [Demo.script "proj/app.py" Demo.imports_src;
                           Demo.script "proj/deps.py" Demo.requests_src]) "proj")
              = Ok Demo.mixed_report) by (vm_compute; reflexivity).
  split; [exact Hf |]. split; [exact H |].
  exact (report_independent_of_listing_order _ _ _ _ _ Hf H).
Defined.

(** ** The version scan *)

Lemma update_spec (s t : list float) :
  known_versions s -> known_versions t -> NoDup s ->
  NoDup (Float.update s t) /\
  forall y, In y (Float.update s t) <-> In y s \/ In y t.
Proof.
  unfold Float.update. revert s. induction t as [| x t IH]; intros s Hs Ht Hnd; simpl.
  - split; [exact Hnd |]. intros y. tauto.
  - assert (Hx : In x version_table) by (apply Ht; simpl; auto).
    assert (Ht' : known_versions t) by (intros y Hy; apply Ht; simpl; auto).
    destruct (add_spec x s Hx Hs Hnd) as (Hnd1 & Hin1).
    destruct (IH (Float.add x s) (known_add x s Hx Hs) Ht' Hnd1) as (Hnd2 & Hin2).
    split; [exact Hnd2 |]. intros y. rewrite Hin2, Hin1.
    intuition (subst; auto).
Qed.

Lemma scan_versions_value (w : world) (f : fs_entry) (rv : list float) :
  value (scan_versions w f rv) =
  match value (unit_versions w f) with
  | Ok fv => Ok (Float.update rv fv)
  | Raise e => Raise e
  end.
Proof.
  unfold scan_versions, unit_versions.
  destruct (String.eqb (Path.suffix (file_path f)) ".py").
  - rewrite value_bind. destruct (value (analyze_python_version w f)); reflexivity.
  - destruct (String.eqb (Path.suffix (file_path f)) ".ipynb"); [| reflexivity].
    rewrite value_bind.
    destruct (value (analyze_python_version_notebook w f)); reflexivity.
Qed.

Lemma known_unit_versions (w : world) (f : fs_entry) (fv : list float) :
  value (unit_versions w f) = Ok fv -> known_versions fv.
Proof.
  unfold unit_versions.
  destruct (String.eqb (Path.suffix (file_path f)) ".py");
    [apply known_analyze_python_version |].
  destruct (String.eqb (Path.suffix (file_path f)) ".ipynb");
    [apply known_analyze_python_version_notebook |].
  simpl. intros H. inversion H. apply known_nil.
Qed.

Lemma version_loop_spec (w : world) (files : list fs_entry) (acc rv : list float) :
  known_versions acc -> NoDup acc ->
  value (for_each (scan_versions w) files acc) = Ok rv ->
  known_versions rv /\ NoDup rv /\
  forall v, In v rv <-> In v acc \/ exists f, In f files /\ In v (versions_of w f).
Proof.
  revert acc. induction files as [| f files IH]; intros acc Hk Hnd; simpl.
  - intros H. inversion H; subst. split; [exact Hk |]. split; [exact Hnd |].
    intros v. split; [auto |]. intros [H' | (f & [] & _)]. exact H'.
  - rewrite value_bind, scan_versions_value.
    destruct (value (unit_versions w f)) as [fv | e] eqn:Hu; [| discriminate].
    pose proof (known_unit_versions w f fv Hu) as Hfv.
    destruct (update_spec acc fv Hk Hfv Hnd) as (Hnd1 & Hin1).
    intros H. destruct (IH _ (known_update acc fv Hk Hfv) Hnd1 H) as (K & N & Hin).
    split; [exact K |]. split; [exact N |].
    intros v. rewrite Hin, Hin1. unfold versions_of. split.
    + intros [[H1 | H1] | (g & H1 & H2)]; [auto | | eauto 6].
      right. exists f. rewrite Hu. auto.
    + intros [H1 | (g & [<- | H1] & H2)]; [auto | | eauto 6].
      rewrite Hu in H2. auto.
Qed.

Lemma version_loop_returns (w : world) (files : list fs_entry) (acc : list float) :
  (exists rv, value (for_each (scan_versions w) files acc) = Ok rv) <->
  forall f, In f files -> exists fv, value (unit_versions w f) = Ok fv.
Proof.
  revert acc. induction files as [| f files IH]; intros acc; simpl.
  - split; [intros _ f [] | intros _; eexists; reflexivity].
  - rewrite value_bind, scan_versions_value.
    destruct (value (unit_versions w f)) as [fv | e] eqn:Hu.
    + rewrite IH. split.
      * intros H g [<- | Hg]; eauto.
      * intros H g Hg. apply H. auto.
    + split; [intros (rv & H); discriminate |].
      intros H. destruct (H f (or_introl eq_refl)) as (fv & Hfv). congruence.
Qed.

Lemma get_python_version_loop (w : world) (directory : string) :
  value (get_python_version w directory) =
  match rglob w directory with
  | Ok files =>
      match value (for_each (scan_versions w) files []) with
      | Ok rv => Ok (minimum_version rv)
      | Raise e => Raise e
      end
  | Raise e => Raise e
  end.
Proof.
  unfold get_python_version. rewrite value_bind, value_lift.
  destruct (rglob w directory) as [files | e]; [| reflexivity].
  rewrite value_bind.
  destruct (value (for_each (scan_versions w) files [])); reflexivity.
Qed.

(** X6: [get_python_version] returns a version exactly when the directory
    can be listed and the version analysis of every [.py] and [.ipynb] entry
    returns; any exception of these leaves the function. *)
Theorem get_python_version_returns (w : world) (directory : string) :
  (exists v, value (get_python_version w directory) = Ok v) <->
  exists files,
    rglob w directory = Ok files /\
    forall f, In f files -> exists fv, value (unit_versions w f) = Ok fv.
Proof.
  rewrite get_python_version_loop.
  destruct (rglob w directory) as [files | e].
  - split.
    + intros (v & H). exists files. split; [reflexivity |].
      apply (version_loop_returns w files []).
      destruct (value (for_each (scan_versions w) files [])); [eauto | discriminate].
    + intros (files' & Hf & H). inversion Hf; subst files'.
      apply (version_loop_returns w files []) in H.
      destruct H as (rv & ->). eauto.
  - split; [intros (v & H); discriminate | intros (files & H & _); discriminate].
Qed.

Lemma table_leb_antisym (a b : float) :
  In a version_table -> In b version_table ->
  PrimFloat.leb a b = true -> PrimFloat.leb b a = true -> a = b.
Proof.
  intros Ha Hb. in_table Ha; in_table Hb; vm_compute; intros H1 H2;
    try reflexivity; discriminate.
Qed.

Lemma minimum_version_spec (rv : list float) :
  known_versions rv ->
  In (minimum_version rv) version_table /\
  (rv = [] -> minimum_version rv = 3.5%float) /\
  (rv <> [] -> In (minimum_version rv) rv) /\
  (forall x, In x rv -> PrimFloat.leb x (minimum_version rv) = true).
Proof.
  intros Hk. destruct rv as [| m l]; simpl.
  - split; [auto |]. split; [reflexivity |]. split; [congruence | intros x []].
  - destruct (max_from_spec l m Hk) as (Hin & Hmax).
    split; [apply Hk, Hin |]. split; [discriminate |].
    split; [intros _; exact Hin | exact Hmax].
Qed.

(** X7: the recommended version is 3.5 when no unit of the project has a
    detected version; otherwise it is a version detected in some unit that
    no version detected in any unit exceeds, in the order of floats. *)
Theorem recommended_version_is_float_maximum (w : world) (directory : string)
    (files : list fs_entry) (v : float) :
  rglob w directory = Ok files ->
  value (get_python_version w directory) = Ok v ->
  ((forall f, In f files -> versions_of w f = []) -> v = 3.5%float) /\
  ((exists f, In f files /\ versions_of w f <> []) ->
   exists f, In f files /\ In v (versions_of w f)) /\
  (forall f x, In f files -> In x (versions_of w f) -> PrimFloat.leb x v = true).
Proof.
  intros Hf. rewrite get_python_version_loop, Hf.
  destruct (value (for_each (scan_versions w) files [])) as [rv | e] eqn:Hloop;
    [| discriminate].
  intros H. inversion H; subst v; clear H.
  destruct (version_loop_spec w files [] rv known_nil (NoDup_nil _) Hloop)
    as (Hk & _ & Hin).
  destruct (minimum_version_spec rv Hk) as (_ & Hempty & Hne & Hmax).
  split; [| split].
  - intros Hnone. apply Hempty. destruct rv as [| x rv]; [reflexivity |].
    exfalso. destruct (proj1 (Hin x) (or_introl eq_refl)) as [[] | (f & H1 & H2)].
    rewrite (Hnone f H1) in H2. exact H2.
  - intros (f & H1 & H2).
    assert (Hrv : rv <> []).
    { destruct (versions_of w f) as [| x l] eqn:E; [congruence |].
      intros ->. apply (proj2 (Hin x)). right. exists f. rewrite E. simpl. auto. }
    destruct (proj1 (Hin _) (Hne Hrv)) as [[] | H]. exact H.
  - intros f x H1 H2. apply Hmax, Hin. eauto.
Qed.

Lemma recommended_version_is_float_maximum_witness :
  rglob Demo.union_match_world "proj"
    = Ok [Demo.script "proj/cfg.py" Demo.union_match_src] /\
  value (get_python_version Demo.union_match_world "proj") = Ok 3.9%float /\
  exists f, In f [Demo.script "proj/cfg.py" Demo.union_match_src] /\
            In 3.9%float (versions_of Demo.union_match_world f).
Proof.
  assert (Hf : rglob Demo.union_match_world "proj"
               = Ok [Demo.script "proj/cfg.py" Demo.union_match_src]) by reflexivity.
  assert (Hv : value (get_python_version Demo.union_match_world "proj") = Ok 3.9%float)
    by (vm_compute; reflexivity).
  split; [exact Hf |]. split; [exact Hv |].
  apply (proj1 (proj2 (recommended_version_is_float_maximum _ _ _ _ Hf Hv))).
  exists (Demo.script "proj/cfg.py" Demo.union_match_src).
  split; [simpl; auto | vm_compute; discriminate].
Defined.

Lemma with_files_get_python_version (w : world) (files : list fs_entry)
    (directory : string) :
  value (get_python_version (with_files w files) directory) =
  match value (for_each (scan_versions w) files []) with
  | Ok rv => Ok (minimum_version rv)
  | Raise e => Raise e
  end.
Proof. rewrite get_python_version_loop. reflexivity. Qed.

Lemma minimum_version_same_members (rv rv' : list float) :
  known_versions rv -> known_versions rv' ->
  (forall x, In x rv <-> In x rv') ->
  minimum_version rv = minimum_version rv'.
Proof.
  intros Hk Hk' Hin.
  destruct (minimum_version_spec rv Hk) as (Ht & He & Hn & Hmax).
  destruct (minimum_version_spec rv' Hk') as (Ht' & He' & Hn' & Hmax').
  destruct rv as [| x l].
  - destruct rv' as [| x' l']; [reflexivity |].
    exfalso. apply (proj2 (Hin x')). simpl. auto.
  - assert (Hne : x :: l <> []) by discriminate.
    assert (Hne' : rv' <> []).
    { intros ->. apply (proj1 (Hin x)). simpl. auto. }
    apply table_leb_antisym; try assumption.
    + apply Hmax', Hin, Hn, Hne.
    + apply Hmax, Hin, Hn', Hne'.
Qed.

(** X8: the recommended version depends only on which entries the directory
    listing yields, not on their order or repetition. *)
Theorem version_independent_of_listing_order (w : world) (files files' : list fs_entry)
    (directory : string) (v : float) :
  (forall f, In f files <-> In f files') ->
  value (get_python_version (with_files w files) directory) = Ok v ->
  value (get_python_version (with_files w files') directory) = Ok v.
Proof.
  intros Hf. rewrite !with_files_get_python_version.
  destruct (value (for_each (scan_versions w) files [])) as [rv | e] eqn:Hloop;
    [| discriminate].
  intros H. inversion H; subst v; clear H.
  assert (Hret : exists rv', value (for_each (scan_versions w) files' []) = Ok rv').
  { apply version_loop_returns. intros f Hin. apply Hf in Hin.
    apply (proj1 (version_loop_returns w files []) (ex_intro _ rv Hloop) f Hin). }
  destruct Hret as (rv' & Hloop'). rewrite Hloop'. f_equal.
  destruct (version_loop_spec w files [] rv known_nil (NoDup_nil _) Hloop)
    as (Hk & _ & Hin).
  destruct (version_loop_spec w files' [] rv' known_nil (NoDup_nil _) Hloop')
    as (Hk' & _ & Hin').
  apply minimum_version_same_members; try assumption.
  intros x. rewrite Hin', Hin.
  split; intros [[] | (f & H1 & H2)]; right; exists f;
    (split; [apply Hf, H1 | exact H2]).
Qed.

Lemma version_independent_of_listing_order_witness :
  (forall f, In f [Demo.script "proj/show.py" Demo.fstring_src;
                   Demo.script "proj/cli.py" Demo.hint_match_src] <->
             In f [Demo.script "proj/cli.py" Demo.hint_match_src;
                   Demo.script "proj/show.py" Demo.fstring_src]) /\
  value (get_python_version
           (with_files Demo.mixed_world
              [Demo.script "proj/show.py" Demo.fstring_src;
               Demo.script "proj/cli.py" Demo.hint_match_src]) "proj") = Ok 3.6%float /\
  value (get_python_version
           (with_files Demo.mixed_world
              [Demo.script "proj/cli.py" Demo.hint_match_src;
               Demo.script "proj/show.py" Demo.fstring_src]) "proj") = Ok 3.6%float.
Proof.
  assert (Hf : forall f,
             In f [Demo.script "proj/show.py" Demo.fstring_src;
                   Demo.script "proj/cli.py" Demo.hint_match_src] <->
             In f [Demo.script "proj/cli.py" Demo.hint_match_src;
                   Demo.script "proj/show.py" Demo.fstring_src]).
  { intros f. simpl. tauto. }
  assert (H : value (get_python_version
                       (with_files Demo.mixed_world
                          [Demo.script "proj/show.py" Demo.fstring_src;
                           Demo.script "proj/cli.py" Demo.hint_match_src]) "proj")
              = Ok 3.6%float) by (vm_compute; reflexivity).
  split; [exact Hf |]. split; [exact H |].
  exact (version_independent_of_listing_order _ _ _ _ _ Hf H).
Defined.

(** ** The values of the environment *)

Lemma get_python_version_in_table (w : world) (directory : string) (v : float) :
  value (get_python_version w directory) = Ok v -> In v version_table.
Proof.
  rewrite get_python_version_loop.
  destruct (rglob w directory) as [files | e]; [| discriminate].
  destruct (value (for_each (scan_versions w) files [])) as [rv | e] eqn:Hloop;
    [| discriminate].
  intros H. inversion H; subst v.
  destruct (version_loop_spec w files [] rv known_nil (NoDup_nil _) Hloop) as (Hk & _).
  apply minimum_version_spec, Hk.
Qed.

(** X9: the recommended version of an environment is one of the six written
    thresholds, and the manifest pin is one of [python>=3.5], [python>=3.6],
    [python>=3.7], [python>=3.8], [python>=3.9] and [python>=3.1]; it is
    never [python>=3.10]. *)
Theorem manifest_pin_values (w : world) (directory : string)
    (generate_base_reqs : bool) (env : environment) :
  value (predict_python_environment w directory generate_base_reqs) = Ok env ->
  In (recommended_python_version env) version_table /\
  exists pin,
    hd_error (dependencies (conda_environment_yaml env)) = Some (Pin pin) /\
    In pin possible_pins /\
    pin <> "python>=3.10".
Proof.
  intros H. apply predict_python_environment_Ok in H.
  destruct H as (v & deps & Hv & _ & ->). simpl.
  pose proof (get_python_version_in_table w directory v Hv) as Ht.
  split; [exact Ht |].
  exists ("python>=" ++ Float.str v)%string. split; [reflexivity |].
  in_table Ht; (split; [vm_compute; auto 10 | vm_compute; discriminate]).
Qed.

Lemma manifest_pin_values_witness :
  value (predict_python_environment Demo.match_world "proj" true) = Ok Demo.match_env /\
  exists pin,
    hd_error (dependencies (conda_environment_yaml Demo.match_env)) = Some (Pin pin) /\
    In pin possible_pins /\
    pin <> "python>=3.10".
Proof.
  assert (H : value (predict_python_environment Demo.match_world "proj" true)
              = Ok Demo.match_env) by (vm_compute; reflexivity).
  split; [exact H |].
  exact (proj2 (manifest_pin_values _ _ _ _ H)).
Defined.

(** X10: the reasoning of an environment is fixed by its recommended
    version: the match-statement line comes first for every version, followed
    for 3.5 to 3.9 by the lines of the thresholds up to that version, highest
    first, and by nothing for the version written 3.10. *)
Theorem reasoning_by_version (w : world) (directory : string)
    (generate_base_reqs : bool) (env : environment) :
  value (predict_python_environment w directory generate_base_reqs) = Ok env ->
  In (recommended_python_version env, python_version_reasoning env) reasoning_table /\
  hd_error (python_version_reasoning env) = Some match_line.
Proof.
  intros H. apply predict_python_environment_Ok in H.
  destruct H as (v & deps & Hv & _ & ->). simpl.
  pose proof (get_python_version_in_table w directory v Hv) as Ht.
  in_table Ht; (split; [vm_compute; auto 10 | reflexivity]).
Qed.

Lemma reasoning_by_version_witness :
  value (predict_python_environment Demo.fstring_world "proj" false)
    = Ok Demo.fstring_env /\
  In (3.6%float, Demo.fstring_reasoning) reasoning_table /\
  hd_error Demo.fstring_reasoning = Some match_line.
Proof.
  assert (H : value (predict_python_environment Demo.fstring_world "proj" false)
              = Ok Demo.fstring_env) by (vm_compute; reflexivity).
  split; [exact H |]. exact (reasoning_by_version _ _ _ _ H).
Defined.

(** ** Entries that are not source units *)

Lemma bind_ret_left {A B} (a : A) (f : A -> M B) : bind (ret a) f = f a.
Proof. unfold bind, ret. destruct (f a). reflexivity. Qed.

Lemma bind_lift_Ok {A B} (a : A) (f : A -> M B) : bind (lift (Ok a)) f = f a.
Proof. apply bind_ret_left. Qed.

Lemma bind_assoc {A B C} (m : M A) (f : A -> M B) (g : B -> M C) :
  bind (bind m f) g = bind m (fun a => bind (f a) g).
Proof.
  unfold bind. destruct m as [[a | e] o1]; [| reflexivity].
  destruct (f a) as [[b | e] o2]; [| reflexivity].
  destruct (g b) as [r o3]. rewrite app_assoc. reflexivity.
Qed.

Lemma bind_ext {A B} (m : M A) (f g : A -> M B) :
  (forall a, f a = g a) -> bind m f = bind m g.
Proof.
  intros H. unfold bind. destruct m as [[a | e] o]; [| reflexivity].
  rewrite H. reflexivity.
Qed.

Lemma for_each_app_run {A S} (body : A -> S -> M S) (l1 l2 : list A) (s : S) :
  for_each body (l1 ++ l2) s = bind (for_each body l1 s) (for_each body l2).
Proof.
  revert s. induction l1 as [| x l1 IH]; intros s.
  - change (for_each body [] s) with (ret s). rewrite bind_ret_left. reflexivity.
  - cbn [app for_each]. rewrite bind_assoc. apply bind_ext. intros a. apply IH.
Qed.

Lemma for_each_skip_run {A S} (body : A -> S -> M S) (x : A) :
  (forall s, body x s = ret s) ->
  forall l1 l2 s, for_each body (l1 ++ x :: l2) s = for_each body (l1 ++ l2) s.
Proof.
  intros Hx l1 l2 s. rewrite !for_each_app_run. apply bind_ext. intros a.
  cbn [for_each]. rewrite Hx, bind_ret_left. reflexivity.
Qed.

(** X11: an entry whose suffix is neither [.py] nor [.ipynb] is never opened:
    whatever it holds, readable or not, both analyses return and print what
    they do for the listing without it. *)
Theorem other_entries_ignored (w : world) (f : fs_entry)
    (before after : list fs_entry) (directory : string) :
  Path.suffix (file_path f) <> ".py" ->
  Path.suffix (file_path f) <> ".ipynb" ->
  detect_project_dependencies (with_files w (before ++ f :: after)) directory =
    detect_project_dependencies (with_files w (before ++ after)) directory /\
  get_python_version (with_files w (before ++ f :: after)) directory =
    get_python_version (with_files w (before ++ after)) directory.
Proof.
  intros Hpy Hnb.
  apply String.eqb_neq in Hpy. apply String.eqb_neq in Hnb. split.
  - unfold detect_project_dependencies.
    change (installed_packages (with_files w (before ++ f :: after)))
      with (installed_packages w).
    change (installed_packages (with_files w (before ++ after)))
      with (installed_packages w).
    destruct (installed_packages w) as [installed | e]; [| reflexivity].
    cbn [rglob with_files]. rewrite !bind_lift_Ok.
    rewrite (for_each_skip_run
               (scan_imports (with_files w (before ++ f :: after)) installed) f).
    + reflexivity.
    + intros s. unfold scan_imports. rewrite Hpy, Hnb. reflexivity.
  - unfold get_python_version. cbn [rglob with_files].
    rewrite !bind_lift_Ok.
    rewrite (for_each_skip_run
               (scan_versions (with_files w (before ++ f :: after))) f).
    + reflexivity.
    + intros s. unfold scan_versions. rewrite Hpy, Hnb. reflexivity.
Qed.

Lemma other_entries_ignored_witness :
  Path.suffix "proj/data.bin" <> ".py" /\
  Path.suffix "proj/data.bin" <> ".ipynb" /\
  detect_project_dependencies
    (with_files Demo.mixed_world
       ([Demo.script "proj/app.py" Demo.imports_src] ++
        {| file_path := "proj/data.bin"; read_text := Raise UnicodeDecodeError |} ::
        [Demo.script "proj/deps.py" Demo.requests_src])) "proj" =
  detect_project_dependencies
    (with_files Demo.mixed_world
       ([Demo.script "proj/app.py" Demo.imports_src] ++
        [Demo.script "proj/deps.py" Demo.requests_src])) "proj".
Proof.
  assert (H1 : Path.suffix (file_path {| file_path := "proj/data.bin";
                                         read_text := Raise UnicodeDecodeError |})
               <> ".py") by (vm_compute; discriminate).
  assert (H2 : Path.suffix (file_path {| file_path := "proj/data.bin";
                                         read_text := Raise UnicodeDecodeError |})
               <> ".ipynb") by (vm_compute; discriminate).
  split; [exact H1 |]. split; [exact H2 |].
  exact (proj1 (other_entries_ignored Demo.mixed_world _
                  [Demo.script "proj/app.py" Demo.imports_src]
                  [Demo.script "proj/deps.py" Demo.requests_src] "proj" H1 H2)).
Defined.

(** ** Standard modules and the registry *)

(** X12: an imported name of the standard-module set is reported as
    standard-library and in no other partition, whatever resolution and the
    registry say about it. *)
Theorem standard_module_only_standard (w : world) (directory : string)
    (report : dependency_report) (n : string) :
  value (detect_project_dependencies w directory) = Ok report ->
  no_equals_sign (project_imports w directory) = true ->
  In n (project_imports w directory) ->
  In n (stdlib_module_names w) ->
  In n (standard_lib report) /\
  ~ In n (unknown report) /\
  forall version, ~ In (n ++ "==" ++ version)%string (third_party report).
Proof.
  intros Hrun Hid Hn Hstd.
  destruct (detect_project_dependencies_classified w directory report Hrun)
    as [Ht Hs Hu Hp].
  assert (Hb : value (is_standard_library w n) = Ok true).
  { rewrite is_standard_library_value.
    rewrite (proj2 (existsb_eqb_In n (stdlib_module_names w)) Hstd). reflexivity. }
  split; [apply Hs; auto |]. split.
  - intros H. apply Hu in H. destruct H as (_ & H & _). congruence.
  - intros version H. apply Hp in H. destruct H as (m & v & Hm & Hmb & _ & E).
    assert (Emn : n = m).
    { rewrite <- (entry_name_pin n version (no_equals_sign_In _ _ Hid Hn)).
      rewrite <- (entry_name_pin m v (no_equals_sign_In _ _ Hid Hm)).
      rewrite E. reflexivity. }
    subst m. congruence.
Qed.

Lemma standard_module_only_standard_witness :
  value (detect_project_dependencies Demo.mixed_world "proj") = Ok Demo.mixed_report /\
  no_equals_sign (project_imports Demo.mixed_world "proj") = true /\
  In "os" (project_imports Demo.mixed_world "proj") /\
  In "os" (stdlib_module_names Demo.mixed_world) /\
  In "os" (standard_lib Demo.mixed_report) /\
  ~ In "os" (unknown Demo.mixed_report).
Proof.
  assert (Hrun : value (detect_project_dependencies Demo.mixed_world "proj")
                 = Ok Demo.mixed_report) by (vm_compute; reflexivity).
  assert (Hid : no_equals_sign (project_imports Demo.mixed_world "proj") = true)
    by (vm_compute; reflexivity).
  assert (Hn : In "os" (project_imports Demo.mixed_world "proj"))
    by (vm_compute; auto).
  assert (Hstd : In "os" (stdlib_module_names Demo.mixed_world))
    by (simpl; auto).
  split; [exact Hrun |]. split; [exact Hid |]. split; [exact Hn |].
  split; [exact Hstd |].
  destruct (standard_module_only_standard _ _ _ _ Hrun Hid Hn Hstd) as (H1 & H2 & _).
  split; [exact H1 | exact H2].
Defined.



(** ** What the environment prediction prints *)

(** X14: [predict_python_environment] prints what the two analyses print,
    once without base requirements and twice with them, since
    [generate_base_requirements] runs both analyses again. *)
Theorem predict_python_environment_output (w : world) (directory : string)
    (generate_base_reqs : bool) (env : environment) :
  value (predict_python_environment w directory generate_base_reqs) = Ok env ->
  output (predict_python_environment w directory generate_base_reqs) =
    (output (get_python_version w directory) ++
     output (detect_project_dependencies w directory)) ++
    (if generate_base_reqs
     then output (get_python_version w directory) ++
          output (detect_project_dependencies w directory)
     else []).
Proof.
  intros H. apply predict_python_environment_Ok in H.
  destruct H as (v & deps & Hv & Hd & _).
  unfold predict_python_environment. rewrite output_bind, Hv, output_bind, Hd.
  destruct generate_base_reqs.
  - rewrite output_bind, generate_base_requirements_value, Hv, Hd.
    unfold generate_base_requirements at 1.
    rewrite output_bind, Hv, output_bind, Hd. simpl.
    rewrite ?app_nil_r, <- ?app_assoc. reflexivity.
  - simpl. rewrite ?app_nil_r, <- ?app_assoc. reflexivity.
Qed.

Lemma predict_python_environment_output_witness :
  value (predict_python_environment Demo.mixed_world "proj" true) = Ok Demo.mixed_env /\
  output (predict_python_environment Demo.mixed_world "proj" true) =
    ["Warning: Could not analyze Python version in notebook proj/nb/broken.ipynb";
     "Warning: Could not parse notebook proj/nb/broken.ipynb";
     "Warning: Could not analyze Python version in notebook proj/nb/broken.ipynb";
     "Warning: Could not parse notebook proj/nb/broken.ipynb"].
Proof.
  assert (H : value (predict_python_environment Demo.mixed_world "proj" true)
              = Ok Demo.mixed_env) by (vm_compute; reflexivity).
  split; [exact H |].
  rewrite (predict_python_environment_output _ _ _ _ H). vm_compute. reflexivity.
Defined.

(** ** Notebooks *)

Lemma output_lift {A} (r : result A) : output (lift r) = [].
Proof. reflexivity. Qed.

Lemma combined_code_output (w : world) (f : fs_entry) :
  output (combined_code w f) = [].
Proof.
  unfold combined_code, open_read.
  rewrite output_bind, output_lift, value_lift.
  destruct (read_text f) as [text | e]; [| reflexivity].
  rewrite output_bind, output_lift, value_lift.
  destruct (json_loads w text) as [notebook | e]; [| reflexivity].
  rewrite output_bind, output_lift, value_lift.
  destruct (code_cells notebook) as [cells | e]; [| reflexivity].
  rewrite output_bind, output_lift, value_lift.
  destruct (source_texts cells) as [texts | e]; reflexivity.
Qed.

Lemma combined_code_Ok (w : world) (f : fs_entry) (code : string) :
  value (combined_code w f) = Ok code -> combined_code w f = ret code.
Proof.
  intros H. pose proof (combined_code_output w f) as Ho.
  destruct (combined_code w f) as [r o]. simpl in *. subst. reflexivity.
Qed.

(** X15: a notebook is analysed as the script made of its combined code.
    When the code cells combine to [code], the notebook analyses return what
    the script analyses return for a file holding [code], for every outcome
    of the parser (a tree, [SyntaxError], or another exception, which
    [ast.parse] never takes from [JSONDecodeError] and [KeyError]). *)
Theorem notebook_as_script (w : world) (notebook script : fs_entry) (code : string) :
  value (combined_code w notebook) = Ok code ->
  read_text script = Ok code ->
  (forall e, ast_parse w code = Raise e -> is_JSONDecodeError_or_KeyError e = false) ->
  value (analyze_notebook_imports w notebook) = value (analyze_imports w script) /\
  value (analyze_python_version_notebook w notebook) =
    value (analyze_python_version w script).
Proof.
  intros Hc Hr Hp. apply combined_code_Ok in Hc.
  unfold analyze_notebook_imports, analyze_python_version_notebook,
    analyze_imports, analyze_python_version, open_read.
  rewrite Hc, Hr, !bind_ret_left, !bind_lift_Ok.
  destruct (ast_parse w code) as [tree | e] eqn:E.
  - split; reflexivity.
  - specialize (Hp e eq_refl). destruct e; try discriminate; split; reflexivity.
Qed.

Lemma notebook_as_script_witness :
  value (combined_code Demo.mixed_world
           (Demo.script "proj/nb/explore.ipynb" Demo.notebook_src))
    = Ok Demo.imports_src /\
  read_text (Demo.script "proj/app.py" Demo.imports_src) = Ok Demo.imports_src /\
  value (analyze_notebook_imports Demo.mixed_world
           (Demo.script "proj/nb/explore.ipynb" Demo.notebook_src)) =
  value (analyze_imports Demo.mixed_world (Demo.script "proj/app.py" Demo.imports_src)).
Proof.
  assert (Hc : value (combined_code Demo.mixed_world
                        (Demo.script "proj/nb/explore.ipynb" Demo.notebook_src))
               = Ok Demo.imports_src) by (vm_compute; reflexivity).
  assert (Hr : read_text (Demo.script "proj/app.py" Demo.imports_src)
               = Ok Demo.imports_src) by reflexivity.
  assert (Hp : forall e, ast_parse Demo.mixed_world Demo.imports_src = Raise e ->
                         is_JSONDecodeError_or_KeyError e = false).
  { intros e H. vm_compute in H. discriminate. }
  split; [exact Hc |]. split; [exact Hr |].
  exact (proj1 (notebook_as_script _ _ _ _ Hc Hr Hp)).
Defined.

Lemma append_empty_r (s : string) : (s ++ "")%string = s.
Proof. induction s as [| a s IH]; simpl; [| rewrite IH]; reflexivity. Qed.

Lemma join_items_strings (l : list string) :
  Json.join_items (map JString l) = Ok (String.concat "" l).
Proof.
  induction l as [| s l IH]; [reflexivity |].
  cbn [map Json.join_items]. rewrite IH. destruct l as [| t l].
  - cbn [String.concat]. rewrite append_empty_r. reflexivity.
  - reflexivity.
Qed.

Lemma source_text_encode (src : cell_source) :
  source_text (encode_source src) = Ok (source_string src).
Proof.
  destruct src as [s | l]; simpl; [reflexivity | apply join_items_strings].
Qed.

Lemma select_code_represents (cs : list json) (cells : list cell) :
  Forall2 represents cs cells ->
  exists sources,
    select_code cs = Ok sources /\
    source_texts sources = Ok (code_sources cells).
Proof.
  induction 1 as [| c x cs cells Hc _ IH]; simpl.
  - exists []. split; reflexivity.
  - destruct IH as (sources & Hs & Ht). destruct x as [src |]; simpl in Hc.
    + destruct Hc as (items & -> & Hty & Hsrc). simpl. rewrite Hty. simpl.
      rewrite Hsrc, Hs. exists (encode_source src :: sources).
      split; [reflexivity |]. simpl source_texts.
      rewrite source_text_encode, Ht. reflexivity.
    + destruct Hc as (items & ty & -> & Hty & Hcode). simpl. rewrite Hty, Hcode.
      exists sources. split; assumption.
Qed.

(** X16: for a notebook document that is a dict whose [cells] entry is a list
    of cell dicts, the combined code is the sources of the cells of type
    [code], in document order, joined by newlines; a source given as a list
    of lines is concatenated, and cells of another type are left out whether
    they have a source or not. *)
Theorem combined_code_of_cells (w : world) (f : fs_entry) (text : string)
    (top : list (string * json)) (cs : list json) (cells : list cell) :
  read_text f = Ok text ->
  json_loads w text = Ok (JDict top) ->
  Json.lookup "cells" top = Some (JList cs) ->
  Forall2 represents cs cells ->
  combined_code w f = (Ok (Str.join (String "010" "") (code_sources cells)), []).
Proof.
  intros Hr Hj Hl Hcells.
  destruct (select_code_represents cs cells Hcells) as (sources & Hs & Ht).
  unfold combined_code, open_read. rewrite Hr, bind_lift_Ok, Hj, bind_lift_Ok.
  unfold code_cells. cbn [Json.subscript]. rewrite Hl.
  cbn [Json.iterate]. rewrite Hs, bind_lift_Ok, Ht, bind_lift_Ok. reflexivity.
Qed.

Lemma combined_code_of_cells_witness :
  read_text (Demo.script "proj/nb/explore.ipynb" Demo.notebook_src)
    = Ok Demo.notebook_src /\
  combined_code Demo.mixed_world (Demo.script "proj/nb/explore.ipynb" Demo.notebook_src)
    = (Ok (Str.join (String "010" "")
             (code_sources
                [CodeCell (Lines [("import os" ++ Demo.newline)%string; "import json"]);
                 OtherCell])), []).
Proof.
  assert (Hr : read_text (Demo.script "proj/nb/explore.ipynb" Demo.notebook_src)
               = Ok Demo.notebook_src) by reflexivity.
  split; [exact Hr |].
  eapply (combined_code_of_cells Demo.mixed_world _ _ _ _ _ Hr).
  - vm_compute. reflexivity.
  - reflexivity.
  - constructor; [| constructor; [| constructor]].
    + eexists. split; [reflexivity |]. split; reflexivity.
    + eexists. eexists. split; [reflexivity |]. split; reflexivity.
Defined.

Lemma select_code_incomplete (good : list json) (cells : list cell)
    (bad : json) (rest : list json) :
  Forall2 represents good cells ->
  incomplete_cell bad ->
  select_code (good ++ bad :: rest) = Raise KeyError.
Proof.
  intros Hgood (items & -> & Hbad).
  induction Hgood as [| c x cs cells' Hc _ IH]; simpl.
  - destruct Hbad as [Hty | (Hty & Hsrc)]; rewrite Hty; [reflexivity |].
    simpl. rewrite Hsrc. reflexivity.
  - destruct x as [src |]; simpl in Hc.
    + destruct Hc as (it & -> & Hty & Hsrc). simpl. rewrite Hty. simpl.
      rewrite Hsrc, IH. reflexivity.
    + destruct Hc as (it & ty & -> & Hty & Hcode). simpl. rewrite Hty, Hcode.
      exact IH.
Qed.

(** X17: one incomplete cell voids the whole notebook.  When a cell dict has
    no [cell_type], or is a code cell without [source], after any number of
    well-formed cells, both notebook analyses print their warning and return
    the empty set: the imports and constructs of the other cells are not
    reported. *)
Theorem incomplete_cell_voids_notebook (w : world) (f : fs_entry) (text : string)
    (top : list (string * json)) (good : list json) (cells : list cell)
    (bad : json) (rest : list json) :
  read_text f = Ok text ->
  json_loads w text = Ok (JDict top) ->
  Json.lookup "cells" top = Some (JList (good ++ bad :: rest)) ->
  Forall2 represents good cells ->
  incomplete_cell bad ->
  analyze_notebook_imports w f =
    (Ok [], ["Warning: Could not parse notebook " ++ file_path f]%string) /\
  analyze_python_version_notebook w f =
    (Ok [], ["Warning: Could not analyze Python version in notebook "
             ++ file_path f]%string).
Proof.
  intros Hr Hj Hl Hgood Hbad.
  assert (Hc : combined_code w f = (Raise KeyError, [])).
  { unfold combined_code, open_read. rewrite Hr, bind_lift_Ok, Hj, bind_lift_Ok.
    unfold code_cells. cbn [Json.subscript]. rewrite Hl. cbn [Json.iterate].
    rewrite (select_code_incomplete good cells bad rest Hgood Hbad). reflexivity. }
  unfold analyze_notebook_imports, analyze_python_version_notebook.
  rewrite Hc. split; reflexivity.
Qed.

Lemma incomplete_cell_voids_notebook_witness :
  read_text Cases.partial_file = Ok Cases.partial_notebook_src /\
  json_loads Cases.partial_world Cases.partial_notebook_src
    = Ok (JDict Cases.partial_notebook) /\
  Forall2 represents [Cases.first_cell] [CodeCell (Text "import requests")] /\
  incomplete_cell Cases.second_cell /\
  analyze_notebook_imports Cases.partial_world Cases.partial_file =
    (Ok [], ["Warning: Could not parse notebook proj/nb/partial.ipynb"]).
Proof.
  assert (Hr : read_text Cases.partial_file = Ok Cases.partial_notebook_src)
    by reflexivity.
  assert (Hj : json_loads Cases.partial_world Cases.partial_notebook_src
               = Ok (JDict Cases.partial_notebook)) by (vm_compute; reflexivity).
  assert (Hl : Json.lookup "cells" Cases.partial_notebook
               = Some (JList ([Cases.first_cell] ++ Cases.second_cell :: [])))
    by reflexivity.
  assert (Hgood : Forall2 represents [Cases.first_cell]
                          [CodeCell (Text "import requests")]).
  { constructor; [| constructor]. eexists. split; [reflexivity |].
    split; reflexivity. }
  assert (Hbad : incomplete_cell Cases.second_cell).
  { eexists. split; [reflexivity |]. right. split; reflexivity. }
  split; [exact Hr |]. split; [exact Hj |]. split; [exact Hgood |].
  split; [exact Hbad |].
  exact (proj1 (incomplete_cell_voids_notebook _ _ _ _ _ _ _ _ Hr Hj Hl Hgood Hbad)).
Defined.

(** X18: an imported name outside the standard-module set that resolves to a
    location without [site-packages] and [dist-packages] (a module of the
    project itself, or a spec without origin) is reported as standard-library
    and in no other partition, also when the registry has an entry for it. *)
Theorem resolved_elsewhere_is_standard (w : world) (directory : string)
    (report : dependency_report) (n : string) (sp : module_spec) :
  value (detect_project_dependencies w directory) = Ok report ->
  no_equals_sign (project_imports w directory) = true ->
  In n (project_imports w directory) ->
  find_spec w n = Ok (Some sp) ->
  third_party_location sp = false ->
  (forall sp', origin sp' = None \/ origin sp' = Some "" ->
               third_party_location sp' = false) /\
  In n (standard_lib report) /\
  ~ In n (unknown report) /\
  forall version, ~ In (n ++ "==" ++ version)%string (third_party report).
Proof.
  intros Hrun Hid Hn Hf Hl.
  destruct (detect_project_dependencies_classified w directory report Hrun)
    as [Ht Hs Hu Hp].
  assert (Hb : value (is_standard_library w n) = Ok true).
  { rewrite is_standard_library_value.
    destruct (existsb (String.eqb n) (stdlib_module_names w)); [reflexivity |].
    rewrite Hf, Hl. reflexivity. }
  split.
  { intros sp' [H | H]; unfold third_party_location, location_of; rewrite H;
      reflexivity. }
  split; [apply Hs; auto |]. split.
  - intros H. apply Hu in H. destruct H as (_ & H & _). congruence.
  - intros version H. apply Hp in H. destruct H as (m & v & Hm & Hmb & _ & E).
    assert (Emn : n = m).
    { rewrite <- (entry_name_pin n version (no_equals_sign_In _ _ Hid Hn)).
      rewrite <- (entry_name_pin m v (no_equals_sign_In _ _ Hid Hm)).
      rewrite E. reflexivity. }
    subst m. congruence.
Qed.

Lemma resolved_elsewhere_is_standard_witness :
  value (detect_project_dependencies Cases.helpers_world "proj")
    = Ok Cases.helpers_report /\
  In "helpers" (project_imports Cases.helpers_world "proj") /\
  find_spec Cases.helpers_world "helpers"
    = Ok (Some {| origin := Some "/home/dev/proj/helpers.py" |}) /\
  installed_version Cases.helpers_world "helpers" = Some "0.1" /\
  In "helpers" (standard_lib Cases.helpers_report) /\
  ~ In "helpers==0.1" (third_party Cases.helpers_report).
Proof.
  assert (Hrun : value (detect_project_dependencies Cases.helpers_world "proj")
                 = Ok Cases.helpers_report) by (vm_compute; reflexivity).
  assert (Hid : no_equals_sign (project_imports Cases.helpers_world "proj") = true)
    by (vm_compute; reflexivity).
  assert (Hn : In "helpers" (project_imports Cases.helpers_world "proj"))
    by (vm_compute; auto).
  assert (Hf : find_spec Cases.helpers_world "helpers"
               = Ok (Some {| origin := Some "/home/dev/proj/helpers.py" |}))
    by reflexivity.
  assert (Hl : third_party_location {| origin := Some "/home/dev/proj/helpers.py" |}
               = false) by (vm_compute; reflexivity).
  split; [exact Hrun |]. split; [exact Hn |]. split; [exact Hf |].
  split; [vm_compute; reflexivity |].
  destruct (resolved_elsewhere_is_standard _ _ _ _ _ Hrun Hid Hn Hf Hl)
    as (_ & H1 & _ & H3).
  split; [exact H1 | exact (H3 "0.1")].
Defined.

(** ** What the analyses print *)

Section Prints.

Variable P : string -> Prop.

Lemma bind_prints {A B} (m : M A) (f : A -> M B) :
  Forall P (output m) -> (forall a, Forall P (output (f a))) ->
  Forall P (output (bind m f)).
Proof.
  intros Hm Hf. rewrite output_bind. apply Forall_app. split; [exact Hm |].
  destruct (value m); [apply Hf | constructor].
Qed.

Lemma try_except_prints {A} (body : M A) (handled : exn -> bool) (handler : M A) :
  Forall P (output body) -> Forall P (output handler) ->
  Forall P (output (try_except body handled handler)).
Proof.
  intros Hb Hh. unfold try_except. destruct body as [[a | e] out]; [exact Hb |].
  destruct (handled e); [| exact Hb].
  destruct handler as [r out']. simpl in *. apply Forall_app. auto.
Qed.

Lemma for_each_prints {A S} (body : A -> S -> M S) (l : list A) (s : S) :
  (forall x s', Forall P (output (body x s'))) ->
  Forall P (output (for_each body l s)).
Proof.
  intros Hb. revert s. induction l as [| x l IH]; intros s; simpl.
  - constructor.
  - apply bind_prints; [apply Hb | intros a; apply IH].
Qed.

Lemma lift_prints {A} (r : result A) : Forall P (output (lift r)).
Proof. constructor. Qed.

Lemma ret_prints {A} (a : A) : Forall P (output (ret a)).
Proof. constructor. Qed.

Lemma raise_prints {A} (e : exn) : Forall P (output (@raise A e)).
Proof. constructor. Qed.

End Prints.

Lemma combined_code_prints (P : string -> Prop) (w : world) (f : fs_entry) :
  Forall P (output (combined_code w f)).
Proof. rewrite combined_code_output. constructor. Qed.

Lemma prefix_append (p s t : string) :
  String.prefix p s = true -> String.prefix p (s ++ t) = true.
Proof.
  revert s. induction p as [| a p IH]; intros s; destruct s as [| b s]; simpl;
    try reflexivity; try discriminate.
  - destruct t; reflexivity.
  - destruct (Ascii.ascii_dec a b); [apply IH | discriminate].
Qed.

Lemma warning_print {A} (text path : string) (k : M A) :
  is_warning text = true ->
  warnings_only (output k) ->
  warnings_only (output (print (text ++ path)%string ;;; k)).
Proof.
  intros Ht Hk. apply bind_prints; [| intros _; exact Hk].
  constructor; [| constructor]. apply prefix_append, Ht.
Qed.

Lemma analyze_imports_prints (w : world) (f : fs_entry) :
  warnings_only (output (analyze_imports w f)).
Proof.
  unfold analyze_imports. apply bind_prints; [apply lift_prints |]. intros text.
  destruct (ast_parse w text) as [tree | []];
    try apply ret_prints; try apply raise_prints.
  apply warning_print; [reflexivity | apply ret_prints].
Qed.

Lemma analyze_notebook_imports_prints (w : world) (f : fs_entry) :
  warnings_only (output (analyze_notebook_imports w f)).
Proof.
  unfold analyze_notebook_imports. apply try_except_prints.
  - apply bind_prints; [apply combined_code_prints |]. intros code.
    apply try_except_prints.
    + apply bind_prints; [apply lift_prints | intros; apply ret_prints].
    + apply warning_print; [reflexivity | apply ret_prints].
  - apply warning_print; [reflexivity | apply ret_prints].
Qed.

Lemma analyze_python_version_prints (w : world) (f : fs_entry) :
  warnings_only (output (analyze_python_version w f)).
Proof.
  unfold analyze_python_version. apply bind_prints; [apply lift_prints |].
  intros text.
  destruct (ast_parse w text) as [tree | []];
    try apply ret_prints; try apply raise_prints.
Qed.

Lemma analyze_python_version_notebook_prints (w : world) (f : fs_entry) :
  warnings_only (output (analyze_python_version_notebook w f)).
Proof.
  unfold analyze_python_version_notebook. apply try_except_prints.
  - apply bind_prints; [apply combined_code_prints |]. intros code.
    apply bind_prints; [apply lift_prints | intros; apply ret_prints].
  - apply warning_print; [reflexivity | apply ret_prints].
Qed.

Lemma is_standard_library_prints (P : string -> Prop) (w : world) (n : string) :
  Forall P (output (is_standard_library w n)).
Proof.
  unfold is_standard_library.
  destruct (existsb (String.eqb n) (stdlib_module_names w)); [apply ret_prints |].
  apply bind_prints; [apply lift_prints |].
  intros [sp |]; apply ret_prints.
Qed.

Lemma classify_import_prints (P : string -> Prop) (w : world)
    (installed : list (string * string)) (n : string) (deps : dependency_report) :
  Forall P (output (classify_import w installed n deps)).
Proof.
  unfold classify_import. apply bind_prints; [apply is_standard_library_prints |].
  intros [|]; [apply ret_prints |].
  destruct (Dict.get (str_lower w n) installed); apply ret_prints.
Qed.

Lemma detect_project_dependencies_prints (w : world) (directory : string) :
  warnings_only (output (detect_project_dependencies w directory)).
Proof.
  unfold detect_project_dependencies. apply bind_prints; [apply lift_prints |].
  intros installed. apply bind_prints; [apply lift_prints |].
  intros files. apply bind_prints; [| intros; apply ret_prints].
  apply for_each_prints. intros f deps. unfold scan_imports.
  destruct (String.eqb (Path.suffix (file_path f)) ".py").
  - apply bind_prints; [apply analyze_imports_prints |]. intros imports.
    apply for_each_prints. intros; apply classify_import_prints.
  - destruct (String.eqb (Path.suffix (file_path f)) ".ipynb"); [| apply ret_prints].
    apply bind_prints; [apply analyze_notebook_imports_prints |]. intros imports.
    apply for_each_prints. intros; apply classify_import_prints.
Qed.

Lemma get_python_version_prints (w : world) (directory : string) :
  warnings_only (output (get_python_version w directory)).
Proof.
  unfold get_python_version. apply bind_prints; [apply lift_prints |].
  intros files. apply bind_prints; [| intros; apply ret_prints].
  apply for_each_prints. intros f rv. unfold scan_versions.
  destruct (String.eqb (Path.suffix (file_path f)) ".py").
  - apply bind_prints; [apply analyze_python_version_prints |].
    intros; apply ret_prints.
  - destruct (String.eqb (Path.suffix (file_path f)) ".ipynb"); [| apply ret_prints].
    apply bind_prints; [apply analyze_python_version_notebook_prints |].
    intros; apply ret_prints.
Qed.

Lemma predict_python_environment_prints (w : world) (directory : string)
    (generate_base_reqs : bool) :
  warnings_only (output (predict_python_environment w directory generate_base_reqs)).
Proof.
  unfold predict_python_environment.
  apply bind_prints; [apply get_python_version_prints |]. intros v.
  apply bind_prints; [apply detect_project_dependencies_prints |]. intros deps.
  destruct generate_base_reqs; [| apply ret_prints].
  apply bind_prints; [| intros; apply ret_prints].
  unfold generate_base_requirements.
  apply bind_prints; [apply get_python_version_prints |]. intros v'.
  apply bind_prints; [apply detect_project_dependencies_prints |].
  intros; apply ret_prints.
Qed.

(** X19: every line that the analyses print starts with [Warning: ]; the
    version analysis of a script prints nothing at all, also when the script
    does not parse. *)
Theorem analyses_print_warnings_only (w : world) (directory : string)
    (generate_base_reqs : bool) (f : fs_entry) :
  warnings_only (output (get_python_version w directory)) /\
  warnings_only (output (detect_project_dependencies w directory)) /\
  warnings_only
    (output (predict_python_environment w directory generate_base_reqs)) /\
  output (analyze_python_version w f) = [].
Proof.
  split; [apply get_python_version_prints |].
  split; [apply detect_project_dependencies_prints |].
  split; [apply predict_python_environment_prints |].
  unfold analyze_python_version, open_read.
  rewrite output_bind, output_lift, value_lift.
  destruct (read_text f) as [text | e]; [| reflexivity].
  destruct (ast_parse w text) as [tree | []]; reflexivity.
Qed.

(** ** The report and the command line *)

Lemma emits_print (line : string) : print line = (Ok tt, [line]).
Proof. reflexivity. Qed.

Lemma emits_seq (m k : M unit) (l1 l2 : list string) :
  m = (Ok tt, l1) -> k = (Ok tt, l2) -> (m ;;; k) = (Ok tt, l1 ++ l2).
Proof. intros -> ->. reflexivity. Qed.

Lemma print_items_emits (prefix : string) (items : list string) :
  print_items prefix items = (Ok tt, map (String.append prefix) items).
Proof.
  unfold print_items. induction items as [| x items IH]; simpl; [reflexivity |].
  rewrite IH. reflexivity.
Qed.

Lemma optional_section_emits (header : string) (items : list string) :
  (match items with
   | [] => ret tt
   | _ :: _ => print header ;;; print_items "  - " items
   end) =
  (Ok tt, match items with
          | [] => []
          | _ :: _ => report_section header items
          end).
Proof.
  destruct items as [| x items]; [reflexivity |].
  apply (emits_seq _ _ [header]); [apply emits_print | apply print_items_emits].
Qed.

Lemma print_manifest_items (a b : string) (pip : list string) :
  for_each print_dependency [Pin a; Pin b; PipDict pip] tt =
  (Ok tt, ["  - " ++ a; "  - " ++ b; "  - pip:"]%string
          ++ map (String.append "    - ") pip).
Proof.
  cbn [for_each print_dependency]. rewrite print_items_emits.
  unfold bind, print, ret. cbn [app]. rewrite app_nil_r. reflexivity.
Qed.

Lemma reasoning_not_empty (v : float) :
  In v version_table -> python_version_reasoning_for v <> [].
Proof. intros Ht. in_table Ht; vm_compute; discriminate. Qed.

(** X20: for an environment that [predict_python_environment] returned,
    [display_environment_report] returns and prints exactly the lines of
    [predicted_report]: the reasoning section is always there, the unknown
    section only when there are unknown imports, the manifest section repeats
    the third-party entries under [pip], and the closing lines say that base
    requirements were saved, whatever the flag was. *)
Theorem display_of_predicted_environment (w : world) (directory : string)
    (generate_base_reqs : bool) (env : environment) :
  value (predict_python_environment w directory generate_base_reqs) = Ok env ->
  display_environment_report env = (Ok tt, predicted_report directory env).
Proof.
  intros H. apply predict_python_environment_Ok in H.
  destruct H as (v & deps & Hv & _ & ->).
  pose proof (reasoning_not_empty v (get_python_version_in_table w directory v Hv))
    as Hne.
  assert (E : exists lines,
             display_environment_report
               {| recommended_python_version := v;
                  python_version_reasoning := python_version_reasoning_for v;
                  env_dependencies := deps;
                  conda_environment_yaml :=
                    {| name := Path.name directory;
                       channels := ["defaults"; "conda-forge"];
                       dependencies :=
                         [Pin ("python>=" ++ Float.str v)%string; Pin "pip";
                          PipDict (third_party deps)] |};
                  base_requirements :=
                    if generate_base_reqs then Some None else None |}
             = (Ok tt, lines) /\
             lines = predicted_report directory
                       {| recommended_python_version := v;
                          python_version_reasoning := python_version_reasoning_for v;
                          env_dependencies := deps;
                          conda_environment_yaml :=
                            {| name := Path.name directory;
                               channels := ["defaults"; "conda-forge"];
                               dependencies :=
                                 [Pin ("python>=" ++ Float.str v)%string; Pin "pip";
                                  PipDict (third_party deps)] |};
                          base_requirements :=
                            if generate_base_reqs then Some None else None |}).
  { eexists. split.
    - unfold display_environment_report.
      cbn [recommended_python_version python_version_reasoning env_dependencies
           conda_environment_yaml name channels dependencies].
      apply emits_seq; [apply emits_print |].
      apply emits_seq; [apply optional_section_emits |].
      apply emits_seq; [apply emits_print |].
      apply emits_seq; [apply print_items_emits |].
      apply emits_seq; [apply emits_print |].
      apply emits_seq; [apply print_items_emits |].
      apply emits_seq; [apply optional_section_emits |].
      apply emits_seq; [apply emits_print |].
      apply emits_seq; [apply emits_print |].
      apply emits_seq; [apply emits_print |].
      apply emits_seq; [apply print_items_emits |].
      apply emits_seq; [apply emits_print |].
      apply emits_seq; [apply print_manifest_items |].
      apply emits_seq; [apply emits_print |].
      apply emits_seq; [apply emits_print |].
      apply emits_print.
    - unfold predicted_report, report_section.
      cbn [recommended_python_version python_version_reasoning env_dependencies
           conda_environment_yaml name channels dependencies].
      destruct (python_version_reasoning_for v) as [| r rs]; [congruence |].
      cbn [map app]. rewrite <- ?app_assoc. cbn [app]. reflexivity. }
  destruct E as (lines & E1 & E2). rewrite E1, E2. reflexivity.
Qed.

Lemma display_of_predicted_environment_witness :
  value (predict_python_environment Demo.mixed_world "/home/dev/proj/" true)
    = Ok Demo.mixed_env /\
  output (display_environment_report Demo.mixed_env) =
    [nl ++ "Recommended Python version: 3.5";
     nl ++ "Reasoning:";
     "  - Match statements detected (Python 3.10+)";
     "  - Type hints detected (Python 3.5+)";
     nl ++ "Third-party dependencies:";
     "  - requests==2.31.0";
     nl ++ "Standard library imports:";
     "  - json";
     "  - os";
     nl ++ "Unknown/Uninstalled imports:";
     "  - yaml";
     nl ++ "Sample conda environment.yml:";
     "name: proj";
     "channels:";
     "  - defaults";
     "  - conda-forge";
     "dependencies:";
     "  - python>=3.5";
     "  - pip";
     "  - pip:";
     "    - requests==2.31.0";
     nl ++ "Base requirements have been saved to base_requirements.txt";
     "These represent the minimum compatible versions of each package.";
     "Note: It's recommended to test your code with these versions before deployment."]%string.
Proof.
  assert (H : value (predict_python_environment Demo.mixed_world "/home/dev/proj/" true)
              = Ok Demo.mixed_env) by (vm_compute; reflexivity).
  split; [exact H |].
  rewrite (display_of_predicted_environment _ _ _ _ H). vm_compute. reflexivity.
Defined.

Lemma dumped_among_printed (path : string) (doc : conda_environment)
    (lines : list string) :
  In (Dumped path doc) (map Printed lines) <-> False.
Proof.
  rewrite in_map_iff. split; [intros (line & H & _); discriminate | intros []].
Qed.

Lemma manifest_eta (c : conda_environment) :
  {| name := name c; channels := channels c; dependencies := dependencies c |} = c.
Proof. destruct c. reflexivity. Qed.

Lemma print_dependencies_emit (deps : list manifest_item) (u : unit) :
  exists lines, for_each print_dependency deps u = (Ok tt, lines).
Proof.
  revert u. induction deps as [| d deps IH]; intros u.
  - destruct u. eexists. reflexivity.
  - cbn [for_each]. destruct d as [s | pip]; cbn [print_dependency].
    + destruct (IH tt) as (lines & H). unfold bind, print. rewrite H.
      eexists. reflexivity.
    + destruct (IH tt) as (lines & H). rewrite print_items_emits.
      unfold bind, print. rewrite H. eexists. reflexivity.
Qed.

(** The report printer returns for every environment. *)
Lemma display_environment_report_emits (env : environment) :
  exists lines, display_environment_report env = (Ok tt, lines).
Proof.
  destruct (print_dependencies_emit (dependencies (conda_environment_yaml env)) tt)
    as (deps_lines & Hdeps).
  eexists. unfold display_environment_report.
  apply emits_seq; [apply emits_print |].
  apply emits_seq; [apply optional_section_emits |].
  apply emits_seq; [apply emits_print |].
  apply emits_seq; [apply print_items_emits |].
  apply emits_seq; [apply emits_print |].
  apply emits_seq; [apply print_items_emits |].
  apply emits_seq; [apply optional_section_emits |].
  apply emits_seq; [apply emits_print |].
  apply emits_seq; [apply emits_print |].
  apply emits_seq; [apply emits_print |].
  apply emits_seq; [apply print_items_emits |].
  apply emits_seq; [apply emits_print |].
  apply emits_seq; [exact Hdeps |].
  apply emits_seq; [apply emits_print |].
  apply emits_seq; [apply emits_print |].
  apply emits_print.
Qed.

(** X21: the only document that [main] hands to [yaml.safe_dump] is the
    manifest of the predicted environment, to [environment.yml], and it does
    so exactly when [--no-conda] is absent, the prediction returns and the
    file can be opened; no other file is written, [base_requirements.txt]
    included. *)
Theorem main_writes_only_the_manifest (w : world) (fs : file_system)
    (args : Cli.arguments) (path : string) (doc : conda_environment) :
  In (Dumped path doc) (events (main w fs args)) <->
  path = "environment.yml" /\
  Cli.no_conda args = false /\
  (exists u, open_write fs "environment.yml" = Ok u) /\
  exists env,
    value (predict_python_environment w (Cli.directory args)
             (negb (Cli.no_base_reqs args))) = Ok env /\
    doc = conda_environment_yaml env.
Proof.
  unfold main, events, run, save_conda_environment.
  destruct (predict_python_environment w (Cli.directory args)
              (negb (Cli.no_base_reqs args))) as [[env | e] out];
    cbn [value output fst snd io_bind].
  - destruct (display_environment_report_emits env) as (lines & ->).
    rewrite manifest_eta.
    destruct (Cli.quiet args), (Cli.no_conda args),
      (open_write fs "environment.yml") as [u | e];
      cbn [negb value output fst snd io_bind io_ret map app];
      rewrite ?in_app_iff, ?dumped_among_printed; cbn [In];
      (split;
       [ intros H;
         repeat match goal with
                | H : _ \/ _ |- _ => destruct H as [H | H]
                | H : False |- _ => destruct H
                end;
         try discriminate;
         inversion H; subst; repeat split; eauto
       | intros (-> & Hc & (u' & Hu) & env' & Henv & ->);
         try discriminate; inversion Henv; subst; auto ]).
  - rewrite dumped_among_printed. split; [intros [] |].
    intros (_ & _ & _ & env' & Henv & _). discriminate.
Qed.

Lemma main_writes_only_the_manifest_witness :
  In (Dumped "environment.yml" (conda_environment_yaml Demo.mixed_env))
     (events (main Demo.mixed_world writable
                {| Cli.directory := "/home/dev/proj/";
                   Cli.no_base_reqs := false;
                   Cli.no_conda := false;
                   Cli.quiet := true |})).
Proof.
  apply (proj2 (main_writes_only_the_manifest Demo.mixed_world writable _ _ _)).
  split; [reflexivity |]. split; [reflexivity |]. split; [exists tt; reflexivity |].
  exists Demo.mixed_env. split; [vm_compute; reflexivity | reflexivity].
Defined.

(** ** The oldest stable release *)

Section PypiFacts.

Context {V : Type} (r : Pypi.registry V).

Lemma parse_all_keys (versions : list string) (keyed : list (V * string)) :
  Pypi.parse_all r versions = inr keyed ->
  map snd keyed = versions /\
  forall k u, In (k, u) keyed -> Pypi.version_parse r u = inr k.
Proof.
  revert keyed. induction versions as [| ver rest IH]; intros keyed; simpl.
  - intros H. inversion H. split; [reflexivity | intros k u []].
  - destruct (Pypi.version_parse r ver) as [t | k] eqn:Ek; simpl; [discriminate |].
    destruct (Pypi.parse_all r rest) as [t | l]; simpl; [discriminate |].
    intros H. inversion H; subst keyed. destruct (IH l eq_refl) as (Hm & Hk).
    split; [simpl; rewrite Hm; reflexivity |].
    intros k' u [E | Hin]; [inversion E; subst; exact Ek | apply Hk, Hin].
Qed.

Lemma parse_all_fails (versions : list string) (u text : string) :
  In u versions -> Pypi.version_parse r u = inl text ->
  exists text', Pypi.parse_all r versions = inl text'.
Proof.
  induction versions as [| ver rest IH]; intros Hin Hu; [destruct Hin |].
  simpl. destruct Hin as [-> | Hin].
  - rewrite Hu. simpl. eauto.
  - destruct (Pypi.version_parse r ver) as [t | k]; simpl; [eauto |].
    destruct (IH Hin Hu) as (t' & ->). simpl. eauto.
Qed.

Lemma In_insert_by_key (x z : V * string) (l : list (V * string)) :
  In z (Pypi.insert_by_key r x l) <-> z = x \/ In z l.
Proof.
  induction l as [| y l IH]; simpl.
  - intuition auto.
  - destruct (Pypi.version_lt r (fst y) (fst x)); simpl; [| intuition auto].
    rewrite IH. intuition auto.
Qed.

Lemma In_sort_by_key (z : V * string) (l : list (V * string)) :
  In z (Pypi.sort_by_key r l) <-> In z l.
Proof.
  unfold Pypi.sort_by_key. induction l as [| x l IH]; simpl.
  - reflexivity.
  - rewrite In_insert_by_key, IH. intuition auto.
Qed.

Lemma insert_by_key_least_first (x : V * string) (l : list (V * string)) :
  Pypi.strict_weak_order (Pypi.version_lt r) ->
  least_first r l -> least_first r (Pypi.insert_by_key r x l).
Proof.
  intros (Hasym & Hneg) Hl.
  assert (Hirr : forall a, Pypi.version_lt r a a = false).
  { intros a. destruct (Pypi.version_lt r a a) eqn:E; [| reflexivity].
    rewrite (Hasym a a E) in E. discriminate. }
  destruct l as [| y l]; simpl.
  - intros z [<- | []]. apply Hirr.
  - destruct (Pypi.version_lt r (fst y) (fst x)) eqn:E; simpl.
    + intros z [<- | Hz]; [apply Hirr |].
      apply In_insert_by_key in Hz. destruct Hz as [-> | Hz].
      * apply Hasym, E.
      * apply Hl. simpl. auto.
    + intros z [<- | [<- | Hz]]; [apply Hirr | exact E |].
      eapply Hneg; [| exact E]. apply Hl. simpl. auto.
Qed.

Lemma sort_by_key_least_first (l : list (V * string)) :
  Pypi.strict_weak_order (Pypi.version_lt r) ->
  least_first r (Pypi.sort_by_key r l).
Proof.
  intros Hswo. unfold Pypi.sort_by_key. induction l as [| x l IH]; simpl.
  - exact I.
  - apply insert_by_key_least_first; assumption.
Qed.

Lemma is_stable_true (ver : string) :
  Pypi.is_stable ver = true <->
  Str.contains "a" ver = false /\ Str.contains "b" ver = false /\
  Str.contains "rc" ver = false.
Proof.
  unfold Pypi.is_stable. rewrite negb_true_iff, !orb_false_iff. tauto.
Qed.

End PypiFacts.

Lemma nat_ltb_strict_weak_order : Pypi.strict_weak_order Nat.ltb.
Proof.
  split.
  - intros a b H. apply Nat.ltb_lt in H. apply Nat.ltb_ge. lia.
  - intros a b c H1 H2. apply Nat.ltb_ge in H1, H2. apply Nat.ltb_ge. lia.
Qed.

(** X22: when [get_minimum_compatible_version] returns a version, nothing was
    printed, the request had status 200 and a [releases] dict, and the
    version is a key of that dict that contains none of [a], [b] and [rc],
    below which no other such key lies in the order of parsed versions. *)
Theorem oldest_stable_release {V : Type} (r : Pypi.registry V)
    (package_name v : string) :
  Pypi.strict_weak_order (Pypi.version_lt r) ->
  value (Pypi.get_minimum_compatible_version r package_name) = Ok (Some v) ->
  output (Pypi.get_minimum_compatible_version r package_name) = [] /\
  exists response document items,
    Pypi.requests_get r ("https://pypi.org/pypi/" ++ package_name ++ "/json")
      = inr response /\
    Pypi.status_code response = 200%Z /\
    Pypi.json_body response = inr document /\
    Pypi.releases_of r document = inr (JDict items) /\
    In v (map fst items) /\
    (Str.contains "a" v = false /\ Str.contains "b" v = false /\
     Str.contains "rc" v = false) /\
    exists kv,
      Pypi.version_parse r v = inr kv /\
      forall u, In u (map fst items) -> Pypi.is_stable u = true ->
                exists ku, Pypi.version_parse r u = inr ku /\
                           Pypi.version_lt r ku kv = false.
Proof.
  intros Hswo. unfold Pypi.get_minimum_compatible_version.
  destruct (Pypi.lookup r package_name) as [text | found] eqn:L;
    [simpl; discriminate |].
  simpl. intros H. inversion H; subst found; clear H. split; [reflexivity |].
  unfold Pypi.lookup in L.
  destruct (Pypi.requests_get r _) as [t | response] eqn:Eget; simpl in L;
    [discriminate |].
  destruct (Z.eqb (Pypi.status_code response) 200) eqn:Est; [| discriminate].
  apply Z.eqb_eq in Est.
  destruct (Pypi.json_body response) as [t | document] eqn:Ebody; simpl in L;
    [discriminate |].
  destruct (Pypi.releases_of r document) as [t | releases] eqn:Erel; simpl in L;
    [discriminate |].
  destruct releases as [| | | | | items]; simpl in L; try discriminate.
  destruct (filter Pypi.is_stable (map fst items)) as [| s stable] eqn:Es;
    [discriminate |].
  destruct (Pypi.parse_all r (s :: stable)) as [t | keyed] eqn:Ep; simpl in L;
    [discriminate |].
  destruct (Pypi.sort_by_key r keyed) as [| [kv first] rest] eqn:Esort;
    [discriminate |].
  inversion L; subst v; clear L. simpl.
  destruct (parse_all_keys r _ _ Ep) as (Hsnd & Hparse).
  assert (Hfirst : In (kv, first) keyed).
  { apply (In_sort_by_key r). rewrite Esort. simpl. auto. }
  assert (Hstable : In first (filter Pypi.is_stable (map fst items))).
  { rewrite Es, <- Hsnd. apply (in_map snd _ _ Hfirst). }
  apply filter_In in Hstable. destruct Hstable as (Hkey & Hst).
  exists response, document, items.
  repeat (split; [first [assumption | reflexivity] |]).
  split; [apply is_stable_true, Hst |].
  exists kv. split; [apply Hparse, Hfirst |].
  intros u Hu Hus.
  assert (Hin : In u (map snd keyed)).
  { rewrite Hsnd, <- Es. apply filter_In. auto. }
  apply in_map_iff in Hin. destruct Hin as ([ku u'] & Eu & Hku). simpl in Eu.
  subst u'. exists ku. split; [apply Hparse, Hku |].
  pose proof (sort_by_key_least_first r keyed Hswo) as Hleast.
  rewrite Esort in Hleast. simpl in Hleast.
  apply (Hleast (ku, u)). change (In (ku, u) ((kv, first) :: rest)).
  rewrite <- Esort. apply In_sort_by_key, Hku.
Qed.

Lemma oldest_stable_release_witness :
  Pypi.strict_weak_order (Pypi.version_lt PypiCases.demo_registry) /\
  value (Pypi.get_minimum_compatible_version PypiCases.demo_registry "demo")
    = Ok (Some "0.9.0") /\
  output (Pypi.get_minimum_compatible_version PypiCases.demo_registry "demo") = [].
Proof.
  assert (Hswo : Pypi.strict_weak_order (Pypi.version_lt PypiCases.demo_registry))
    by exact nat_ltb_strict_weak_order.
  assert (H : value (Pypi.get_minimum_compatible_version PypiCases.demo_registry "demo")
              = Ok (Some "0.9.0")) by (vm_compute; reflexivity).
  split; [exact Hswo |]. split; [exact H |].
  exact (proj1 (oldest_stable_release _ _ _ Hswo H)).
Defined.

(** X23: the lookup never raises, and one stable key that is no valid
    version voids it: with status 200 and a [releases] dict, if
    [version.parse] fails on a key without [a], [b] and [rc], the function
    prints one warning and returns [None], whatever the other keys are. *)
Theorem unparsable_release_voids_lookup {V : Type} (r : Pypi.registry V)
    (package_name : string) (response : Pypi.response) (document : json)
    (items : list (string * json)) (u text : string) :
  Pypi.requests_get r ("https://pypi.org/pypi/" ++ package_name ++ "/json")
    = inr response ->
  Pypi.status_code response = 200%Z ->
  Pypi.json_body response = inr document ->
  Pypi.releases_of r document = inr (JDict items) ->
  In u (map fst items) ->
  Pypi.is_stable u = true ->
  Pypi.version_parse r u = inl text ->
  (forall name, exists found,
     value (Pypi.get_minimum_compatible_version r name) = Ok found) /\
  exists text',
    Pypi.get_minimum_compatible_version r package_name =
      (Ok None, [lookup_warning package_name text']).
Proof.
  intros Hget Hst Hbody Hrel Hu Hus Hparse. split.
  - intros name. unfold Pypi.get_minimum_compatible_version.
    destruct (Pypi.lookup r name); eexists; reflexivity.
  - assert (Hin : In u (filter Pypi.is_stable (map fst items)))
      by (apply filter_In; auto).
    destruct (parse_all_fails r _ u text Hin Hparse) as (text' & Hfail).
    exists text'. unfold Pypi.get_minimum_compatible_version, Pypi.lookup.
    rewrite Hget. simpl. rewrite Hst. simpl. rewrite Hbody. simpl.
    rewrite Hrel. simpl.
    destruct (filter Pypi.is_stable (map fst items)) as [| s stable];
      [destruct Hin |].
    rewrite Hfail. reflexivity.
Qed.

Lemma unparsable_release_voids_lookup_witness :
  Pypi.status_code
    {| Pypi.status_code := 200;
       Pypi.json_body := inr PypiCases.legacy_document |} = 200%Z /\
  In "2004d" (map fst PypiCases.legacy_releases) /\
  Pypi.is_stable "2004d" = true /\
  Pypi.version_parse PypiCases.demo_registry "2004d"
    = inl "Invalid version: '2004d'" /\
  exists text',
    Pypi.get_minimum_compatible_version PypiCases.demo_registry "legacy" =
      (Ok None, [lookup_warning "legacy" text']).
Proof.
  split; [reflexivity |]. split; [simpl; auto |]. split; [reflexivity |].
  split; [reflexivity |].
  apply (unparsable_release_voids_lookup PypiCases.demo_registry "legacy"
           {| Pypi.status_code := 200;
              Pypi.json_body := inr PypiCases.legacy_document |}
           PypiCases.legacy_document PypiCases.legacy_releases
           "2004d" "Invalid version: '2004d'");
    try reflexivity.
  simpl. auto.
Defined.

(** ** A project without source units *)




(** ** Witnesses of earlier lemmas *)

Lemma unparsable_script_skipped_witness :
  Path.suffix "proj/draft.py" = ".py" /\
  ast_parse Demo.mixed_world "def (" = Raise SyntaxError /\
  analyze_imports Demo.mixed_world (Demo.script "proj/draft.py" "def (") =
    (Ok [], ["Warning: Syntax error in proj/draft.py"]) /\
  analyze_python_version Demo.mixed_world (Demo.script "proj/draft.py" "def (")
    = (Ok [], []).
Proof.
  assert (Hs : Path.suffix (file_path (Demo.script "proj/draft.py" "def (")) = ".py")
    by reflexivity.
  assert (Hr : read_text (Demo.script "proj/draft.py" "def (") = Ok "def (")
    by reflexivity.
  assert (Hp : ast_parse Demo.mixed_world "def (" = Raise SyntaxError)
    by reflexivity.
  split; [exact Hs |]. split; [exact Hp |].
  destruct (unparsable_script_skipped Demo.mixed_world _ _ [] [] "proj" Hs Hr Hp)
    as (H1 & H2 & _).
  split; [exact H1 | exact H2].
Defined.

Lemma get_python_version_monotone_as_floats_witness :
  value (project_versions Demo.fstring_world "proj") = Ok [3.6%float] /\
  value (project_versions Demo.union_match_world "proj")
    = Ok [3.10%float; 3.9%float] /\
  value (project_versions Demo.match_world "proj") = Ok [3.10%float] /\
  incl [3.10%float] [3.10%float; 3.9%float] /\
  PrimFloat.leb 3.10 3.9 = true.
Proof.
  assert (H1 : value (project_versions Demo.match_world "proj") = Ok [3.10%float])
    by (vm_compute; reflexivity).
  assert (H2 : value (project_versions Demo.union_match_world "proj")
               = Ok [3.10%float; 3.9%float]) by (vm_compute; reflexivity).
  assert (Hne : [3.10%float] <> []) by discriminate.
  assert (Hincl : incl [3.10%float] [3.10%float; 3.9%float]).
  { intros x [<- | []]. simpl. auto. }
  assert (Hv1 : value (get_python_version Demo.match_world "proj") = Ok 3.10%float)
    by (vm_compute; reflexivity).
  assert (Hv2 : value (get_python_version Demo.union_match_world "proj") = Ok 3.9%float)
    by (vm_compute; reflexivity).
  split; [vm_compute; reflexivity |]. split; [exact H2 |]. split; [exact H1 |].
  split; [exact Hincl |].
  exact (get_python_version_monotone_as_floats _ _ _ _ _ _ _ _ H1 H2 Hne Hincl Hv1 Hv2).
Defined.
